(** * Anthony's Musings web client: API client, content rendering, quick search

    A shallow embedding of the browser client under
    [frontend/static/js_backup] ([api.js], [main.js],
    [components/contentCard.js], [components/contentViewer.js]) together
    with the properties its specification states about it.

    Conventions of the embedding.
    - A JavaScript string is a [string]: one [ascii] per UTF-16 code unit,
      which covers the code units 0..255 (ASCII and Latin-1, including the
      non-breaking space U+00A0 that [trim] and the HTML serialiser treat
      specially).
    - [async] functions are functions into a promise outcome
      ([Resolved] / [Rejected]); the network and the timers are explicit
      state.
    - Host functions whose result depends on the locale
      ([Date.prototype.toLocaleDateString], [String.prototype.toUpperCase])
      are fields of the class [Host]. *)

From Stdlib Require Import String Ascii List ZArith Lia Bool Arith PeanoNat.
From Stdlib Require Import DecimalString.
Set Warnings "-register-all".
Import ListNotations.
Open Scope list_scope.
Open Scope string_scope.

(* ================================================================== *)
(** * JavaScript strings *)
(* ================================================================== *)

Module JsString.

(** Code units the source names through escape sequences. *)
Definition LF : ascii := "010"%char.
Definition NBSP : ascii := "160"%char.

Definition newline : string := String LF "".
Definition blank_line : string := String LF (String LF "").

(** [String.prototype.substring(start, end)]: both indices are clamped to
    the length and swapped when [start > end]. *)
Definition substring (s : string) (start stop : nat) : string :=
  let len := String.length s in
  let a := Nat.min start len in
  let b := Nat.min stop len in
  String.substring (Nat.min a b) (Nat.max a b - Nat.min a b) s.

(** [drop k s] removes the first [k] code units. *)
Fixpoint drop (k : nat) (s : string) : string :=
  match k, s with
  | O, _ => s
  | S _, EmptyString => EmptyString
  | S k', String _ s' => drop k' s'
  end.

(** White space and line terminators of ECMAScript that fit in a code
    unit below 256: TAB, LF, VT, FF, CR, SP and NBSP. *)
Definition is_whitespace (c : ascii) : bool :=
  match nat_of_ascii c with
  | 9 | 10 | 11 | 12 | 13 | 32 | 160 => true
  | _ => false
  end.

Fixpoint trimStart (s : string) : string :=
  match s with
  | EmptyString => EmptyString
  | String c s' => if is_whitespace c then trimStart s' else s
  end.

Fixpoint trimEnd (s : string) : string :=
  match s with
  | EmptyString => EmptyString
  | String c s' =>
      let r := trimEnd s' in
      if is_whitespace c && (r =? "")%string then EmptyString
      else String c r
  end.

(** [String.prototype.trim]. *)
Definition trim (s : string) : string := trimEnd (trimStart s).

(** JavaScript truthiness of a string: non-empty. *)
Definition truthy (s : string) : bool := negb (s =? "")%string.

(** [split_go sep skip s]: the pieces of [s] between the occurrences of a
    non-empty [sep], scanning left to right; [skip] counts the code units
    of an occurrence already matched that are still to be consumed. The
    head of the result is the piece being read. *)
Fixpoint split_go (sep : string) (skip : nat) (s : string) : list string :=
  match s with
  | EmptyString => [EmptyString]
  | String c s' =>
      match skip with
      | S k => split_go sep k s'
      | O =>
          if String.prefix sep s
          then EmptyString :: split_go sep (String.length sep - 1) s'
          else match split_go sep 0 s' with
               | p :: ps => String c p :: ps
               | [] => [String c EmptyString]
               end
      end
  end.

(** [String.prototype.split(sep)] with a string separator and no limit.
    An empty separator splits into code units. *)
Definition split (s sep : string) : list string :=
  if (sep =? "")%string
  then map (fun c => String c EmptyString) (list_ascii_of_string s)
  else split_go sep 0 s.

(** [Array.prototype.join(sep)] on an array of strings. *)
Definition join (l : list string) (sep : string) : string :=
  String.concat sep l.

(** [Number.prototype.toString] on an integer: plain decimal digits, as
    JavaScript prints the integers of magnitude below 1e21 (from there
    on it prints an exponent). The numbers printed here are word counts,
    lengths and status codes, all within that range. *)
Definition number_to_string (z : Z) : string :=
  NilZero.string_of_int (Z.to_int z).

Fixpoint spaces (n : nat) : string :=
  match n with
  | O => EmptyString
  | S n' => String " " (spaces n')
  end.

(** A line break of a template literal followed by its indentation. *)
Definition nl (indent : nat) : string := String LF (spaces indent).

(** [s.replace(/c/g, by)] for a one-unit pattern. *)
Fixpoint replace_all (c : ascii) (by_ : string) (s : string) : string :=
  match s with
  | EmptyString => EmptyString
  | String c' s' =>
      (if (c' =? c)%char then by_ else String c' EmptyString)
      ++ replace_all c by_ s'
  end.

(** [contains needle s]: [needle] occurs in [s]. *)
Fixpoint contains (needle s : string) : bool :=
  String.prefix needle s ||
  match s with
  | EmptyString => false
  | String _ s' => contains needle s'
  end.

End JsString.

(* ================================================================== *)
(** * Card excerpt *)
(* ================================================================== *)

(** The excerpt computed at the head of [MusingsApp.createContentCard]
    (main.js) and of [ContentCard.create] (contentCard.js):
    [content.substring(0, 150) + (content.length > 150 ? '...' : '')]. *)
Definition excerpt (content : string) : string :=
  JsString.substring content 0 150
  ++ (if (150 <? String.length content)%nat then "..." else "").


(* ================================================================== *)
(** * Data model *)
(* ================================================================== *)

Record Tag := mkTag {
  tag_id : Z;
  name : string;
  tag_type : string
}.

(** A content item as the API returns it. [tags] is [None] when the
    property is absent ([undefined]) or [null]. *)
Record ContentItem := mkItem {
  id : Z;
  title : string;
  content : string;
  content_type : string;
  word_count : Z;
  explicit_content : bool;
  publication_status : string;
  file_timestamp : string;
  tags : option (list Tag)
}.

(** Host functions whose result depends on the locale or on Unicode
    tables: [new Date(s).toLocaleDateString('en-US', {year: 'numeric',
    month: 'short', day: 'numeric'})] and [s.toUpperCase()]. *)
Class Host := {
  toLocaleDateString : string -> string;
  toUpperCase : string -> string;
  (** [JSON.stringify(item)] on a content item. *)
  JSON_stringify : ContentItem -> string
}.

(* ================================================================== *)
(** * Document object model *)
(* ================================================================== *)

Module Dom.

Import JsString.

(** What a click listener registered by the application does. *)
Inductive listener :=
| OpenContent (item : ContentItem).

(** A node of the document. [Raw] is content produced by assigning a
    string to [innerHTML]: it is kept as assigned (the HTML parser is
    not part of the model), so reading [innerHTML] back gives the
    assigned markup. [uid] is the identity of an element: two elements
    made by two calls of [createElement] differ in it. *)
Inductive node :=
| Text (data : string)
| Raw (html : string)
| Child (e : element)
with element :=
| mkElement (uid : nat) (tag : string) (classes : list string)
            (listeners : list listener) (children : list node).

Definition uid (e : element) : nat :=
  match e with mkElement u _ _ _ _ => u end.

Definition classes (e : element) : list string :=
  match e with mkElement _ _ cs _ _ => cs end.

Definition listeners (e : element) : list listener :=
  match e with mkElement _ _ _ ls _ => ls end.

Definition childNodes (e : element) : list node :=
  match e with mkElement _ _ _ _ ch => ch end.

Definition DQ : string := String "034"%char "".

(** [ name="value"] *)
Definition attr (name value : string) : string :=
  " " ++ name ++ "=" ++ DQ ++ value ++ DQ.

(** Serialisation of one code unit of a text node (HTML fragment
    serialisation, "escaping a string" outside attribute mode). *)
Definition escape_unit (c : ascii) : string :=
  if (c =? "&")%char then "&amp;"
  else if (c =? NBSP)%char then "&nbsp;"
  else if (c =? "<")%char then "&lt;"
  else if (c =? ">")%char then "&gt;"
  else String c "".

Fixpoint escape_text (s : string) : string :=
  match s with
  | EmptyString => EmptyString
  | String c s' => escape_unit c ++ escape_text s'
  end.

(** Serialisation of a node. *)
Fixpoint serialize (n : node) : string :=
  match n with
  | Text data => escape_text data
  | Raw html => html
  | Child (mkElement _ tag classes _ children) =>
      "<" ++ tag
      ++ match classes with
         | [] => ""
         | _ => attr "class" (join classes " ")
         end
      ++ ">" ++ join (map serialize children) "" ++ "</" ++ tag ++ ">"
  end.

(** [el.outerHTML]. *)
Definition outerHTML (e : element) : string := serialize (Child e).

(** [el.innerHTML] (getter). *)
Definition innerHTML (e : element) : string :=
  join (map serialize (childNodes e)) "".

Definition with_children (e : element) (ch : list node) : element :=
  match e with mkElement u tag cs ls _ => mkElement u tag cs ls ch end.

(** [el.innerHTML = html]. The string is kept as it was assigned: what
    the model holds for an element filled this way is the markup the code
    wrote, not the tree a browser parses out of it, and [innerHTML] and
    [outerHTML] read that string back unchanged. A browser serialises the
    parsed tree instead, so the two agree only on markup that the parser
    and the serialiser leave alone; statements about an element filled
    this way are statements about the string assigned. *)
Definition set_innerHTML (e : element) (html : string) : element :=
  with_children e (if (html =? "")%string then [] else [Raw html]).

(** The string given to the last [el.innerHTML = html], for an element
    whose content was set that way and not touched since. *)
Definition assigned_innerHTML (e : element) : option string :=
  match childNodes e with
  | [] => Some ""
  | [Raw html] => Some html
  | _ => None
  end.

(** [el.textContent = text]: the children are replaced by one text node,
    or by nothing when the text is empty. *)
Definition set_textContent (e : element) (text : string) : element :=
  with_children e (if (text =? "")%string then [] else [Text text]).

(** [el.className = cls] for a single class name. *)
Definition set_className (e : element) (cls : string) : element :=
  match e with mkElement u tag _ ls ch => mkElement u tag [cls] ls ch end.

Definition has_class (e : element) (cls : string) : bool :=
  existsb (String.eqb cls) (classes e).

(** [el.classList.add(cls)] and [el.classList.remove(cls)]. *)
Definition classList_add (e : element) (cls : string) : element :=
  match e with
  | mkElement u tag cs ls ch =>
      if existsb (String.eqb cls) cs then e
      else mkElement u tag (cs ++ [cls])%list ls ch
  end.

Definition classList_remove (e : element) (cls : string) : element :=
  match e with
  | mkElement u tag cs ls ch =>
      mkElement u tag (filter (fun c => negb (String.eqb cls c)) cs) ls ch
  end.

(** [el.addEventListener('click', l)]. *)
Definition addEventListener (e : element) (l : listener) : element :=
  match e with
  | mkElement u tag cs ls ch => mkElement u tag cs (ls ++ [l])%list ch
  end.

(** [parent.appendChild(child)]. *)
Definition appendChild (parent child : element) : element :=
  with_children parent (childNodes parent ++ [Child child])%list.

(** The document: the elements of the page that carry an [id] attribute,
    and the counter from which [createElement] draws identities. *)
Record document := mkDocument {
  next_uid : nat;
  by_id : list (string * element)
}.

(** [advance k d]: the document after [k] more elements were created. *)
Definition advance (k : nat) (d : document) : document :=
  mkDocument (k + next_uid d) (by_id d).

Fixpoint lookup (key : string) (m : list (string * element))
  : option element :=
  match m with
  | [] => None
  | (k, v) :: m' => if (k =? key)%string then Some v else lookup key m'
  end.

Fixpoint replace (key : string) (v : element)
    (m : list (string * element)) : list (string * element) :=
  match m with
  | [] => []
  | (k, v0) :: m' =>
      if (k =? key)%string then (k, v) :: m'
      else (k, v0) :: replace key v m'
  end.

(** Computations on the document. *)
Definition dom (A : Type) : Type := document -> A * document.

Definition ret {A} (a : A) : dom A := fun d => (a, d).

Definition bind {A B} (m : dom A) (k : A -> dom B) : dom B :=
  fun d => let (a, d') := m d in k a d'.

(** [document.createElement(tag)]. *)
Definition createElement (tag : string) : dom element :=
  fun d => (mkElement (next_uid d) tag [] [] [], advance 1 d).

(** [document.getElementById(key)]; [None] is [null]. *)
Definition getElementById (key : string) : dom (option element) :=
  fun d => (lookup key (by_id d), d).

(** Writes an element found by [getElementById] back after a mutation. *)
Definition store (key : string) (n : element) : dom unit :=
  fun d => (tt, mkDocument (next_uid d) (replace key n (by_id d))).

(** [for (x of l) body(x)], threading the accumulator [acc]. *)
Fixpoint forEach {A B} (l : list A) (body : B -> A -> dom B) (acc : B)
  : dom B :=
  match l with
  | [] => ret acc
  | x :: l' => bind (body acc x) (forEach l' body)
  end.

(** [l.map(f)] for an [f] that touches the document. *)
Fixpoint mapM {A B} (f : A -> dom B) (l : list A) : dom (list B) :=
  match l with
  | [] => ret []
  | x :: l' => bind (f x) (fun y => bind (mapM f l') (fun ys => ret (y :: ys)))
  end.

End Dom.

Declare Scope dom_scope.
Delimit Scope dom_scope with dom.
Notation "x <- m ;; k" := (Dom.bind m (fun x => k))
  (at level 61, m at next level, right associativity) : dom_scope.
Notation "m ;;; k" := (Dom.bind m (fun _ => k))
  (at level 61, right associativity) : dom_scope.

Local Open Scope dom_scope.

(* ================================================================== *)
(** * Content rendering *)
(* ================================================================== *)

(** [escapeHtml(text)]: a scratch [div] receives the text as its
    [textContent] and its [innerHTML] is read back. The method has the same
    body in [MusingsApp], [ContentCard], [ContentViewer] and [SearchBar]. *)
Definition escapeHtml (text : string) : Dom.dom string :=
  div <- Dom.createElement "div" ;;
  let div := Dom.set_textContent div text in
  Dom.ret (Dom.innerHTML div).

(** The bullet U+2022 that separates the fields of the metadata line of
    the full view. It lies outside the code units below 256 and is carried
    as the three bytes of its UTF-8 encoding. *)
Definition BULLET : string :=
  String "226"%char (String "128"%char (String "162"%char "")).

Section Rendering.

Context {host : Host}.

Import JsString.

(** [formatDate(dateString)], the same in the three components. *)
Definition formatDate (dateString : string) : string :=
  toLocaleDateString dateString.

Definition span_tag (escaped_name : string) : string :=
  "<span" ++ Dom.attr "class" "tag" ++ ">" ++ escaped_name ++ "</span>".

Definition explicit_badge : string :=
  "<span" ++ Dom.attr "class" "explicit-badge" ++ ">18+</span>".

(** The template literal assigned to [card.innerHTML], given its
    interpolated parts. *)
Definition card_template (item : ContentItem)
    (escaped_title escaped_excerpt tags_html : string) : string :=
  nl 12 ++ "<div" ++ Dom.attr "class" "card-header" ++ ">"
  ++ nl 16 ++ "<h3" ++ Dom.attr "class" "card-title" ++ ">"
           ++ escaped_title ++ "</h3>"
  ++ nl 16 ++ "<div" ++ Dom.attr "class" "card-meta" ++ ">"
  ++ nl 20 ++ "<span" ++ Dom.attr "class" "content-type" ++ ">"
           ++ toUpperCase (content_type item) ++ "</span>"
  ++ nl 20 ++ (if explicit_content item then explicit_badge else "")
  ++ nl 20 ++ "<span>" ++ number_to_string (word_count item)
           ++ " words</span>"
  ++ nl 20 ++ "<span>" ++ formatDate (file_timestamp item) ++ "</span>"
  ++ nl 16 ++ "</div>"
  ++ nl 12 ++ "</div>"
  ++ nl 12 ++ "<div" ++ Dom.attr "class" "card-excerpt" ++ ">"
           ++ escaped_excerpt ++ "</div>"
  ++ nl 12 ++ tags_html
  ++ nl 8.

(** [item.tags.map(tag => `<span class="tag">${escapeHtml(tag.name)}</span>`).join('')]
    wrapped in the [card-tags] division. *)
Definition card_tags (tags : list Tag) : Dom.dom string :=
  chips <- Dom.mapM (fun tag => n <- escapeHtml (name tag) ;;
                                Dom.ret (span_tag n)) tags ;;
  Dom.ret ("<div" ++ Dom.attr "class" "card-tags" ++ ">"
           ++ join chips "" ++ "</div>").

(** ** components/contentCard.js *)

(** [ContentCard.create(item)]. *)
Definition ContentCard_create (item : ContentItem)
  : Dom.dom Dom.element :=
  card <- Dom.createElement "div" ;;
  let card := Dom.set_className card "content-card" in
  let excerpt := excerpt (content item) in
  t <- escapeHtml (title item) ;;
  e <- escapeHtml excerpt ;;
  tg <- match tags item with
        | Some ((_ :: _) as tags) => card_tags tags
        | _ => Dom.ret ""
        end ;;
  Dom.ret (Dom.set_innerHTML card (card_template item t e tg)).

(** ** main.js, [MusingsApp.createContentCard(item)] *)

Definition createContentCard (item : ContentItem)
  : Dom.dom Dom.element :=
  card <- Dom.createElement "div" ;;
  let card := Dom.set_className card "content-card" in
  let card := Dom.addEventListener card (Dom.OpenContent item) in
  let excerpt := excerpt (content item) in
  t <- escapeHtml (title item) ;;
  e <- escapeHtml excerpt ;;
  tg <- match tags item with
        | Some tags => card_tags tags
        | None => Dom.ret ""
        end ;;
  Dom.ret (Dom.set_innerHTML card (card_template item t e tg)).

(** ** [formatContentForDisplay(content, type)]
    (contentViewer.js and main.js, same body) *)

Definition paragraph (escaped : string) : string :=
  "<p>" ++ escaped ++ "</p>".

Definition poetry_line (line : string) : Dom.dom string :=
  if truthy (trim line)
  then e <- escapeHtml line ;; Dom.ret (paragraph e)
  else Dom.ret "<p>&nbsp;</p>".

Definition dialogue_paragraph (p : string) : Dom.dom string :=
  e <- escapeHtml p ;; Dom.ret (paragraph e).

Definition default_paragraph (p : string) : Dom.dom string :=
  e <- escapeHtml (trim p) ;; Dom.ret (paragraph e).

Definition formatContentForDisplay (content type : string)
  : Dom.dom string :=
  if (type =? "poetry")%string then
    ps <- Dom.mapM poetry_line (split content newline) ;;
    Dom.ret (join ps "")
  else if (type =? "dialogue")%string then
    ps <- Dom.mapM dialogue_paragraph (split content blank_line) ;;
    Dom.ret (join ps "")
  else
    ps <- Dom.mapM default_paragraph (split content blank_line) ;;
    Dom.ret (join ps "").

(** The template literal assigned to [contentDisplay.innerHTML]; [sep]
    is the separator of the metadata line. *)
Definition viewer_template (sep : string) (item : ContentItem)
    (escaped_title formatted : string) : string :=
  nl 12 ++ "<h1" ++ Dom.attr "class" "content-title" ++ ">"
        ++ escaped_title ++ "</h1>"
  ++ nl 12 ++ "<div" ++ Dom.attr "class" "content-meta" ++ ">"
  ++ nl 16 ++ "<span>" ++ toUpperCase (content_type item)
        ++ " " ++ sep ++ " " ++ number_to_string (word_count item)
        ++ " words " ++ sep ++ " " ++ formatDate (file_timestamp item)
        ++ "</span><br>"
  ++ nl 16 ++ match tags item with
              | Some ((_ :: _) as tags) =>
                  "<span>Tags: " ++ join (map name tags) ", " ++ "</span>"
              | _ => ""
              end
  ++ nl 12 ++ "</div>"
  ++ nl 12 ++ "<div" ++ Dom.attr "class" "content-text" ++ ">"
        ++ formatted ++ "</div>"
  ++ nl 8.

(** The body shared by [ContentViewer.display] and
    [MusingsApp.displayContent] once the page is selected. *)
Definition render_full_view (sep : string) (item : ContentItem)
  : Dom.dom unit :=
  contentDisplay <- Dom.getElementById "contentDisplay" ;;
  match contentDisplay with
  | None => Dom.ret tt
  | Some contentDisplay =>
      formattedContent <-
        formatContentForDisplay (content item) (content_type item) ;;
      t <- escapeHtml (title item) ;;
      Dom.store "contentDisplay"
        (Dom.set_innerHTML contentDisplay
           (viewer_template sep item t formattedContent))
  end.

(** ** components/contentViewer.js, [ContentViewer.display(item)] *)
Definition ContentViewer_display (item : ContentItem) : Dom.dom unit :=
  render_full_view BULLET item.

End Rendering.

(* ================================================================== *)
(** * JavaScript values, errors and promises *)
(* ================================================================== *)

(** Values exchanged with the API. Arrays are typed by what the endpoints
    return: an array of tag objects or an array of content items. *)
Inductive value :=
| VUndefined
| VNull
| VBool (b : bool)
| VNumber (z : Z)
| VString (s : string)
| VTags (l : list Tag)
| VItems (l : list ContentItem)
| VObject (fields : list (string * value)).

Inductive error :=
| TypeError (message : string)
| AbortError (message : string)
| SyntaxError (message : string)
| APIError (message : string) (status : Z) (data : value).

(** [error.message]. *)
Definition message_of (e : error) : string :=
  match e with
  | TypeError m | AbortError m | SyntaxError m | APIError m _ _ => m
  end.

(** How an [async] call settles. *)
Inductive promise (A : Type) :=
| Resolved (a : A)
| Rejected (e : error).
Arguments Resolved {A} a.
Arguments Rejected {A} e.

Module Value.

(** [Array.isArray(v)]. *)
Definition isArray (v : value) : bool :=
  match v with
  | VTags _ | VItems _ => true
  | _ => false
  end.

(** ToBoolean. *)
Definition truthy (v : value) : bool :=
  match v with
  | VUndefined | VNull => false
  | VBool b => b
  | VNumber z => negb (z =? 0)%Z
  | VString s => JsString.truthy s
  | VTags _ | VItems _ | VObject _ => true
  end.

Fixpoint assoc (key : string) (fields : list (string * value)) : value :=
  match fields with
  | [] => VUndefined
  | (k, v) :: fields' => if (k =? key)%string then v else assoc key fields'
  end.

(** [v.key] for a key that is not a built-in property of arrays, strings,
    numbers or booleans. Reading a property of [null] or [undefined]
    throws. *)
Definition get (v : value) (key : string) : promise value :=
  match v with
  | VUndefined | VNull =>
      Rejected (TypeError ("Cannot read properties of null (reading '"
                           ++ key ++ "')"))
  | VObject fields => Resolved (assoc key fields)
  | _ => Resolved VUndefined
  end.

(** [v.length === 0]: the length of an array or of a string, the
    property [length] of an object; [undefined] on a number or a boolean.
    Reading it from [null] or [undefined] throws. *)
Definition length_is_zero (v : value) : promise bool :=
  match v with
  | VUndefined | VNull =>
      Rejected (TypeError ("Cannot read properties of undefined "
                           ++ "(reading 'length')"))
  | VBool _ | VNumber _ => Resolved false
  | VString s => Resolved (s =? "")%string
  | VTags l => Resolved (match l with [] => true | _ => false end)
  | VItems l => Resolved (match l with [] => true | _ => false end)
  | VObject fields =>
      Resolved (match assoc "length" fields with
                | VNumber Z0 => true
                | _ => false
                end)
  end.

(** Whether ToPrimitive succeeds on a value, as ToString and ToNumber
    need: an object parsed from JSON whose own property [toString] hides
    the inherited method cannot be converted (no JSON value is a
    function); every other value can. *)
Definition converts (v : value) : bool :=
  match v with
  | VObject fields =>
      negb (existsb (fun kv : string * value =>
                       (fst kv =? "toString")%string) fields)
  | _ => true
  end.

End Value.

(* ================================================================== *)
(** * api.js: the API client *)
(* ================================================================== *)

Module Api.

(** What the server answers to one [fetch]. [body] is the result of
    parsing the response body as JSON, [None] when it is malformed. *)
Record Response := mkResponse {
  status : Z;
  statusText : string;
  body : option value
}.

(** [response.ok]: the status is in the range 200-299. *)
Definition ok (r : Response) : bool :=
  ((200 <=? status r) && (status r <=? 299))%Z.

(** What happens to one [fetch] left alone: after [latency] milliseconds
    it rejects (network failure) or resolves with a response. *)
Inductive settles :=
| Fails (e : error)
| Responds (r : Response).

Record fetch_outcome := mkOutcome {
  latency : Z;
  result : settles
}.

(** The environment of the client: the outcome of the [n]-th [fetch]
    of the run (counted from 0; times are in milliseconds) and the host
    clock read by
    [new Date().toISOString()]. *)
Record env := mkEnv {
  network : nat -> fetch_outcome;
  now_iso : string
}.

Inductive event :=
| EFetch (attempt : nat) (method url : string)
| EDelay (ms : Z).

Record state := mkState {
  fetched : nat;
  trace : list event
}.

Definition initial : state := mkState 0 [].

(** Computations of the client: they read the environment, thread the
    state and settle like a promise. *)
Definition io (A : Type) : Type := env -> state -> promise A * state.

Definition ret {A} (a : A) : io A := fun _ s => (Resolved a, s).

Definition throw {A} (e : error) : io A := fun _ s => (Rejected e, s).

Definition bind {A B} (m : io A) (k : A -> io B) : io B :=
  fun w s =>
    match m w s with
    | (Resolved a, s') => k a w s'
    | (Rejected e, s') => (Rejected e, s')
    end.

(** [try { m } catch (error) { handler(error) }]. *)
Definition try_catch {A} (m : io A) (handler : error -> io A) : io A :=
  fun w s =>
    match m w s with
    | (Resolved a, s') => (Resolved a, s')
    | (Rejected e, s') => handler e w s'
    end.

Definition log (ev : event) : io unit :=
  fun _ s => (Resolved tt, mkState (fetched s) (trace s ++ [ev])%list).

(** [await fetch(url, {..., signal})] with an abort timer of
    [timeout] milliseconds ([None]: no abort signal): the fetch rejects
    with an [AbortError] when the timer fires first. [attempt] only labels
    the event. The message of that error is the host's text; the model
    fixes one, and nothing below depends on it but the kind of error. *)
Definition fetch (attempt : nat) (method url : string)
    (timeout : option Z) : io Response :=
  fun w s =>
    let o := network w (fetched s) in
    let s' := mkState (S (fetched s))
                      (trace s ++ [EFetch attempt method url])%list in
    let aborted := match timeout with
                   | Some t => (t <=? latency o)%Z
                   | None => false
                   end in
    if aborted
    then (Rejected (AbortError "The operation was aborted."), s')
    else match result o with
         | Fails e => (Rejected e, s')
         | Responds r => (Resolved r, s')
         end.

(** [await response.json()]; the message of the [SyntaxError] is the
    host's text, fixed here as for [fetch]. *)
Definition json (r : Response) : io value :=
  match body r with
  | Some v => ret v
  | None => throw (SyntaxError "Unexpected token in JSON")
  end.

Record APIClient := mkClient {
  baseURL : string;
  timeout : Z;
  retryAttempts : nat;
  retryDelay : Z
}.

(** [new APIClient()]. *)
Definition new_APIClient : APIClient :=
  mkClient "/api" 10000 3 1000.

Record options := mkOptions {
  method : string;
  request_body : option value
}.

Definition default_options : options := mkOptions "GET" None.

(** [this.delay(ms)]. *)
Definition delay (ms : Z) : io unit := log (EDelay ms).

Definition http_message (r : Response) : string :=
  "HTTP " ++ JsString.number_to_string (status r) ++ ": " ++ statusText r.

(** The body of the [try] block of one attempt. *)
Definition attempt_body (this : APIClient) (attempt : nat) (url : string)
    (finalOptions : options) : io value :=
  bind (fetch attempt (method finalOptions) url (Some (timeout this)))
    (fun response =>
       if negb (ok response) then
         bind (try_catch (json response) (fun _ => ret (VObject [])))
           (fun errorData =>
              throw (APIError (http_message response) (status response)
                              errorData))
       else
         bind (json response) (fun data => ret data)).

(** The loop [for (let attempt = 1; attempt <= this.retryAttempts;
    attempt++)]; [remaining] counts the iterations left. Leaving the loop
    by its condition returns [undefined]. *)
Fixpoint attempts (this : APIClient) (url : string) (finalOptions : options)
    (remaining attempt : nat) : io value :=
  match remaining with
  | O => ret VUndefined
  | S remaining' =>
      try_catch (attempt_body this attempt url finalOptions)
        (fun error =>
           if (attempt =? retryAttempts this)%nat then throw error
           else bind (delay (retryDelay this * Z.of_nat attempt))
                  (fun _ => attempts this url finalOptions remaining'
                                     (S attempt)))
  end.

(** [APIClient.makeRequest(endpoint, options)]. *)
Definition makeRequest (this : APIClient) (endpoint : string)
    (opts : options) : io value :=
  let url := baseURL this ++ endpoint in
  attempts this url opts (retryAttempts this) 1.

(** [APIClient.healthCheck()]. *)
Definition healthCheck (this : APIClient) : io bool :=
  try_catch
    (bind (fetch 1 "GET" "/health" None)
       (fun response => ret (ok response)))
    (fun error => ret false).

Record ConnectionStatus := mkStatus {
  conn_status : string;
  conn_error : option string;
  timestamp : string
}.

Definition toISOString : io string := fun w s => (Resolved (now_iso w), s).

(** [APIClient.getConnectionStatus()]. *)
Definition getConnectionStatus (this : APIClient) : io ConnectionStatus :=
  try_catch
    (bind (healthCheck this) (fun _ =>
     bind toISOString (fun ts =>
     ret (mkStatus "online" None ts))))
    (fun error =>
       bind toISOString (fun ts =>
       ret (mkStatus "offline" (Some (message_of error)) ts))).

(** The fetch events of a trace, and the delay events. *)
Definition is_fetch (ev : event) : bool :=
  match ev with EFetch _ _ _ => true | _ => false end.

Definition fetch_count (tr : list event) : nat :=
  List.length (filter is_fetch tr).



End Api.

(* ================================================================== *)
(** * main.js: the application *)
(* ================================================================== *)

(** The separator of the metadata lines written by main.js: the file holds
    the bullet U+2022 decoded twice (U+00E2 U+20AC U+00A2), carried here as
    the bytes of its UTF-8 encoding. *)
Definition MOJIBAKE_BULLET : string :=
  String "195"%char (String "162"%char (String "226"%char (String "130"%char
  (String "172"%char (String "194"%char (String "162"%char "")))))).

Module App.

Import JsString.

(** The fields set by the constructor of [MusingsApp]. [searchTimeout] is
    [None] for [null], otherwise the handle returned by [setTimeout]. *)
Record MusingsApp := mkApp {
  currentPage : string;
  explicitContentEnabled : bool;
  currentContent : option ContentItem;
  searchTimeout : option nat;
  isLoading : bool
}.

(** [new MusingsApp()], before [init] runs. *)
Definition new_MusingsApp : MusingsApp :=
  mkApp "dashboard" false None None false.

(** The callbacks handed to [setTimeout] by [initSearchBar]. *)
Inductive callback :=
| DebouncedSearch (query : string)
| HideAfterBlur.

Record timer := mkTimer {
  handle : nat;
  due : Z;
  action : callback
}.

(** What the code awaiting an API call does once the call settles. *)
Inductive continuation :=
| AfterStatistics
| AfterRecentContent
| AfterBrowseContent
| AfterQuickSearch
| AfterAdvancedSearch
| AfterTags.

(** One call of a typed accessor of the API client. *)
Record call := mkCall {
  endpoint : string;
  params : list (string * value);
  awaited_by : continuation
}.

(** The page as the application sees it: its own fields, the document,
    the navigation links present (their [data-page] values), the text in
    the quick-search field, the timers of the event loop (sorted by due
    time, clock in milliseconds), every API call made so far and the
    indices of those not yet settled. *)
Record world := mkWorld {
  this : MusingsApp;
  document : Dom.document;
  nav_links : list string;
  searchInput_value : string;
  now : Z;
  next_handle : nat;
  timers : list timer;
  calls : list call;
  pending : list nat
}.

Definition with_this (a : MusingsApp) (w : world) : world :=
  mkWorld a (document w) (nav_links w) (searchInput_value w) (now w)
          (next_handle w) (timers w) (calls w) (pending w).

Definition with_document (d : Dom.document) (w : world) : world :=
  mkWorld (this w) d (nav_links w) (searchInput_value w) (now w)
          (next_handle w) (timers w) (calls w) (pending w).

Definition with_value (v : string) (w : world) : world :=
  mkWorld (this w) (document w) (nav_links w) v (now w)
          (next_handle w) (timers w) (calls w) (pending w).

Definition with_now (t : Z) (w : world) : world :=
  mkWorld (this w) (document w) (nav_links w) (searchInput_value w) t
          (next_handle w) (timers w) (calls w) (pending w).

Definition with_timers (n : nat) (ts : list timer) (w : world) : world :=
  mkWorld (this w) (document w) (nav_links w) (searchInput_value w) (now w)
          n ts (calls w) (pending w).

Definition with_calls (cs : list call) (ps : list nat) (w : world) : world :=
  mkWorld (this w) (document w) (nav_links w) (searchInput_value w) (now w)
          (next_handle w) (timers w) cs ps.

Definition set_currentPage (p : string) (a : MusingsApp) : MusingsApp :=
  mkApp p (explicitContentEnabled a) (currentContent a) (searchTimeout a)
        (isLoading a).

Definition set_explicitContentEnabled (b : bool) (a : MusingsApp)
  : MusingsApp :=
  mkApp (currentPage a) b (currentContent a) (searchTimeout a) (isLoading a).

Definition set_currentContent (c : option ContentItem) (a : MusingsApp)
  : MusingsApp :=
  mkApp (currentPage a) (explicitContentEnabled a) c (searchTimeout a)
        (isLoading a).

Definition set_searchTimeout (h : option nat) (a : MusingsApp)
  : MusingsApp :=
  mkApp (currentPage a) (explicitContentEnabled a) (currentContent a) h
        (isLoading a).

(** Runs a computation on the document of the world. *)
Definition on_document {A} (m : Dom.dom A) (w : world) : A * world :=
  let (a, d) := m (document w) in (a, with_document d w).

Definition exec (m : Dom.dom unit) (w : world) : world :=
  snd (on_document m w).

(** ** Timers of the event loop *)

Fixpoint insert_timer (t : timer) (ts : list timer) : list timer :=
  match ts with
  | [] => [t]
  | t' :: ts' =>
      if (due t <? due t')%Z then t :: ts else t' :: insert_timer t ts'
  end.

(** [setTimeout(cb, ms)]: returns the handle (handles start at 1). *)
Definition setTimeout (cb : callback) (ms : Z) (w : world) : nat * world :=
  let h := next_handle w in
  (h, with_timers (S h) (insert_timer (mkTimer h (now w + ms) cb) (timers w))
                  w).

(** [clearTimeout(h)]. *)
Definition clearTimeout (h : nat) (w : world) : world :=
  with_timers (next_handle w)
              (filter (fun t => negb (handle t =? h)%nat) (timers w)) w.

Definition is_pending_timer (h : nat) (w : world) : bool :=
  existsb (fun t => (handle t =? h)%nat) (timers w).

(** ** Calls through the API client *)

(** Records the call [API.<accessor>(params)] and who awaits it. *)
Definition api_call (endpoint : string) (params : list (string * value))
    (k : continuation) (w : world) : world :=
  with_calls (calls w ++ [mkCall endpoint params k])%list
             (pending w ++ [List.length (calls w)])%list w.

End App.

Section Application.

Context {host : Host}.

Import JsString App.

(** ** Rendering into the gated views *)

(** [MusingsApp.displayRecentContent(content)]. *)
Definition displayRecentContent (this : MusingsApp)
    (content : list ContentItem) : Dom.dom unit :=
  container <- Dom.getElementById "recentContent" ;;
  match container with
  | None => Dom.ret tt
  | Some container =>
      let container := Dom.set_innerHTML container "" in
      container <-
        Dom.forEach content
          (fun container item =>
             if negb (explicitContentEnabled this) && explicit_content item
             then Dom.ret container
             else card <- createContentCard item ;;
                  Dom.ret (Dom.appendChild container card))
          container ;;
      Dom.store "recentContent" container
  end.

(** [MusingsApp.displayBrowseContent(content)]. *)
Definition displayBrowseContent (this : MusingsApp)
    (content : list ContentItem) : Dom.dom unit :=
  container <- Dom.getElementById "browseContent" ;;
  match container with
  | None => Dom.ret tt
  | Some container =>
      let container := Dom.set_innerHTML container "" in
      container <-
        Dom.forEach content
          (fun container item =>
             card <- createContentCard item ;;
             Dom.ret (Dom.appendChild container card))
          container ;;
      Dom.store "browseContent" container
  end.

(** [MusingsApp.displayAdvancedSearchResults(results)], on
    [results.items]. The click listeners bound again after the insertion
    live on nodes parsed from the markup and are not represented. *)
Definition displayAdvancedSearchResults (this : MusingsApp)
    (items : list ContentItem) : Dom.dom unit :=
  container <- Dom.getElementById "searchResultsContainer" ;;
  match container with
  | None => Dom.ret tt
  | Some container =>
      match items with
      | [] =>
          Dom.store "searchResultsContainer"
            (Dom.set_innerHTML container
               ("<div" ++ Dom.attr "class" "no-results"
                ++ ">No matching content found.</div>"))
      | _ =>
          cards <- Dom.mapM (fun item => card <- createContentCard item ;;
                                         Dom.ret (Dom.outerHTML card))
                            items ;;
          Dom.store "searchResultsContainer"
            (Dom.set_innerHTML container
               (nl 12 ++ "<div" ++ Dom.attr "class" "search-summary" ++ ">"
                ++ nl 16 ++ "Found "
                ++ number_to_string (Z.of_nat (List.length items))
                ++ " result"
                ++ (if (List.length items =? 1)%nat then "" else "s")
                ++ nl 12 ++ "</div>"
                ++ nl 12 ++ "<div" ++ Dom.attr "class" "content-grid" ++ ">"
                ++ nl 16 ++ join cards ""
                ++ nl 12 ++ "</div>"
                ++ nl 8))
      end
  end.

(** [MusingsApp.showSearchResults()] and [hideSearchResults()]. *)
Definition showSearchResults : Dom.dom unit :=
  searchResults <- Dom.getElementById "searchResults" ;;
  match searchResults with
  | Some el => Dom.store "searchResults" (Dom.classList_remove el "hidden")
  | None => Dom.ret tt
  end.

Definition hideSearchResults : Dom.dom unit :=
  searchResults <- Dom.getElementById "searchResults" ;;
  match searchResults with
  | Some el => Dom.store "searchResults" (Dom.classList_add el "hidden")
  | None => Dom.ret tt
  end.

Definition search_result_item (item : ContentItem) : Dom.dom string :=
  t <- escapeHtml (title item) ;;
  Dom.ret
    (nl 16 ++ "<div" ++ Dom.attr "class" "search-result-item"
     ++ " onclick=" ++ Dom.DQ ++ "app.openContent("
     ++ replace_all "034"%char "&quot;" (JSON_stringify item)
     ++ ")" ++ Dom.DQ ++ ">"
     ++ nl 20 ++ "<strong>" ++ t ++ "</strong><br>"
     ++ nl 20 ++ "<small>" ++ toUpperCase (content_type item) ++ " "
     ++ MOJIBAKE_BULLET ++ " " ++ number_to_string (word_count item)
     ++ " words</small>"
     ++ nl 16 ++ "</div>"
     ++ nl 12).

(** [MusingsApp.displaySearchResults(results)]. *)
Definition displaySearchResults (results : list ContentItem)
  : Dom.dom unit :=
  searchResults <- Dom.getElementById "searchResults" ;;
  match searchResults with
  | None => Dom.ret tt
  | Some el =>
      match results with
      | [] =>
          Dom.store "searchResults"
            (Dom.set_innerHTML el
               ("<div" ++ Dom.attr "class" "search-result-item"
                ++ ">No results found</div>"))
      | _ =>
          rows <- Dom.mapM search_result_item results ;;
          Dom.store "searchResults" (Dom.set_innerHTML el (join rows ""))
      end ;;;
      showSearchResults
  end.

(** [MusingsApp.showContentWarning(item)] and [hideContentWarning()]. *)
Definition showContentWarning (item : ContentItem) : Dom.dom unit :=
  contentType <- Dom.getElementById "warningContentType" ;;
  match contentType with
  | Some el =>
      Dom.store "warningContentType"
        (Dom.set_textContent el (toUpperCase (content_type item)))
  | None => Dom.ret tt
  end ;;;
  modal <- Dom.getElementById "contentWarning" ;;
  match modal with
  | Some el => Dom.store "contentWarning" (Dom.classList_remove el "hidden")
  | None => Dom.ret tt
  end.

Definition hideContentWarning : Dom.dom unit :=
  modal <- Dom.getElementById "contentWarning" ;;
  match modal with
  | Some el => Dom.store "contentWarning" (Dom.classList_add el "hidden")
  | None => Dom.ret tt
  end.

(** The tag names read by [tag.name] over an array; an element without
    that property gives [undefined], which [textContent] takes as the
    empty string. *)
Definition names_of (tags : value) : list string :=
  match tags with
  | VTags l => map name l
  | VItems l => map (fun _ => "") l
  | _ => []
  end.

Definition tag_cloud_entry (tag_name : string) : Dom.dom string :=
  a <- escapeHtml tag_name ;;
  b <- escapeHtml tag_name ;;
  Dom.ret ("<span" ++ Dom.attr "class" "tag" ++ Dom.attr "data-tag" a
           ++ ">" ++ b ++ "</span>").

(** [MusingsApp.loadTagCloud()] from the point where [API.getTags()] has
    resolved with [response]. A [TypeError] raised by [response.tags] is
    caught and logged, so the function returns normally either way. *)
Definition loadTagCloud_resolved (response : value) : Dom.dom unit :=
  match Value.get response "tags" with
  | Rejected _ => Dom.ret tt
  | Resolved response_tags =>
      let tags :=
        if Value.truthy response_tags then response_tags else response in
      tagCloud <- Dom.getElementById "tagCloud" ;;
      match tagCloud with
      | Some el =>
          if Value.isArray tags then
            entries <- Dom.mapM tag_cloud_entry (firstn 12 (names_of tags)) ;;
            Dom.store "tagCloud" (Dom.set_innerHTML el (join entries ""))
          else Dom.ret tt
      | None => Dom.ret tt
      end
  end.

(** ** Responses that are not lists of items

    The loaders hand [response.items] to the display functions without
    looking at it. What these do with a value that is not an array of
    content items follows; whatever they throw is caught and logged by
    the loader. *)

(** The callback of [forEach] or [map] on the first element of a
    non-empty array of tags: one element is created ([createContentCard]
    makes the card, [escapeHtml] its scratch element) before a property
    that a tag lacks is read and a method called on it throws. *)
Definition first_callback (content : value) : Dom.dom unit :=
  match content with
  | VTags (_ :: _) => _ <- Dom.createElement "div" ;; Dom.ret tt
  | _ => Dom.ret tt
  end.

(** [displayRecentContent(content)] and [displayBrowseContent(content)]
    with the container of id [key]: the container is emptied, then
    [content.forEach] throws unless [content] is an array. *)
Definition display_other (key : string) (content : value) : Dom.dom unit :=
  container <- Dom.getElementById key ;;
  match container with
  | None => Dom.ret tt
  | Some container =>
      Dom.store key (Dom.set_innerHTML container "") ;;;
      first_callback content
  end.

(** [displaySearchResults(results)] and [displayAdvancedSearchResults]
    on [results.items], with the container of id [key]: a value whose
    length is zero is shown as the empty result ([on_empty]); for any
    other the markup is never assigned, since building it throws. *)
Definition results_other (key : string) (on_empty : Dom.dom unit)
    (results : value) : Dom.dom unit :=
  container <- Dom.getElementById key ;;
  match container with
  | None => Dom.ret tt
  | Some _ =>
      match Value.length_is_zero results with
      | Rejected _ => Dom.ret tt
      | Resolved true => on_empty
      | Resolved false => first_callback results
      end
  end.

(** Whether [updateDashboardStats(stats)] returns. It throws when
    [stats.total_words] is [undefined] or [null] ([formatNumber] calls
    [toString] on it) and when one of the four statistics cannot be
    converted to a string or a number. The fields of the statistics
    panel, which the page is taken to hold, are not represented. *)
Definition updateDashboardStats_returns (stats : value) : bool :=
  match Value.get stats "total_writings", Value.get stats "total_words",
        Value.get stats "average_words", Value.get stats "unique_tags" with
  | Resolved total_writings, Resolved total_words,
    Resolved average_words, Resolved unique_tags =>
      Value.converts total_writings
      && match total_words with
         | VUndefined | VNull => false
         | _ => Value.converts total_words
         end
      && Value.converts average_words
      && Value.converts unique_tags
  | _, _, _, _ => false
  end.

End Application.

Section EventLoop.

Context {host : Host}.

Import JsString App.

(** ** Data loads *)

Definition gate (w : world) : bool := explicitContentEnabled (this w).

(** [loadDashboardData()] up to its first [await]. *)
Definition loadDashboardData (w : world) : world :=
  api_call "/stats" [] AfterStatistics w.

(** [loadBrowseContent()] up to its [await]. *)
Definition loadBrowseContent (w : world) : world :=
  api_call "/writings"
    [("limit", VNumber 1000); ("explicit", VBool (gate w))]
    AfterBrowseContent w.

(** [performSearch(query)] up to its [await]. *)
Definition performSearch (query : string) (w : world) : world :=
  api_call "/search"
    [("q", VString query); ("limit", VNumber 10);
     ("include_explicit", VBool (gate w))]
    AfterQuickSearch w.

(** [performAdvancedSearch(query)] up to its [await]. *)
Definition performAdvancedSearch (query : string) (w : world) : world :=
  api_call "/search"
    [("q", VString query); ("limit", VNumber 50);
     ("include_explicit", VBool (gate w))]
    AfterAdvancedSearch w.

(** [loadTagCloud()] up to its [await]. *)
Definition loadTagCloud (w : world) : world :=
  api_call "/tags" [] AfterTags w.

(** The rest of a loader once its call has settled. A rejection is
    caught and logged by every loader, and so is what the rest of the
    loader throws: reading [items] from a response that is [null], or
    displaying a value that is not a list of items. After the
    statistics the dashboard loader asks for the recent items, unless
    [updateDashboardStats] has thrown. *)
Definition resume (k : continuation) (outcome : promise value) (w : world)
  : world :=
  match outcome with
  | Rejected _ => w
  | Resolved response =>
      match k with
      | AfterStatistics =>
          if updateDashboardStats_returns response then
            api_call "/writings"
              [("limit", VNumber 6); ("sort", VString "date_desc");
               ("explicit", VBool (gate w))]
              AfterRecentContent w
          else w
      | AfterRecentContent =>
          match Value.get response "items" with
          | Rejected _ => w
          | Resolved (VItems items) =>
              exec (displayRecentContent (this w) items) w
          | Resolved content => exec (display_other "recentContent" content) w
          end
      | AfterBrowseContent =>
          match Value.get response "items" with
          | Rejected _ => w
          | Resolved (VItems items) =>
              exec (displayBrowseContent (this w) items) w
          | Resolved content => exec (display_other "browseContent" content) w
          end
      | AfterQuickSearch =>
          match Value.get response "items" with
          | Rejected _ => w
          | Resolved (VItems items) => exec (displaySearchResults items) w
          | Resolved results =>
              exec (results_other "searchResults" (displaySearchResults [])
                                  results) w
          end
      | AfterAdvancedSearch =>
          match Value.get response "items" with
          | Rejected _ => w
          | Resolved (VItems items) =>
              exec (displayAdvancedSearchResults (this w) items) w
          | Resolved results =>
              exec (results_other "searchResultsContainer"
                      (displayAdvancedSearchResults (this w) [])
                      results) w
          end
      | AfterTags => exec (loadTagCloud_resolved response) w
      end
  end.

(** The call of index [i] settles with [outcome]. *)
Definition settle (i : nat) (outcome : promise value) (w : world) : world :=
  if existsb (Nat.eqb i) (pending w) then
    let w := with_calls (calls w)
               (filter (fun j => negb (j =? i)%nat) (pending w)) w in
    match nth_error (calls w) i with
    | Some c => resume (awaited_by c) outcome w
    | None => w
    end
  else w.

(** ** Navigation *)

Definition deactivate_pages (d : Dom.document) : Dom.document :=
  Dom.mkDocument (Dom.next_uid d)
    (map (fun kv : string * Dom.element =>
            let (k, el) := kv in
            if Dom.has_class el "page"
            then (k, Dom.classList_remove el "active")
            else (k, el))
         (Dom.by_id d)).

(** [navigateToPage(page)]. Looking up the navigation link of a page
    that has none throws before anything else is done. The loaders of
    the tag explorer and of the analytics page are not part of the
    model. *)
Definition navigateToPage (page : string) (w : world) : world :=
  if existsb (String.eqb page) (nav_links w) then
    let w := with_document (deactivate_pages (document w)) w in
    match Dom.lookup page (Dom.by_id (document w)) with
    | Some targetPage =>
        let w := exec (Dom.store page (Dom.classList_add targetPage "active"))
                      w in
        let w := with_this (set_currentPage page (this w)) w in
        if (page =? "dashboard")%string then loadDashboardData w
        else if (page =? "browse")%string then loadBrowseContent w
        else w
    | None => w
    end
  else w.

(** [refreshCurrentContent()]. *)
Definition refreshCurrentContent (w : world) : world :=
  if (currentPage (this w) =? "dashboard")%string then loadDashboardData w
  else if (currentPage (this w) =? "browse")%string then loadBrowseContent w
  else w.

(** The click listener of the explicit-content toggle
    ([initExplicitToggle]); it exists only when the toggle does. The icon
    and the label inside the toggle, which the page is taken to hold, are
    not represented. *)
Definition click_explicitToggle (w : world) : world :=
  match Dom.lookup "explicitToggle" (Dom.by_id (document w)) with
  | None => w
  | Some toggle =>
      let w := with_this
                 (set_explicitContentEnabled (negb (gate w)) (this w)) w in
      let w := exec (Dom.store "explicitToggle"
                       (if gate w then Dom.classList_add toggle "enabled"
                        else Dom.classList_remove toggle "enabled")) w in
      refreshCurrentContent w
  end.

(** ** Opening an item *)

(** [displayContent(item, bypassWarning)]. *)
Definition displayContent (item : ContentItem) (w : world) : world :=
  let w := navigateToPage "content-viewer" w in
  exec (render_full_view MOJIBAKE_BULLET item) w.

(** [openContent(item)]. *)
Definition openContent (item : ContentItem) (w : world) : world :=
  if explicit_content item && negb (gate w) then
    let w := with_this (set_currentContent (Some item) (this w)) w in
    exec (showContentWarning item) w
  else displayContent item w.

(** The click listeners of the two buttons of the content warning. *)
Definition click_confirmAge (w : world) : world :=
  let w := exec hideContentWarning w in
  match currentContent (this w) with
  | Some item => displayContent item w
  | None => w
  end.

Definition click_cancelWarning (w : world) : world :=
  let w := exec hideContentWarning w in
  navigateToPage "browse" w.

(** ** Quick search ([initSearchBar]) *)

(** The listener of the [input] event; [value] is [e.target.value]. *)
Definition on_input (value : string) (w : world) : world :=
  let w := with_value value w in
  let query := trim value in
  let w := match searchTimeout (this w) with
           | Some h => if (h =? 0)%nat then w else clearTimeout h w
           | None => w
           end in
  let (h, w) := setTimeout (DebouncedSearch query) 300 w in
  with_this (set_searchTimeout (Some h) (this w)) w.

(** The listener of [focus]. *)
Definition on_focus (w : world) : world :=
  if (2 <=? String.length (trim (searchInput_value w)))%nat
  then exec showSearchResults w
  else w.

(** The listener of [blur]. *)
Definition on_blur (w : world) : world :=
  snd (setTimeout HideAfterBlur 200 w).

(** [navigateToSearch(query)]; the advanced-search field is not
    represented. *)
Definition navigateToSearch (query : string) (w : world) : world :=
  performAdvancedSearch query (navigateToPage "search" w).

(** The listener of [keydown] for the Enter key. *)
Definition on_enter (w : world) : world :=
  let query := trim (searchInput_value w) in
  if truthy query then navigateToSearch query w else w.

(** What a timer does when it fires. *)
Definition run_callback (cb : callback) (w : world) : world :=
  match cb with
  | DebouncedSearch query =>
      if (2 <=? String.length query)%nat
      then performSearch query w
      else exec hideSearchResults w
  | HideAfterBlur => exec hideSearchResults w
  end.

(** Fires, in order, the timers of [ts] due by [limit] that are still
    pending. *)
Fixpoint fire_due (ts : list timer) (limit : Z) (w : world) : world :=
  match ts with
  | [] => w
  | t :: ts' =>
      if (due t <=? limit)%Z && is_pending_timer (handle t) w then
        let w := clearTimeout (handle t) (with_now (due t) w) in
        fire_due ts' limit (run_callback (action t) w)
      else fire_due ts' limit w
  end.

(** [dt] milliseconds pass with no other event. *)
Definition elapse (dt : Z) (w : world) : world :=
  let limit := (now w + dt)%Z in
  with_now limit (fire_due (timers w) limit w).

(** ** The event loop *)

Inductive event :=
| Input (value : string)
| Focus
| Blur
| Enter
| Elapse (dt : Z)
| ClickExplicitToggle
| ClickNav (page : string)
| ClickCard (item : ContentItem)
| ClickConfirmAge
| ClickCancelWarning
| Settle (i : nat) (outcome : promise value).

Definition step (w : world) (ev : event) : world :=
  match ev with
  | Input value => on_input value w
  | Focus => on_focus w
  | Blur => on_blur w
  | Enter => on_enter w
  | Elapse dt => elapse dt w
  | ClickExplicitToggle => click_explicitToggle w
  | ClickNav page => navigateToPage page w
  | ClickCard item => openContent item w
  | ClickConfirmAge => click_confirmAge w
  | ClickCancelWarning => click_cancelWarning w
  | Settle i outcome => settle i outcome w
  end.

Definition run (w : world) (evs : list event) : world :=
  fold_left step evs w.

(** ** Observations *)

(** The cards shown in a container: the elements appended to it. *)
Definition children_of (key : string) (w : world) : list Dom.node :=
  match Dom.lookup key (Dom.by_id (document w)) with
  | Some el => Dom.childNodes el
  | None => []
  end.

(** The markup of a container. *)
Definition markup_of (key : string) (w : world) : string :=
  match Dom.lookup key (Dom.by_id (document w)) with
  | Some el => Dom.innerHTML el
  | None => ""
  end.

(** The string last assigned to the [innerHTML] of a container. *)
Definition assigned_to (key : string) (w : world) : option string :=
  match Dom.lookup key (Dom.by_id (document w)) with
  | Some el => Dom.assigned_innerHTML el
  | None => None
  end.

(** No timer is pending, except possibly the debounce timer whose handle
    [this.searchTimeout] holds. *)
Definition only_debounce_pending (w : world) : bool :=
  forallb (fun t => match searchTimeout (this w) with
                    | Some h => (handle t =? h)%nat && negb (h =? 0)%nat
                    | None => false
                    end)
          (timers w).

(** [shows_card item_id n]: [n] is a card whose click opens the item
    of that [id]. *)
Definition shows_card (item_id : Z) (n : Dom.node) : bool :=
  match n with
  | Dom.Child e =>
      existsb (fun l => match l with
                        | Dom.OpenContent it => (id it =? item_id)%Z
                        end) (Dom.listeners e)
  | _ => false
  end.

(** The quick-search panel is hidden. *)
Definition results_hidden (w : world) : bool :=
  match Dom.lookup "searchResults" (Dom.by_id (document w)) with
  | Some el => Dom.has_class el "hidden"
  | None => true
  end.

(** The queries of the search calls made through the API client. *)
Definition search_queries (w : world) : list value :=
  map (fun c => Value.assoc "q" (params c))
      (filter (fun c => (endpoint c =? "/search")%string) (calls w)).

End EventLoop.

(* ================================================================== *)
(** * What the specification says, as functions *)
(* ================================================================== *)

Module Spec.

Import JsString.

(** The lines of a text: it is cut at every single newline. *)
Fixpoint lines (s : string) : list string :=
  match s with
  | EmptyString => [EmptyString]
  | String c s' =>
      if (c =? LF)%char then EmptyString :: lines s'
      else match lines s' with
           | l :: ls => String c l :: ls
           | [] => [String c EmptyString]
           end
  end.

(** The paragraphs of a text: it is cut at every double newline, read
    from the left. *)
Fixpoint paragraphs (s : string) : list string :=
  match s with
  | EmptyString => [EmptyString]
  | String c s' =>
      let keep := match paragraphs s' with
                  | p :: ps => String c p :: ps
                  | [] => [String c EmptyString]
                  end in
      match s' with
      | String c' s'' =>
          if ((c =? LF) && (c' =? LF))%char
          then EmptyString :: paragraphs s''
          else keep
      | EmptyString => keep
      end
  end.

(** A line is blank when nothing but white space is on it. *)
Definition blank (line : string) : bool := (trim line =? "")%string.

Definition wrap (text : string) : string :=
  "<p>" ++ Dom.escape_text text ++ "</p>".

Definition nbsp_paragraph : string := "<p>&nbsp;</p>".

(** Section 4.3, full-view body: poetry by lines, dialogue by untrimmed
    paragraphs, every other type by trimmed paragraphs. *)
Definition full_view_body (type content : string) : string :=
  if (type =? "poetry")%string then
    String.concat ""
      (map (fun line => if blank line then nbsp_paragraph else wrap line)
           (lines content))
  else if (type =? "dialogue")%string then
    String.concat "" (map wrap (paragraphs content))
  else
    String.concat "" (map (fun p => wrap (trim p)) (paragraphs content)).

(** The items a gated view may show under a given gate. *)
Definition visible (gate : bool) (items : list ContentItem)
  : list ContentItem :=
  filter (fun item => gate || negb (explicit_content item)) items.

(** How one attempt of [makeRequest] ends, read off the outcome of its
    fetch: the attempt succeeds when the fetch answers within the time
    limit with an ok status and a well-formed body. *)
Definition attempt_outcome (this : Api.APIClient) (o : Api.fetch_outcome)
  : promise value :=
  if (Api.timeout this <=? Api.latency o)%Z
  then Rejected (AbortError "The operation was aborted.")
  else match Api.result o with
       | Api.Fails e => Rejected e
       | Api.Responds r =>
           if Api.ok r then
             match Api.body r with
             | Some v => Resolved v
             | None => Rejected (SyntaxError "Unexpected token in JSON")
             end
           else
             Rejected (APIError (Api.http_message r) (Api.status r)
                         (match Api.body r with
                          | Some v => v
                          | None => VObject []
                          end))
       end.

(** The health probe succeeds: the fetch of [/health] answers with an
    ok status. *)
Definition probe_ok (o : Api.fetch_outcome) : bool :=
  match Api.result o with
  | Api.Responds r => Api.ok r
  | Api.Fails _ => false
  end.

End Spec.

(** The markup of a card as a function of the item alone. *)
Section CardMarkup.

Context {host : Host}.

Import JsString.

Definition card_tags_markup (tags : list Tag) : string :=
  "<div" ++ Dom.attr "class" "card-tags" ++ ">"
  ++ join (map (fun tag => span_tag (Dom.escape_text (name tag))) tags) ""
  ++ "</div>".

Definition card_inner (item : ContentItem) : string :=
  card_template item
    (Dom.escape_text (title item))
    (Dom.escape_text (excerpt (content item)))
    (match tags item with
     | Some tags => card_tags_markup tags
     | None => ""
     end).

Definition card_markup (item : ContentItem) : string :=
  "<div" ++ Dom.attr "class" "content-card" ++ ">" ++ card_inner item
  ++ "</div>".

(** The markup of the tag cloud for a list of tags: one entry for each of
    the first twelve, the name written twice as [escapeHtml] returns it,
    that is as a text node is serialised: [&], [<], [>] and the
    no-break space are replaced, the double quote is not, also where
    the name stands as the value of [data-tag]. *)
Definition tag_cloud_markup (t : list Tag) : string :=
  join (map (fun tag =>
               "<span" ++ Dom.attr "class" "tag"
               ++ Dom.attr "data-tag" (Dom.escape_text (name tag)) ++ ">"
               ++ Dom.escape_text (name tag) ++ "</span>")
            (firstn 12 t)) "".

(** The card element made for [item] when the next free identity is
    [uid]. *)
Definition card_node (uid : nat) (item : ContentItem) : Dom.element :=
  Dom.mkElement uid "div" ["content-card"] [Dom.OpenContent item]
                [Dom.Raw (card_inner item)].

(** The number of elements [createContentCard] creates for [item]: the
    card and one scratch element per escaped text. *)
Definition card_cost (item : ContentItem) : nat :=
  3 + match tags item with
      | Some tags => List.length tags
      | None => 0
      end.

(** The cards of a list of items, the first one drawing identity
    [uid]. *)
Fixpoint card_nodes (uid : nat) (items : list ContentItem)
  : list Dom.node :=
  match items with
  | [] => []
  | item :: items' =>
      Dom.Child (card_node uid item)
      :: card_nodes (card_cost item + uid) items'
  end.

End CardMarkup.

(* ================================================================== *)
(** * Sample data *)
(* ================================================================== *)

Module Examples.

Import JsString App.

Fixpoint repeat_unit (c : ascii) (n : nat) : string :=
  match n with
  | O => EmptyString
  | S n' => String c (repeat_unit c n')
  end.

(** A body of 151 code units. *)
Definition long_body : string := repeat_unit "a" 151.

Definition poem : ContentItem :=
  mkItem 1 "Digital Dreams" "In circuits deep" "poetry" 3 false "ready"
         "2025-05-28T10:30:00Z"
         (Some [mkTag 1 "technology" "subject"; mkTag 2 "dreams" "theme"]).

(** An item flagged as explicit. *)
Definition midnight : ContentItem :=
  mkItem 2 "Midnight Conversations" "Tell me about the space" "dialogue" 6
         true "ready" "2025-05-27T22:45:00Z"
         (Some [mkTag 4 "intimate" "mood"]).

(** An item one of whose tag names is markup. *)
Definition injected_name : string := "<img src=x onerror=alert(1)>".

Definition tagged : ContentItem :=
  mkItem 3 "Notes" "plain text" "prose" 2 false "ready"
         "2025-05-29T08:00:00Z"
         (Some [mkTag 7 injected_name "subject"]).

Definition element (uid : nat) (classes : list string) : Dom.element :=
  Dom.mkElement uid "div" classes [] [].

(** A page holding the elements the application looks up by [id]. *)
Definition page : Dom.document :=
  Dom.mkDocument 12
    [("dashboard", element 0 ["page"; "active"]);
     ("browse", element 1 ["page"]);
     ("search", element 2 ["page"]);
     ("content-viewer", element 3 ["page"]);
     ("recentContent", element 4 []);
     ("browseContent", element 5 []);
     ("searchResultsContainer", element 6 []);
     ("contentDisplay", element 7 []);
     ("tagCloud", element 8 []);
     ("searchResults", element 9 []);
     ("contentWarning", element 10 ["hidden"]);
     ("explicitToggle", element 11 [])].

(** The application just constructed on that page. *)
Definition fresh : world :=
  mkWorld new_MusingsApp page
          ["dashboard"; "browse"; "search"; "tags"; "analytics"]
          "" 0 1 [] [] [].

(** The same, on the browse page with the gate open. *)
Definition browsing_open : world :=
  with_this (mkApp "browse" true None None false) fresh.

(** The same, while the quick-search panel shows a result for the query
    [lo] typed in the field. *)
Definition showing_results : world :=
  mkWorld new_MusingsApp
    (Dom.mkDocument 12
       (Dom.replace "searchResults"
          (Dom.mkElement 9 "div" [] []
             [Dom.Raw "<div><strong>Love letters</strong></div>"])
          (Dom.by_id page)))
    ["dashboard"; "browse"; "search"; "tags"; "analytics"]
    "lo" 1000 2 [] [] [].

Definition items_response (items : list ContentItem) : value :=
  VObject [("items", VItems items)].

Definition refused : Api.fetch_outcome :=
  Api.mkOutcome 5 (Api.Fails (TypeError "Failed to fetch")).

Definition unavailable : Api.fetch_outcome :=
  Api.mkOutcome 5 (Api.Responds (Api.mkResponse 503 "Service Unavailable"
                                                None)).

Definition answered (v : value) : Api.fetch_outcome :=
  Api.mkOutcome 5 (Api.Responds (Api.mkResponse 200 "OK" (Some v))).

(** A server that never answers. *)
Definition down : Api.env :=
  Api.mkEnv (fun _ => refused) "2026-01-09T00:00:00.000Z".

(** A server that fails twice and then answers. *)
Definition third_time_lucky : Api.env :=
  Api.mkEnv (fun n => if (n <? 2)%nat then unavailable
                      else answered (VObject [("total_writings", VNumber 247)]))
            "2026-01-09T00:00:00.000Z".

(** One request to a server that never answers, from a fresh client. *)
Definition down_run : promise value * Api.state :=
  Api.makeRequest Api.new_APIClient "/stats" Api.default_options down
                  Api.initial.

End Examples.

(* ================================================================== *)
(** * api.js: request helpers and typed accessors *)
(* ================================================================== *)

Module Url.

(** ToString, as template literals and [URLSearchParams] apply it to a
    value. *)
Definition to_string (v : value) : string :=
  match v with
  | VUndefined => "undefined"
  | VNull => "null"
  | VBool true => "true"
  | VBool false => "false"
  | VNumber z => JsString.number_to_string z
  | VString s => s
  | VTags l => JsString.join (map (fun _ => "[object Object]") l) ","
  | VItems l => JsString.join (map (fun _ => "[object Object]") l) ","
  | VObject _ => "[object Object]"
  end.

Definition hex_digit (n : nat) : ascii :=
  nth n (list_ascii_of_string "0123456789ABCDEF") "0"%char.

(** [%XX] for one byte. *)
Definition percent (b : nat) : string :=
  String "%" (String (hex_digit (b / 16)) (String (hex_digit (b mod 16)) "")).

(** The UTF-8 bytes of a code unit below 256. *)
Definition utf8 (c : ascii) : list nat :=
  let n := nat_of_ascii c in
  if (n <? 128)%nat then [n] else [192 + n / 64; 128 + n mod 64].

Definition is_alphanumeric (c : ascii) : bool :=
  let n := nat_of_ascii c in
  ((48 <=? n) && (n <=? 57) || (65 <=? n) && (n <=? 90)
   || (97 <=? n) && (n <=? 122))%nat.

Definition one_of (set : string) (c : ascii) : bool :=
  existsb (Ascii.eqb c) (list_ascii_of_string set).

Definition percent_encode (c : ascii) : string :=
  String.concat "" (map percent (utf8 c)).

(** The serialiser of [application/x-www-form-urlencoded]: a space becomes
    [+], alphanumerics and [*-._] stay, every other byte is
    percent-encoded. *)
Definition form_encode_unit (c : ascii) : string :=
  if (c =? " ")%char then "+"
  else if is_alphanumeric c || one_of "*-._" c then String c ""
  else percent_encode c.

Fixpoint form_encode (s : string) : string :=
  match s with
  | EmptyString => EmptyString
  | String c s' => form_encode_unit c ++ form_encode s'
  end.

(** [encodeURIComponent]: alphanumerics and [-_.!~*'()] stay, every
    other byte is percent-encoded. *)
Definition component_encode_unit (c : ascii) : string :=
  if is_alphanumeric c || one_of "-_.!~*'()" c then String c ""
  else percent_encode c.

Fixpoint encodeURIComponent (s : string) : string :=
  match s with
  | EmptyString => EmptyString
  | String c s' => component_encode_unit c ++ encodeURIComponent s'
  end.

(** [new URLSearchParams(params).toString()] for an object given by its
    own properties in order. *)
Definition pair_string (kv : string * value) : string :=
  form_encode (fst kv) ++ "=" ++ form_encode (to_string (snd kv)).

Definition URLSearchParams_toString (params : list (string * value))
  : string :=
  JsString.join (map pair_string params) "&".

(** The number of occurrences of a code unit. *)
Fixpoint count_unit (c : ascii) (s : string) : nat :=
  match s with
  | EmptyString => 0
  | String c' s' => (if (c' =? c)%char then 1 else 0) + count_unit c s'
  end.

End Url.

Module ApiCalls.

Import Api.

(** [APIClient.get(endpoint, params)]. *)
Definition get (this : APIClient) (endpoint : string)
    (params : list (string * value)) : io value :=
  let queryString := Url.URLSearchParams_toString params in
  let url := if JsString.truthy queryString
             then endpoint ++ "?" ++ queryString
             else endpoint in
  makeRequest this url default_options.

(** [APIClient.post(endpoint, data)], [put] and [delete]. *)
Definition post (this : APIClient) (endpoint : string) (data : value)
  : io value :=
  makeRequest this endpoint (mkOptions "POST" (Some data)).

Definition put (this : APIClient) (endpoint : string) (data : value)
  : io value :=
  makeRequest this endpoint (mkOptions "PUT" (Some data)).

Definition delete (this : APIClient) (endpoint : string) : io value :=
  makeRequest this endpoint (mkOptions "DELETE" None).

(** The typed accessors. *)
Definition getWritings (this : APIClient) (params : list (string * value))
  : io value :=
  get this "/writings" params.

Definition getWriting (this : APIClient) (id : value) : io value :=
  get this ("/writings/" ++ Url.to_string id) [].

Definition getWritingsByType (this : APIClient) (contentType : string)
    (params : list (string * value)) : io value :=
  get this ("/writings/type/" ++ contentType) params.

Definition getWritingsByStatus (this : APIClient) (status : string)
    (params : list (string * value)) : io value :=
  get this ("/writings/status/" ++ status) params.

Definition getWritingsByTag (this : APIClient) (tagName : string)
    (params : list (string * value)) : io value :=
  get this ("/writings/tag/" ++ Url.encodeURIComponent tagName) params.

Definition getTodaysWritings (this : APIClient) : io value :=
  get this "/writings/today" [].

Definition createWriting (this : APIClient) (writingData : value)
  : io value :=
  post this "/writings" writingData.

Definition updateWriting (this : APIClient) (id : value)
    (writingData : value) : io value :=
  put this ("/writings/" ++ Url.to_string id) writingData.

Definition deleteWriting (this : APIClient) (id : value) : io value :=
  delete this ("/writings/" ++ Url.to_string id).

Definition search (this : APIClient) (params : list (string * value))
  : io value :=
  get this "/search" params.

Definition getStatistics (this : APIClient) : io value :=
  get this "/stats" [].

Definition getTags (this : APIClient) (params : list (string * value))
  : io value :=
  get this "/tags" params.

Definition getAnalyticsTrends (this : APIClient)
    (params : list (string * value)) : io value :=
  get this "/analytics/trends" params.

Definition getContentDistribution (this : APIClient) : io value :=
  get this "/analytics/distribution" [].

Definition createTag (this : APIClient) (tagData : value) : io value :=
  post this "/tags" tagData.

Definition updateTag (this : APIClient) (id : value) (tagData : value)
  : io value :=
  put this ("/tags/" ++ Url.to_string id) tagData.

Definition getTagWritings (this : APIClient) (tagName : string)
    (params : list (string * value)) : io value :=
  get this ("/tags/" ++ Url.encodeURIComponent tagName ++ "/writings") params.

(** The events of [k] failed attempts in a row, the first one numbered
    [attempt]: each is a fetch followed by its wait. *)
Fixpoint failed_attempts (this : APIClient) (method url : string)
    (attempt k : nat) : list event :=
  match k with
  | O => []
  | S k' =>
      EFetch attempt method url
      :: EDelay (retryDelay this * Z.of_nat attempt)
      :: failed_attempts this method url (S attempt) k'
  end.

(** The attempt whose fetch is the [n]-th of the run fails. *)
Definition fails (this : APIClient) (w : env) (n : nat) : bool :=
  match Spec.attempt_outcome this (network w n) with
  | Rejected _ => true
  | Resolved _ => false
  end.

(** The [k] fetches from the [from]-th on all belong to failing
    attempts. *)
Fixpoint all_fail (this : APIClient) (w : env) (from k : nat) : bool :=
  match k with
  | O => true
  | S k' => fails this w from && all_fail this w (S from) k'
  end.

(** The time spent waiting between attempts, in milliseconds. *)
Fixpoint total_delay (tr : list event) : Z :=
  match tr with
  | [] => 0
  | EDelay ms :: tr' => ms + total_delay tr'
  | EFetch _ _ _ :: tr' => total_delay tr'
  end.

(** The two elements the connection monitor looks up: the indicator
    ([#connectionStatus]) and the first element of class [status-text];
    [None] when the page has none. *)
Record indicator_view := mkView {
  statusIndicator : option Dom.element;
  statusText : option Dom.element
}.

(** [el.className = 'a b']: the class names are replaced. *)
Definition set_class_names (e : Dom.element) (names : list string)
  : Dom.element :=
  match e with
  | Dom.mkElement u tag _ ls ch => Dom.mkElement u tag names ls ch
  end.

(** One firing of the interval callback of [startConnectionMonitoring].
    A rejection of [getConnectionStatus] would end the callback before it
    touches the page. *)
Definition monitor_tick (API : APIClient) (w : env) (s : state)
    (view : indicator_view) : state * indicator_view :=
  match getConnectionStatus API w s with
  | (Rejected _, s') => (s', view)
  | (Resolved status, s') =>
      match statusIndicator view, statusText view with
      | Some indicator, Some text =>
          if (conn_status status =? "online")%string then
            (s', mkView
                   (Some (set_class_names indicator ["status-indicator"]))
                   (Some (Dom.set_textContent text "ONLINE")))
          else
            (s', mkView
                   (Some (set_class_names indicator
                            ["status-indicator"; "offline"]))
                   (Some (Dom.set_textContent text "OFFLINE")))
      | _, _ => (s', view)
      end
  end.

(** [n] firings in a row. *)
Fixpoint monitor_ticks (API : APIClient) (w : env) (n : nat) (s : state)
    (view : indicator_view) : state * indicator_view :=
  match n with
  | O => (s, view)
  | S n' =>
      let (s', view') := monitor_tick API w s view in
      monitor_ticks API w n' s' view'
  end.

End ApiCalls.

(* ================================================================== *)
(** * main.js: further views and observations *)
(* ================================================================== *)

Section MoreViews.

Context {host : Host}.

Import JsString App.

(** The markup [displayAdvancedSearchResults] writes for a list of
    items. *)
Definition advanced_results_markup (items : list ContentItem) : string :=
  match items with
  | [] =>
      "<div" ++ Dom.attr "class" "no-results"
      ++ ">No matching content found.</div>"
  | _ =>
      nl 12 ++ "<div" ++ Dom.attr "class" "search-summary" ++ ">"
      ++ nl 16 ++ "Found "
      ++ number_to_string (Z.of_nat (List.length items))
      ++ " result"
      ++ (if (List.length items =? 1)%nat then "" else "s")
      ++ nl 12 ++ "</div>"
      ++ nl 12 ++ "<div" ++ Dom.attr "class" "content-grid" ++ ">"
      ++ nl 16 ++ join (map card_markup items) ""
      ++ nl 12 ++ "</div>"
      ++ nl 8
  end.

(** [filterContent(type)]: logs the type and reloads the current view. *)
Definition filterContent (type : string) (w : world) : world :=
  refreshCurrentContent w.

(** [filterByTag(tagName)]: logs the tag and goes to the browse page. *)
Definition filterByTag (tagName : string) (w : world) : world :=
  navigateToPage "browse" w.

(** The content warning is hidden. *)
Definition warning_hidden (w : world) : bool :=
  match Dom.lookup "contentWarning" (Dom.by_id (document w)) with
  | Some el => Dom.has_class el "hidden"
  | None => true
  end.

(** The pages, other than [page], that are shown. *)
Definition other_active_pages (page : string) (w : world) : list string :=
  map fst
      (filter (fun kv : string * Dom.element =>
                 negb (fst kv =? page)%string
                 && Dom.has_class (snd kv) "page"
                 && Dom.has_class (snd kv) "active")
              (Dom.by_id (document w))).

(** The items the cards among [ns] open when clicked, in order. *)
Definition card_items (ns : list Dom.node) : list ContentItem :=
  flat_map (fun n => match n with
                     | Dom.Child e =>
                         map (fun l => match l with
                                       | Dom.OpenContent item => item
                                       end) (Dom.listeners e)
                     | _ => []
                     end) ns.

(** The calls made since [before]. *)
Definition new_calls (before after : world) : list call :=
  skipn (List.length (calls before)) (calls after).

End MoreViews.

Module MoreExamples.

Import Api.

(** A host that formats nothing: dates and letters are left as they
    are. *)
Definition plain_host : Host :=
  Build_Host (fun s => s) (fun s => s) (fun _ => "{}").

(** A server that answers, but never within the time limit. *)
Definition slow : env :=
  mkEnv (fun _ => mkOutcome 10000
                    (Responds (mkResponse 200 "OK" (Some (VString "late")))))
        "2026-01-09T00:00:00.000Z".

(** A server that fails once and then answers. *)
Definition second_time : env :=
  mkEnv (fun n => if (n <? 1)%nat then Examples.refused
                  else Examples.answered (VString "ok"))
        "2026-01-09T00:00:00.000Z".

(** A page whose connection indicator shows offline. *)
Definition shown_offline : ApiCalls.indicator_view :=
  ApiCalls.mkView
    (Some (Dom.mkElement 20 "div" ["status-indicator"; "offline"] [] []))
    (Some (Dom.mkElement 21 "span" ["status-text"] [] [Dom.Text "OFFLINE"])).

(** A session in which [lo] was typed, the debounce timer fired and the
    search answered with one item: the panel shows it, no timer is
    pending and [searchTimeout] still holds the handle of the timer that
    fired. *)
Definition searched : App.world :=
  run (host := plain_host) Examples.fresh
      [Input "lo"; Elapse 300;
       Settle 0 (Resolved (Examples.items_response [Examples.poem]))].

End MoreExamples.

(* ================================================================== *)
(** * Facts about strings *)
(* ================================================================== *)

Section StringFacts.

Import JsString.

Lemma append_nil_r (s : string) : s ++ "" = s.
Proof. induction s as [|c s IH]; simpl; [reflexivity | now rewrite IH]. Qed.

Lemma append_assoc (a b c : string) : (a ++ b) ++ c = a ++ (b ++ c).
Proof. induction a as [|x a IH]; simpl; [reflexivity | now rewrite IH]. Qed.

Lemma length_append (a b : string) :
  String.length (a ++ b) = String.length a + String.length b.
Proof. induction a as [|x a IH]; simpl; [reflexivity | now rewrite IH]. Qed.

Lemma prefix_append (a b : string) : String.prefix a (a ++ b) = true.
Proof.
  induction a as [|x a IH]; simpl.
  - now destruct b.
  - destruct (ascii_dec x x) as [_|ne]; [exact IH | now elim ne].
Qed.

Lemma prefix_refl (a : string) : String.prefix a a = true.
Proof. rewrite <- (append_nil_r a) at 2. apply prefix_append. Qed.

Lemma prefix_split (a s : string) :
  String.prefix a s = true -> s = a ++ drop (String.length a) s.
Proof.
  revert s; induction a as [|x a IH]; intros s H; simpl.
  - reflexivity.
  - destruct s as [|y s]; simpl in H; [discriminate|].
    destruct (ascii_dec x y) as [->|]; [|discriminate].
    simpl. f_equal. now apply IH.
Qed.

Lemma prefix_length (a s : string) :
  String.prefix a s = true -> String.length a <= String.length s.
Proof.
  intros H. pose proof (f_equal String.length (prefix_split a s H)) as E.
  rewrite length_append in E. lia.
Qed.

(** [substring(0, n)] keeps the first [min n length] code units. *)
Lemma substring_from_0 (s : string) (n : nat) :
  substring s 0 n = String.substring 0 (Nat.min n (String.length s)) s.
Proof.
  unfold substring. simpl Nat.min at 2.
  rewrite Nat.min_0_l, Nat.max_0_l, Nat.sub_0_r. reflexivity.
Qed.

Lemma stdlib_substring_length (s : string) (n : nat) :
  String.length (String.substring 0 n s) = Nat.min n (String.length s).
Proof.
  revert n; induction s as [|c s IH]; intros [|n]; simpl; auto.
Qed.

Lemma stdlib_substring_split (s : string) (n : nat) :
  s = String.substring 0 n s ++ drop n s.
Proof.
  revert n; induction s as [|c s IH]; intros [|n]; simpl; auto.
  now rewrite <- IH.
Qed.

Lemma stdlib_substring_all (s : string) (n : nat) :
  String.length s <= n -> String.substring 0 n s = s.
Proof.
  revert n; induction s as [|c s IH]; intros [|n] H; simpl in *; auto; try lia.
  f_equal. apply IH. lia.
Qed.

Lemma substring_length (s : string) (n : nat) :
  String.length (substring s 0 n) = Nat.min n (String.length s).
Proof.
  rewrite substring_from_0, stdlib_substring_length. lia.
Qed.

Lemma substring_prefix (s : string) (n : nat) :
  String.prefix (substring s 0 n) s = true.
Proof.
  rewrite substring_from_0.
  rewrite (stdlib_substring_split s (Nat.min n (String.length s))) at 3.
  apply prefix_append.
Qed.

Lemma substring_short (s : string) (n : nat) :
  String.length s <= n -> substring s 0 n = s.
Proof.
  intros H. rewrite substring_from_0. apply stdlib_substring_all. lia.
Qed.

End StringFacts.

(* ================================================================== *)
(** * The card excerpt *)
(* ================================================================== *)

(** C4, as stated, fails: the excerpt of a body of 151 code units ends
    with the three dots that the body does not have, so it is not a
    prefix of the body. *)
Lemma excerpt_of_long_body_is_no_prefix :
  String.length Examples.long_body = 151
  /\ String.prefix (excerpt Examples.long_body) Examples.long_body = false.
Proof. split; vm_compute; reflexivity. Qed.

(** C4 (amended): for any body, the excerpt has at most 153 code units;
    it is the first 150 code units followed by ["..."] when the body has
    more than 150 code units, and the body itself otherwise (so the dots
    are appended exactly when the length exceeds 150, counting raw code
    units); and the part of the excerpt before the dots, the first 150 code
    units, is a prefix of the body. *)
Theorem excerpt_shape (body : string) :
  String.length (excerpt body) <= 153
  /\ excerpt body
     = (if (150 <? String.length body)%nat
        then JsString.substring body 0 150 ++ "..."
        else body)
  /\ String.length (excerpt body)
     = (if (150 <? String.length body)%nat then 153 else String.length body)
  /\ String.prefix (JsString.substring body 0 150) body = true.
Proof.
  assert (L : String.length (excerpt body)
              = (if (150 <? String.length body)%nat then 153
                 else String.length body)).
  { unfold excerpt. rewrite length_append, substring_length.
    destruct (Nat.ltb_spec 150 (String.length body));
      cbn [String.length]; lia. }
  repeat split.
  - rewrite L. destruct (Nat.ltb_spec 150 (String.length body)); lia.
  - unfold excerpt. destruct (Nat.ltb_spec 150 (String.length body)).
    + reflexivity.
    + rewrite append_nil_r. now apply substring_short.
  - exact L.
  - apply substring_prefix.
Qed.

(* ================================================================== *)
(** * The API client: retries, backoff, health probe *)
(* ================================================================== *)

Section ApiFacts.

Import Api.

Variable this : APIClient.
Variable w : env.

(** One attempt performs one fetch and ends as [Spec.attempt_outcome]
    says. *)
Lemma attempt_body_outcome (attempt : nat) (url : string) (opts : options)
    (s : state) :
  attempt_body this attempt url opts w s
  = (Spec.attempt_outcome this (network w (fetched s)),
     mkState (S (fetched s))
             (trace s ++ [EFetch attempt (method opts) url])%list).
Proof.
  unfold attempt_body, bind, try_catch, fetch, json, Spec.attempt_outcome.
  destruct (timeout this <=? latency (network w (fetched s)))%Z;
    [reflexivity|].
  destruct (result (network w (fetched s))) as [e|r]; [reflexivity|].
  destruct (ok r); simpl; destruct (body r); reflexivity.
Qed.

(** An attempt that succeeds ends the loop. *)
Lemma attempts_success (url : string) (opts : options)
    (remaining attempt : nat) (s : state) (v : value) :
  Spec.attempt_outcome this (network w (fetched s)) = Resolved v ->
  attempts this url opts (S remaining) attempt w s
  = (Resolved v,
     mkState (S (fetched s))
             (trace s ++ [EFetch attempt (method opts) url])%list).
Proof.
  intros H. cbn [attempts]. unfold try_catch.
  now rewrite attempt_body_outcome, H.
Qed.

(** A failed last attempt rejects with its own error. *)
Lemma attempts_last_failure (url : string) (opts : options)
    (remaining attempt : nat) (s : state) (e : error) :
  Spec.attempt_outcome this (network w (fetched s)) = Rejected e ->
  attempt = retryAttempts this ->
  attempts this url opts (S remaining) attempt w s
  = (Rejected e,
     mkState (S (fetched s))
             (trace s ++ [EFetch attempt (method opts) url])%list).
Proof.
  intros H last. cbn [attempts]. unfold try_catch.
  rewrite attempt_body_outcome, H.
  apply Nat.eqb_eq in last. rewrite last. reflexivity.
Qed.

(** A failed earlier attempt waits [retryDelay * attempt] and goes on. *)
Lemma attempts_retry (url : string) (opts : options)
    (remaining attempt : nat) (s : state) (e : error) :
  Spec.attempt_outcome this (network w (fetched s)) = Rejected e ->
  attempt <> retryAttempts this ->
  attempts this url opts (S remaining) attempt w s
  = attempts this url opts remaining (S attempt) w
      (mkState (S (fetched s))
         (trace s ++ [EFetch attempt (method opts) url;
                      EDelay (retryDelay this * Z.of_nat attempt)])%list).
Proof.
  intros H ne. cbn [attempts]. unfold try_catch.
  rewrite attempt_body_outcome, H.
  apply Nat.eqb_neq in ne. rewrite ne.
  unfold bind, delay, log. cbn [fetched trace].
  now rewrite <- app_assoc.
Qed.

End ApiFacts.

(** C2: with a budget of three attempts, a request whose first two
    attempts fail settles exactly as its third attempt does: when attempt 3
    succeeds the call resolves with the response of attempt 3, when it
    fails the call rejects with the error of attempt 3; in both cases three
    fetches are made and no fourth. *)
Theorem makeRequest_third_attempt_decides
    (this : Api.APIClient) (w : Api.env) (endpoint : string)
    (opts : Api.options) (s : Api.state) (e1 e2 : error) :
  Api.retryAttempts this = 3 ->
  Spec.attempt_outcome this (Api.network w (Api.fetched s)) = Rejected e1 ->
  Spec.attempt_outcome this (Api.network w (S (Api.fetched s)))
    = Rejected e2 ->
  fst (Api.makeRequest this endpoint opts w s)
    = Spec.attempt_outcome this (Api.network w (S (S (Api.fetched s))))
  /\ Api.fetched (snd (Api.makeRequest this endpoint opts w s))
     = Api.fetched s + 3
  /\ Api.fetch_count (Api.trace (snd (Api.makeRequest this endpoint opts w s)))
     = Api.fetch_count (Api.trace s) + 3.
Proof.
  intros budget H1 H2. unfold Api.makeRequest. rewrite budget.
  rewrite (attempts_retry this w _ _ _ _ _ e1 H1) by (rewrite budget; lia).
  rewrite (attempts_retry this w _ _ _ _ _ e2) by
    (try exact H2; rewrite budget; lia).
  destruct (Spec.attempt_outcome this (Api.network w (S (S (Api.fetched s)))))
    as [v|e3] eqn:H3.
  - rewrite (attempts_success this w _ _ _ _ _ v) by exact H3.
    cbn [fst snd Api.fetched Api.trace]. repeat split; [lia|].
    unfold Api.fetch_count. rewrite !filter_app, !length_app. simpl. lia.
  - rewrite (attempts_last_failure this w _ _ _ _ _ e3)
      by (try exact H3; now rewrite budget).
    cbn [fst snd Api.fetched Api.trace]. repeat split; [lia|].
    unfold Api.fetch_count. rewrite !filter_app, !length_app. simpl. lia.
Qed.

(** The theorem above at a server that answers 503 twice and then 200. *)
Lemma makeRequest_third_attempt_decides_witness :
  fst (Api.makeRequest Api.new_APIClient "/stats" Api.default_options
         Examples.third_time_lucky Api.initial)
    = Resolved (VObject [("total_writings", VNumber 247)])
  /\ Api.fetched (snd (Api.makeRequest Api.new_APIClient "/stats"
                         Api.default_options Examples.third_time_lucky
                         Api.initial)) = 3
  /\ Api.fetch_count
       (Api.trace (snd (Api.makeRequest Api.new_APIClient "/stats"
                          Api.default_options Examples.third_time_lucky
                          Api.initial))) = 3.
Proof.
  exact (makeRequest_third_attempt_decides
           Api.new_APIClient Examples.third_time_lucky "/stats"
           Api.default_options Api.initial
           (APIError "HTTP 503: Service Unavailable" 503 (VObject []))
           (APIError "HTTP 503: Service Unavailable" 503 (VObject []))
           eq_refl eq_refl eq_refl).
Defined.




(** C10: [healthCheck] never rejects; it resolves [true] exactly when the
    fetch of [/health] answers with an ok status and [false] otherwise
    (rejected fetch or status outside 200-299). [getConnectionStatus]
    therefore never takes its [catch] branch: it always resolves with
    status ['online'], whatever the probe found. *)
Theorem healthCheck_total (this : Api.APIClient) (w : Api.env)
    (s : Api.state) :
  let s' := Api.mkState (S (Api.fetched s))
              (Api.trace s ++ [Api.EFetch 1 "GET" "/health"])%list in
  Api.healthCheck this w s
    = (Resolved (Spec.probe_ok (Api.network w (Api.fetched s))), s')
  /\ Api.getConnectionStatus this w s
     = (Resolved (Api.mkStatus "online" None (Api.now_iso w)), s').
Proof.
  assert (H : Api.healthCheck this w s
              = (Resolved (Spec.probe_ok (Api.network w (Api.fetched s))),
                 Api.mkState (S (Api.fetched s))
                   (Api.trace s ++ [Api.EFetch 1 "GET" "/health"])%list)).
  { unfold Api.healthCheck, Api.try_catch, Api.bind, Api.fetch, Spec.probe_ok.
    simpl. destruct (Api.result (Api.network w (Api.fetched s))); reflexivity. }
  split; [exact H|].
  unfold Api.getConnectionStatus, Api.try_catch, Api.bind.
  rewrite H. reflexivity.
Qed.

(* ================================================================== *)
(** * Facts about the document *)
(* ================================================================== *)

Section DomFacts.

Import Dom.

Lemma advance_advance (a b : nat) (d : document) :
  advance b (advance a d) = advance (a + b) d.
Proof. unfold advance; simpl. f_equal. lia. Qed.

Lemma advance_0 (d : document) : advance 0 d = d.
Proof. now destruct d. Qed.

Lemma bind_run {A B} (m : dom A) (k : A -> dom B) (d d' : document) (a : A) :
  m d = (a, d') -> bind m k d = k a d'.
Proof. intros H. unfold bind. now rewrite H. Qed.

(** Reading [innerHTML] after assigning it gives the assigned markup. *)
Lemma innerHTML_set_innerHTML (e : element) (html : string) :
  innerHTML (set_innerHTML e html) = html.
Proof.
  destruct e as [u tag cs ls ch]. unfold set_innerHTML, innerHTML; simpl.
  destruct (String.eqb_spec html ""); subst; reflexivity.
Qed.

(** Reading [innerHTML] after assigning [textContent] gives the escaped
    text. *)
Lemma innerHTML_set_textContent (e : element) (text : string) :
  innerHTML (set_textContent e text) = escape_text text.
Proof.
  destruct e as [u tag cs ls ch]. unfold set_textContent, innerHTML; simpl.
  destruct (String.eqb_spec text ""); subst; reflexivity.
Qed.

Lemma escapeHtml_run (text : string) (d : document) :
  escapeHtml text d = (escape_text text, advance 1 d).
Proof.
  unfold escapeHtml, bind, createElement, ret.
  now rewrite innerHTML_set_textContent.
Qed.

(** A [map] whose function only creates elements. *)
Lemma mapM_run {A B} (f : A -> dom B) (g : A -> B) (cost : A -> nat) :
  (forall x d, f x d = (g x, advance (cost x) d)) ->
  forall l d,
    mapM f l d = (map g l, advance (list_sum (map cost l)) d).
Proof.
  intros H l; induction l as [|x l IH]; intros d; simpl.
  - unfold ret. now rewrite advance_0.
  - unfold bind, ret. rewrite H, IH, advance_advance. reflexivity.
Qed.

Lemma lookup_replace (key : string) (v v0 : element)
    (m : list (string * element)) :
  lookup key m = Some v0 -> lookup key (replace key v m) = Some v.
Proof.
  induction m as [|[k x] m IH]; simpl; [discriminate|].
  destruct (String.eqb_spec k key) as [->|ne]; simpl.
  - now rewrite String.eqb_refl.
  - intros H. apply String.eqb_neq in ne. rewrite ne. now apply IH.
Qed.

Lemma lookup_replace_other (key key' : string) (v : element)
    (m : list (string * element)) :
  key' <> key -> lookup key' (replace key v m) = lookup key' m.
Proof.
  intros ne. induction m as [|[k x] m IH]; simpl; [reflexivity|].
  destruct (String.eqb_spec k key) as [->|ne']; simpl.
  - destruct (String.eqb_spec key key'); [congruence | reflexivity].
  - now rewrite IH.
Qed.

Lemma replace_replace (key : string) (v v' : element)
    (m : list (string * element)) :
  replace key v' (replace key v m) = replace key v' m.
Proof.
  induction m as [|[k x] m IH]; simpl; [reflexivity|].
  destruct (String.eqb_spec k key) as [->|ne]; simpl.
  - now rewrite String.eqb_refl.
  - apply String.eqb_neq in ne. rewrite ne. now rewrite IH.
Qed.

(** The escaped text holds no angle bracket. *)
Lemma escape_text_no_bracket (s : string) (c : ascii) :
  c = "<"%char \/ c = ">"%char ->
  JsString.contains (String c "") (escape_text s) = false.
Proof.
  intros Hc. induction s as [|x s IH]; [now destruct Hc; subst|].
  cbn [escape_text]. unfold escape_unit.
  destruct (Ascii.eqb_spec x "&"); [destruct Hc; subst; simpl in *; exact IH|].
  destruct (Ascii.eqb_spec x JsString.NBSP);
    [destruct Hc; subst; simpl in *; exact IH|].
  destruct (Ascii.eqb_spec x "<"); [destruct Hc; subst; simpl in *; exact IH|].
  destruct (Ascii.eqb_spec x ">"); [destruct Hc; subst; simpl in *; exact IH|].
  cbn [append JsString.contains String.prefix].
  destruct (ascii_dec c x) as [->|_]; [destruct Hc; congruence|].
  exact IH.
Qed.

End DomFacts.

(* ================================================================== *)
(** * Splitting a text *)
(* ================================================================== *)

Section SplitFacts.

Import JsString.

Lemma concat_cons_head (sep : string) (c : ascii) (p : string)
    (ps : list string) :
  String.concat sep (String c p :: ps) = String c (String.concat sep (p :: ps)).
Proof. destruct ps; reflexivity. Qed.

Lemma concat_cons (sep x : string) (ls : list string) :
  ls <> [] -> String.concat sep (x :: ls) = x ++ sep ++ String.concat sep ls.
Proof. destruct ls; [congruence | reflexivity]. Qed.

Lemma split_go_nonempty (sep : string) (k : nat) (s : string) :
  split_go sep k s <> [].
Proof.
  revert k; induction s as [|c s IH]; intros k; cbn [split_go];
    [discriminate|].
  destruct k; [|apply IH].
  destruct (String.prefix sep (String c s)); [discriminate|].
  destruct (split_go sep 0 s); discriminate.
Qed.

Lemma drop_length_le (k : nat) (s : string) :
  String.length (drop k s) <= String.length s.
Proof.
  revert s; induction k as [|k IH]; intros [|c s]; simpl; auto.
Qed.

(** Joining the pieces with the separator gives the text back. *)
Lemma split_go_join (sep : string) (s : string) (k : nat) :
  sep <> "" ->
  String.concat sep (split_go sep k s) = drop k s.
Proof.
  intros Hsep. revert k.
  induction s as [|c s IH]; intros k.
  - destruct k; reflexivity.
  - cbn [split_go]. destruct k as [|k]; [|now rewrite IH].
    destruct (String.prefix sep (String c s)) eqn:P.
    + rewrite concat_cons by apply split_go_nonempty.
      rewrite IH. cbn [append].
      pose proof (prefix_split sep (String c s) P) as S0.
      destruct sep as [|x sep]; [congruence|].
      cbn [String.length drop] in S0. cbn [String.length Nat.sub].
      rewrite Nat.sub_0_r. symmetry. exact S0.
    + pose proof (split_go_nonempty sep 0 s) as NE.
      pose proof (IH 0) as E. revert NE E.
      destruct (split_go sep 0 s) as [|p ps]; intros NE E; [congruence|].
      rewrite concat_cons_head, E. reflexivity.
Qed.

Theorem split_join (s sep : string) :
  sep <> "" -> join (split s sep) sep = s.
Proof.
  intros H. unfold join, split.
  destruct (String.eqb_spec sep ""); [congruence|].
  now rewrite split_go_join.
Qed.

(** Splitting on a single newline gives the lines. *)
Lemma split_newline_lines (s : string) : split s newline = Spec.lines s.
Proof.
  unfold split, newline. cbn [String.eqb].
  induction s as [|c s IH]; [reflexivity|].
  cbn [split_go Spec.lines String.prefix String.length Nat.sub].
  destruct (ascii_dec LF c) as [<-|ne].
  - rewrite Ascii.eqb_refl. destruct s; cbn [String.prefix]; now rewrite IH.
  - destruct (Ascii.eqb_spec c LF); [congruence|]. now rewrite IH.
Qed.

Lemma split_go_step (sep : string) (c : ascii) (s : string) :
  split_go sep 0 (String c s)
  = if String.prefix sep (String c s)
    then EmptyString :: split_go sep (String.length sep - 1) s
    else match split_go sep 0 s with
         | p :: ps => String c p :: ps
         | [] => [String c EmptyString]
         end.
Proof. reflexivity. Qed.

Lemma prefix_blank_line (c : ascii) (s : string) :
  String.prefix blank_line (String c s)
  = ((c =? LF)%char
     && match s with
        | String c' _ => (c' =? LF)%char
        | EmptyString => false
        end).
Proof.
  unfold blank_line. cbn [String.prefix].
  destruct (ascii_dec LF c) as [<-|ne].
  - rewrite Ascii.eqb_refl. cbn [andb]. destruct s as [|c' s]; [reflexivity|].
    cbn [String.prefix].
    destruct (ascii_dec LF c') as [<-|ne'].
    + rewrite Ascii.eqb_refl. now destruct s.
    + destruct (Ascii.eqb_spec c' LF); [congruence | reflexivity].
  - destruct (Ascii.eqb_spec c LF); [congruence | reflexivity].
Qed.

Lemma paragraphs_step (c : ascii) (s : string) :
  Spec.paragraphs (String c s)
  = if ((c =? LF)%char
        && match s with
           | String c' _ => (c' =? LF)%char
           | EmptyString => false
           end)
    then EmptyString :: Spec.paragraphs (drop 1 s)
    else match Spec.paragraphs s with
         | p :: ps => String c p :: ps
         | [] => [String c EmptyString]
         end.
Proof.
  destruct s as [|c' s]; cbn [Spec.paragraphs drop].
  - now rewrite andb_false_r.
  - destruct ((c =? LF)%char && (c' =? LF)%char); reflexivity.
Qed.

(** Splitting on a double newline gives the paragraphs. *)
Lemma split_blank_line_paragraphs (s : string) :
  split s blank_line = Spec.paragraphs s.
Proof.
  unfold split. change (blank_line =? "")%string with false. cbv iota.
  enough (H : split_go blank_line 0 s = Spec.paragraphs s
              /\ forall c, split_go blank_line 0 (String c s)
                           = Spec.paragraphs (String c s)) by apply H.
  induction s as [|c' s [IH1 IH2]].
  - split; [reflexivity|]. intros c.
    rewrite split_go_step, prefix_blank_line, paragraphs_step.
    rewrite andb_false_r. reflexivity.
  - split; [apply IH2|]. intros c.
    rewrite split_go_step, prefix_blank_line, paragraphs_step.
    destruct ((c =? LF)%char && (c' =? LF)%char).
    + change (split_go blank_line (String.length blank_line - 1)
                       (String c' s))
        with (split_go blank_line 0 s).
      cbn [drop]. now rewrite IH1.
    + now rewrite IH2.
Qed.

(** The lines joined by newlines, and the paragraphs joined by blank
    lines, are the text. *)
Corollary lines_join (s : string) :
  String.concat newline (Spec.lines s) = s.
Proof.
  rewrite <- split_newline_lines. apply (split_join s newline). discriminate.
Qed.

Corollary paragraphs_join (s : string) :
  String.concat blank_line (Spec.paragraphs s) = s.
Proof.
  rewrite <- split_blank_line_paragraphs.
  apply (split_join s blank_line). discriminate.
Qed.

End SplitFacts.

(* ================================================================== *)
(** * Facts about rendering *)
(* ================================================================== *)

Section RenderFacts.

Context {host : Host}.

Import JsString.

Lemma list_sum_ones {A} (l : list A) :
  list_sum (map (fun _ => 1) l) = List.length l.
Proof. induction l; simpl; auto. Qed.

Lemma card_tags_run (tags : list Tag) (d : Dom.document) :
  card_tags tags d
  = (card_tags_markup tags, Dom.advance (List.length tags) d).
Proof.
  unfold card_tags, card_tags_markup.
  erewrite bind_run.
  2:{ apply (mapM_run _ (fun tag => span_tag (Dom.escape_text (name tag)))
                      (fun _ => 1)).
      intros x d0. unfold Dom.bind. now rewrite escapeHtml_run. }
  now rewrite list_sum_ones.
Qed.

(** [createContentCard] makes the card [card_node] and nothing else that
    can be observed; the markup of the card depends on the item only. *)
Lemma createContentCard_run (item : ContentItem) (d : Dom.document) :
  createContentCard item d
  = (card_node (Dom.next_uid d) item, Dom.advance (card_cost item) d).
Proof.
  unfold createContentCard, Dom.bind at 1, Dom.createElement.
  rewrite (bind_run _ _ _ _ _ (escapeHtml_run _ _)).
  rewrite (bind_run _ _ _ _ _ (escapeHtml_run _ _)).
  unfold card_node, card_inner, card_cost.
  destruct (tags item) as [tags|].
  - rewrite (bind_run _ _ _ _ _ (card_tags_run _ _)).
    unfold Dom.ret. rewrite !advance_advance. reflexivity.
  - unfold Dom.bind, Dom.ret. rewrite !advance_advance. reflexivity.
Qed.

Lemma outerHTML_card_node (uid : nat) (item : ContentItem) :
  Dom.outerHTML (card_node uid item) = card_markup item.
Proof. reflexivity. Qed.

Lemma poetry_line_run (line : string) (d : Dom.document) :
  poetry_line line d
  = (if Spec.blank line then Spec.nbsp_paragraph else Spec.wrap line,
     Dom.advance (if Spec.blank line then 0 else 1) d).
Proof.
  unfold poetry_line, truthy, Spec.blank.
  destruct (trim line =? "")%string; cbn [negb].
  - unfold Dom.ret. now rewrite advance_0.
  - unfold Dom.bind. now rewrite escapeHtml_run.
Qed.

Lemma dialogue_paragraph_run (p : string) (d : Dom.document) :
  dialogue_paragraph p d = (Spec.wrap p, Dom.advance 1 d).
Proof. unfold dialogue_paragraph, Dom.bind. now rewrite escapeHtml_run. Qed.

Lemma default_paragraph_run (p : string) (d : Dom.document) :
  default_paragraph p d = (Spec.wrap (trim p), Dom.advance 1 d).
Proof. unfold default_paragraph, Dom.bind. now rewrite escapeHtml_run. Qed.

(** The formatted body is the one of the specification; formatting only
    creates scratch elements. *)
Lemma formatContentForDisplay_run (content type : string)
    (d : Dom.document) :
  exists k,
    formatContentForDisplay content type d
    = (Spec.full_view_body type content, Dom.advance k d).
Proof.
  unfold formatContentForDisplay, Spec.full_view_body, join.
  destruct (type =? "poetry")%string; [|destruct (type =? "dialogue")%string];
    eexists.
  - erewrite bind_run by (apply mapM_run; apply poetry_line_run).
    rewrite split_newline_lines. reflexivity.
  - erewrite bind_run by (apply mapM_run; apply dialogue_paragraph_run).
    rewrite split_blank_line_paragraphs. reflexivity.
  - erewrite bind_run by (apply mapM_run; apply default_paragraph_run).
    rewrite split_blank_line_paragraphs. reflexivity.
Qed.

End RenderFacts.

(** C6: the body of the full view is formatted by content type. For
    ['poetry'] the body is cut at every single newline, each non-blank
    line becomes a paragraph of its own and each blank line a paragraph
    holding a non-breaking space; for ['dialogue'] the body is cut at
    every double newline and each piece becomes a paragraph, untrimmed;
    for every other type the body is cut at every double newline and
    each piece is trimmed, then made a paragraph. *)
Theorem formatContentForDisplay_by_type {host : Host}
    (content type : string) (d : Dom.document) :
  fst (formatContentForDisplay content type d)
  = Spec.full_view_body type content.
Proof.
  destruct (formatContentForDisplay_run content type d) as [k H].
  now rewrite H.
Qed.

(* ================================================================== *)
(** * The gated views *)
(* ================================================================== *)

Section ViewFacts.

Context {host : Host}.

Import JsString App.

Lemma with_children_childNodes (e : Dom.element) :
  Dom.with_children e (Dom.childNodes e) = e.
Proof. now destruct e. Qed.

Lemma with_children_twice (e : Dom.element) (a b : list Dom.node) :
  Dom.with_children (Dom.with_children e a) b = Dom.with_children e b.
Proof. now destruct e. Qed.

Lemma childNodes_with_children (e : Dom.element) (a : list Dom.node) :
  Dom.childNodes (Dom.with_children e a) = a.
Proof. now destruct e. Qed.

(** The loop of [displayBrowseContent]: one card per item, in order. *)
Lemma forEach_append_cards (items : list ContentItem)
    (container : Dom.element) (d : Dom.document) :
  Dom.forEach items
    (fun container item =>
       Dom.bind (createContentCard item)
                (fun card => Dom.ret (Dom.appendChild container card)))
    container d
  = (Dom.with_children container
       (Dom.childNodes container ++ card_nodes (Dom.next_uid d) items)%list,
     Dom.advance (list_sum (map card_cost items)) d).
Proof.
  revert container d; induction items as [|item items IH]; intros c d.
  - cbn. unfold Dom.ret.
    now rewrite app_nil_r, with_children_childNodes, advance_0.
  - cbn [Dom.forEach card_nodes map list_sum].
    erewrite bind_run.
    2:{ erewrite bind_run by apply createContentCard_run. reflexivity. }
    rewrite IH. unfold Dom.appendChild.
    rewrite with_children_twice, childNodes_with_children, advance_advance.
    rewrite <- app_assoc. reflexivity.
Qed.

(** The loop of [displayRecentContent]: one card per item the gate lets
    through. *)
Lemma forEach_append_visible (gate : bool) (items : list ContentItem)
    (container : Dom.element) (d : Dom.document) :
  Dom.forEach items
    (fun container item =>
       if negb gate && explicit_content item
       then Dom.ret container
       else Dom.bind (createContentCard item)
              (fun card => Dom.ret (Dom.appendChild container card)))
    container d
  = (Dom.with_children container
       (Dom.childNodes container
        ++ card_nodes (Dom.next_uid d) (Spec.visible gate items))%list,
     Dom.advance (list_sum (map card_cost (Spec.visible gate items))) d).
Proof.
  revert container d; induction items as [|item items IH]; intros c d.
  - cbn. unfold Dom.ret.
    now rewrite app_nil_r, with_children_childNodes, advance_0.
  - cbn [Dom.forEach Spec.visible filter].
    destruct gate, (explicit_content item); cbn [negb andb orb].
    all: try (erewrite bind_run;
              [|erewrite bind_run by apply createContentCard_run;
                reflexivity];
              rewrite IH; unfold Dom.appendChild;
              rewrite with_children_twice, childNodes_with_children,
                advance_advance, <- app_assoc; reflexivity).
    erewrite bind_run by reflexivity. now rewrite IH.
Qed.

(** What [displayBrowseContent] leaves in the browse grid: a card for
    every item it was given, whatever the gate. *)
Lemma displayBrowseContent_children (this : MusingsApp)
    (items : list ContentItem) (w : world) (el : Dom.element) :
  Dom.lookup "browseContent" (Dom.by_id (document w)) = Some el ->
  children_of "browseContent" (exec (displayBrowseContent this items) w)
  = card_nodes (Dom.next_uid (document w)) items.
Proof.
  intros H. unfold children_of, exec, on_document, displayBrowseContent.
  unfold Dom.bind at 1, Dom.getElementById. rewrite H.
  erewrite bind_run by apply forEach_append_cards.
  unfold Dom.store, Dom.advance; cbn [Dom.by_id Dom.next_uid].
  destruct w; cbn [with_document document snd Dom.by_id] in *.
  rewrite (lookup_replace _ _ el) by exact H.
  unfold Dom.set_innerHTML. cbn [String.eqb].
  rewrite with_children_twice, !childNodes_with_children. reflexivity.
Qed.

(** What [displayRecentContent] leaves in the dashboard: a card for
    every item the gate lets through, and for no other. *)
Lemma displayRecentContent_children (this : MusingsApp)
    (items : list ContentItem) (w : world) (el : Dom.element) :
  Dom.lookup "recentContent" (Dom.by_id (document w)) = Some el ->
  children_of "recentContent" (exec (displayRecentContent this items) w)
  = card_nodes (Dom.next_uid (document w))
               (Spec.visible (explicitContentEnabled this) items).
Proof.
  intros H. unfold children_of, exec, on_document, displayRecentContent.
  unfold Dom.bind at 1, Dom.getElementById. rewrite H.
  erewrite bind_run by apply forEach_append_visible.
  unfold Dom.store, Dom.advance; cbn [Dom.by_id Dom.next_uid].
  destruct w; cbn [with_document document snd Dom.by_id] in *.
  rewrite (lookup_replace _ _ el) by exact H.
  unfold Dom.set_innerHTML. cbn [String.eqb].
  rewrite with_children_twice, !childNodes_with_children. reflexivity.
Qed.

(** The markup of the cards does not depend on the identities drawn. *)
Lemma serialize_card_nodes (uid : nat) (items : list ContentItem) :
  map Dom.serialize (card_nodes uid items) = map card_markup items.
Proof.
  revert uid; induction items as [|item items IH]; intros uid;
    [reflexivity|].
  cbn [card_nodes map]. now rewrite IH.
Qed.

Lemma displayRecentContent_absent (this : MusingsApp)
    (items : list ContentItem) (w : world) :
  Dom.lookup "recentContent" (Dom.by_id (document w)) = None ->
  exec (displayRecentContent this items) w = w.
Proof.
  intros H. unfold exec, on_document, displayRecentContent.
  unfold Dom.bind, Dom.getElementById. rewrite H. now destruct w as [? []].
Qed.

Lemma displayBrowseContent_absent (this : MusingsApp)
    (items : list ContentItem) (w : world) :
  Dom.lookup "browseContent" (Dom.by_id (document w)) = None ->
  exec (displayBrowseContent this items) w = w.
Proof.
  intros H. unfold exec, on_document, displayBrowseContent.
  unfold Dom.bind, Dom.getElementById. rewrite H. now destruct w as [? []].
Qed.

Lemma children_markup (key : string) (w : world) :
  markup_of key w = join (map Dom.serialize (children_of key w)) "".
Proof.
  unfold markup_of, children_of.
  now destruct (Dom.lookup key (Dom.by_id (document w))).
Qed.

(** The markup of the dashboard after [displayRecentContent], and of the
    browse grid after [displayBrowseContent]. *)
Lemma displayRecentContent_markup (this : MusingsApp)
    (items : list ContentItem) (w : world) :
  markup_of "recentContent" (exec (displayRecentContent this items) w)
  = match Dom.lookup "recentContent" (Dom.by_id (document w)) with
    | Some _ =>
        join (map card_markup
                  (Spec.visible (explicitContentEnabled this) items)) ""
    | None => ""
    end.
Proof.
  destruct (Dom.lookup "recentContent" (Dom.by_id (document w))) as [el|]
    eqn:H.
  - rewrite children_markup, (displayRecentContent_children _ _ _ el H).
    now rewrite serialize_card_nodes.
  - rewrite displayRecentContent_absent by exact H.
    unfold markup_of. now rewrite H.
Qed.

Lemma displayBrowseContent_markup (this : MusingsApp)
    (items : list ContentItem) (w : world) :
  markup_of "browseContent" (exec (displayBrowseContent this items) w)
  = match Dom.lookup "browseContent" (Dom.by_id (document w)) with
    | Some _ => join (map card_markup items) ""
    | None => ""
    end.
Proof.
  destruct (Dom.lookup "browseContent" (Dom.by_id (document w))) as [el|]
    eqn:H.
  - rewrite children_markup, (displayBrowseContent_children _ _ _ el H).
    now rewrite serialize_card_nodes.
  - rewrite displayBrowseContent_absent by exact H.
    unfold markup_of. now rewrite H.
Qed.

(** A view that was rendered is still there to be rendered again. *)
Lemma displayRecentContent_keeps_container (this : MusingsApp)
    (items : list ContentItem) (w : world) (el : Dom.element) :
  Dom.lookup "recentContent" (Dom.by_id (document w)) = Some el ->
  exists el',
    Dom.lookup "recentContent"
      (Dom.by_id (document (exec (displayRecentContent this items) w)))
    = Some el'.
Proof.
  intros H. unfold exec, on_document, displayRecentContent.
  unfold Dom.bind at 1, Dom.getElementById. rewrite H.
  erewrite bind_run by apply forEach_append_visible.
  unfold Dom.store, Dom.advance; cbn [Dom.by_id Dom.next_uid].
  destruct w; cbn [with_document document snd Dom.by_id] in *.
  eexists. apply (lookup_replace _ _ el). exact H.
Qed.

Lemma displayBrowseContent_keeps_container (this : MusingsApp)
    (items : list ContentItem) (w : world) (el : Dom.element) :
  Dom.lookup "browseContent" (Dom.by_id (document w)) = Some el ->
  exists el',
    Dom.lookup "browseContent"
      (Dom.by_id (document (exec (displayBrowseContent this items) w)))
    = Some el'.
Proof.
  intros H. unfold exec, on_document, displayBrowseContent.
  unfold Dom.bind at 1, Dom.getElementById. rewrite H.
  erewrite bind_run by apply forEach_append_cards.
  unfold Dom.store, Dom.advance; cbn [Dom.by_id Dom.next_uid].
  destruct w; cbn [with_document document snd Dom.by_id] in *.
  eexists. apply (lookup_replace _ _ el). exact H.
Qed.

(** With the gate off nothing explicit passes [Spec.visible]; with the
    gate on everything does. *)
Lemma visible_off_not_explicit (items : list ContentItem)
    (item : ContentItem) :
  In item (Spec.visible false items) -> explicit_content item = false.
Proof.
  unfold Spec.visible. rewrite filter_In. cbn [orb].
  intros [_ H]. now destruct (explicit_content item).
Qed.

Lemma visible_on_all (items : list ContentItem) :
  Spec.visible true items = items.
Proof.
  unfold Spec.visible. induction items as [|x l IH]; [reflexivity|].
  cbn [filter orb]. f_equal. exact IH.
Qed.

End ViewFacts.

(** C9: rendering is idempotent. Two calls of [createContentCard] on the
    same item, one after the other, make two distinct elements with the
    same markup, which is a function of the item alone; two calls of
    [formatContentForDisplay] on the same body and type return the same
    markup; and rendering the same items into the dashboard or the browse
    grid a second time, the gate unchanged, leaves the markup of the view
    as the first rendering left it. *)
Theorem rendering_twice_same_markup {host : Host}
    (item : ContentItem) (content type : string) (d : Dom.document)
    (this : App.MusingsApp) (items : list ContentItem) (w : App.world) :
  let first := createContentCard item d in
  let second := createContentCard item (snd first) in
  let body1 := formatContentForDisplay content type d in
  let body2 := formatContentForDisplay content type (snd body1) in
  let recent1 := App.exec (displayRecentContent this items) w in
  let recent2 := App.exec (displayRecentContent this items) recent1 in
  let browse1 := App.exec (displayBrowseContent this items) w in
  let browse2 := App.exec (displayBrowseContent this items) browse1 in
  Dom.outerHTML (fst first) = Dom.outerHTML (fst second)
  /\ Dom.outerHTML (fst first) = card_markup item
  /\ Dom.uid (fst first) <> Dom.uid (fst second)
  /\ fst body1 = fst body2
  /\ markup_of "recentContent" recent2 = markup_of "recentContent" recent1
  /\ markup_of "browseContent" browse2 = markup_of "browseContent" browse1.
Proof.
  cbv zeta. rewrite !createContentCard_run. cbn [fst snd].
  repeat split.
  - unfold card_node, Dom.uid, Dom.advance, card_cost; cbn [Dom.next_uid]. lia.
  - destruct (formatContentForDisplay_run content type d) as [k H].
    rewrite H. cbn [fst snd].
    destruct (formatContentForDisplay_run content type (Dom.advance k d))
      as [k' H'].
    now rewrite H'.
  - rewrite !displayRecentContent_markup.
    destruct (Dom.lookup "recentContent" (Dom.by_id (App.document w)))
      as [el|] eqn:H.
    + destruct (displayRecentContent_keeps_container this items w el H)
        as [el' H']. now rewrite H'.
    + rewrite displayRecentContent_absent by exact H. now rewrite H.
  - rewrite !displayBrowseContent_markup.
    destruct (Dom.lookup "browseContent" (Dom.by_id (App.document w)))
      as [el|] eqn:H.
    + destruct (displayBrowseContent_keeps_container this items w el H)
        as [el' H']. now rewrite H'.
    + rewrite displayBrowseContent_absent by exact H. now rewrite H.
Qed.

(** C1 (the code departs from it): with the gate off, the browse grid
    shows the card of an explicit item it is handed, although no prompt was
    confirmed, while the dashboard leaves the same item out. The browse
    grid is handed such an item whenever a response requested with the
    gate on arrives after the gate was turned off: here the user opens the
    browse page with the gate on (call 0 asks for explicit items), turns
    the gate off (call 1 asks for none), call 1 settles, then call 0. *)
Theorem browse_grid_shows_explicit_card_with_gate_off {host : Host} :
  gate Examples.fresh = false
  /\ children_of "browseContent"
       (App.exec (displayBrowseContent (App.this Examples.fresh)
                                       [Examples.midnight]) Examples.fresh)
     = [Dom.Child (card_node 12 Examples.midnight)]
  /\ children_of "recentContent"
       (App.exec (displayRecentContent (App.this Examples.fresh)
                                       [Examples.midnight]) Examples.fresh)
     = []
  /\ let w := run Examples.browsing_open
                [ClickNav "browse";
                 ClickExplicitToggle;
                 Settle 1 (Resolved (Examples.items_response
                                       [Examples.poem]));
                 Settle 0 (Resolved (Examples.items_response
                                       [Examples.poem; Examples.midnight]))] in
     gate w = false
     /\ map (fun c => Value.assoc "explicit" (App.params c)) (App.calls w)
        = [VBool true; VBool false]
     /\ existsb (shows_card 2) (children_of "browseContent" w) = true.
Proof.
  repeat split; vm_compute; reflexivity.
Qed.

(* ================================================================== *)
(** * Escaping *)
(* ================================================================== *)

Section ContainsFacts.

Import JsString.

Lemma prefix_app_l (n a b : string) :
  String.prefix n a = true -> String.prefix n (a ++ b) = true.
Proof.
  revert a; induction n as [|x n IH]; intros a H.
  - now destruct (a ++ b).
  - destruct a as [|y a]; [discriminate|]. cbn [append String.prefix] in *.
    destruct (ascii_dec x y); [now apply IH | discriminate].
Qed.

Lemma contains_here (n b : string) : contains n (n ++ b) = true.
Proof.
  destruct (n ++ b) eqn:E; cbn [contains]; rewrite <- E, prefix_append;
    reflexivity.
Qed.

Lemma contains_app_r (n a b : string) :
  contains n b = true -> contains n (a ++ b) = true.
Proof.
  intros H. induction a as [|x a IH]; [exact H|].
  cbn [append contains]. rewrite IH. apply orb_true_r.
Qed.

Lemma contains_app_l (n a b : string) :
  contains n a = true -> contains n (a ++ b) = true.
Proof.
  induction a as [|x a IH]; intros H.
  - cbn [contains] in H. rewrite orb_false_r in H.
    destruct n; [|discriminate]. now destruct b.
  - cbn [append contains] in *. apply orb_true_iff in H as [H|H].
    + change (String x (a ++ b)) with (String x a ++ b).
      now rewrite prefix_app_l.
    + rewrite IH by exact H. apply orb_true_r.
Qed.

End ContainsFacts.

(** Finds an occurrence in a chain of appends. *)
Ltac find_occurrence :=
  first [ apply contains_here
        | apply contains_app_l; find_occurrence
        | apply contains_app_r; find_occurrence ].

Section FullViewFacts.

Context {host : Host}.

Import JsString App.

(** The markup of the full view: the template filled with the escaped
    title, the formatted body, and the tag names as they are. *)
Lemma full_view_markup (sep : string) (item : ContentItem) (w : world)
    (el : Dom.element) :
  Dom.lookup "contentDisplay" (Dom.by_id (document w)) = Some el ->
  markup_of "contentDisplay" (exec (render_full_view sep item) w)
  = viewer_template sep item (Dom.escape_text (title item))
      (Spec.full_view_body (content_type item) (content item)).
Proof.
  intros H. unfold markup_of, exec, on_document, render_full_view.
  unfold Dom.bind at 1, Dom.getElementById. rewrite H.
  destruct (formatContentForDisplay_run (content item) (content_type item)
              (document w)) as [k Hk].
  erewrite bind_run by exact Hk.
  erewrite bind_run by apply escapeHtml_run.
  unfold Dom.store, Dom.advance; cbn [Dom.by_id Dom.next_uid].
  destruct w; cbn [with_document document snd Dom.by_id] in *.
  rewrite (lookup_replace _ _ el) by exact H.
  apply innerHTML_set_innerHTML.
Qed.

(** The name of the first tag of an item occurs as it is in the full
    view. *)
Lemma viewer_template_holds_tag_name (sep : string) (item : ContentItem)
    (t body : string) (tag : Tag) (rest : list Tag) :
  tags item = Some (tag :: rest) ->
  contains (name tag) (viewer_template sep item t body) = true.
Proof.
  intros H. unfold viewer_template. rewrite H.
  unfold join. cbn [map].
  destruct rest as [|tag' rest]; cbn [String.concat map]; find_occurrence.
Qed.

End FullViewFacts.

(** C3 (the code departs from it): the full view inserts tag names
    without escaping them. For an item one of whose tags is named
    [<img src=x onerror=alert(1)>], the markup written into the content
    viewer, by [ContentViewer.display] as by [MusingsApp.openContent],
    holds that name as markup, while the chips of the card hold it
    escaped. *)
Theorem full_view_inserts_tag_names_unescaped {host : Host} :
  JsString.contains Examples.injected_name
    (markup_of "contentDisplay"
       (App.exec (ContentViewer_display Examples.tagged) Examples.fresh))
  = true
  /\ JsString.contains Examples.injected_name
       (markup_of "contentDisplay"
          (openContent Examples.tagged Examples.fresh))
     = true
  /\ JsString.contains Examples.injected_name
       (card_tags_markup [mkTag 7 Examples.injected_name "subject"])
     = false
  /\ JsString.contains (Dom.escape_text Examples.injected_name)
       (card_tags_markup [mkTag 7 Examples.injected_name "subject"])
     = true.
Proof.
  split; [|split; [|split; vm_compute; reflexivity]].
  - unfold ContentViewer_display.
    rewrite (full_view_markup _ _ _ (Examples.element 7 [])) by reflexivity.
    now apply (viewer_template_holds_tag_name _ _ _ _
                 (mkTag 7 Examples.injected_name "subject") []).
  - change (openContent Examples.tagged Examples.fresh)
      with (App.exec (render_full_view MOJIBAKE_BULLET Examples.tagged)
                     Examples.fresh).
    rewrite (full_view_markup _ _ _ (Examples.element 7 [])) by reflexivity.
    now apply (viewer_template_holds_tag_name _ _ _ _
                 (mkTag 7 Examples.injected_name "subject") []).
Qed.

(* ================================================================== *)
(** * The tag cloud *)
(* ================================================================== *)

Section TagCloudFacts.

Context {host : Host}.

Import JsString App.

Lemma tag_cloud_entry_run (tag_name : string) (d : Dom.document) :
  tag_cloud_entry tag_name d
  = ("<span" ++ Dom.attr "class" "tag"
     ++ Dom.attr "data-tag" (Dom.escape_text tag_name) ++ ">"
     ++ Dom.escape_text tag_name ++ "</span>",
     Dom.advance 2 d).
Proof.
  unfold tag_cloud_entry.
  rewrite (bind_run _ _ _ _ _ (escapeHtml_run _ _)).
  rewrite (bind_run _ _ _ _ _ (escapeHtml_run _ _)).
  unfold Dom.ret. now rewrite advance_advance.
Qed.

Lemma assigned_set_innerHTML (e : Dom.element) (html : string) :
  Dom.assigned_innerHTML (Dom.set_innerHTML e html) = Some html.
Proof.
  destruct e as [u tag cs ls ch].
  unfold Dom.assigned_innerHTML, Dom.set_innerHTML, Dom.with_children.
  destruct (html =? "")%string eqn:E; cbn [Dom.childNodes].
  - apply String.eqb_eq in E. now subst.
  - reflexivity.
Qed.

(** What [loadTagCloud] assigns to the tag cloud for a bare array. *)
Lemma loadTagCloud_resolved_array (t : list Tag) (w : world)
    (el : Dom.element) :
  Dom.lookup "tagCloud" (Dom.by_id (document w)) = Some el ->
  assigned_to "tagCloud" (exec (loadTagCloud_resolved (VTags t)) w)
  = Some (tag_cloud_markup t).
Proof.
  intros H. unfold assigned_to, exec, on_document, loadTagCloud_resolved.
  cbn [Value.get Value.truthy Value.isArray names_of].
  unfold Dom.bind at 1, Dom.getElementById. rewrite H.
  erewrite bind_run by (apply mapM_run; apply tag_cloud_entry_run).
  unfold Dom.store, Dom.advance; cbn [Dom.by_id Dom.next_uid].
  destruct w; cbn [with_document document snd Dom.by_id] in *.
  rewrite (lookup_replace _ _ el) by exact H.
  rewrite assigned_set_innerHTML. unfold tag_cloud_markup.
  rewrite firstn_map, map_map. reflexivity.
Qed.

End TagCloudFacts.

(** C7: the consumer of the tag list accepts a bare array and an object
    [{tags: [...]}] alike and takes the same tag sequence from both: for
    any tag list [t], what [loadTagCloud] does to the document after the
    response [t] and after the response [{tags: t}] is the same, on any
    document, and so is the world the event loop reaches when the call
    settles with either; and on a page that has the tag cloud, either
    response is rendered as the tags of [t]: the string assigned to the
    cloud is the markup of the first twelve tags of [t], whatever the
    cloud held before. *)
Theorem tag_response_shapes_agree {host : Host} (t : list Tag)
    (d : Dom.document) (w : App.world) :
  loadTagCloud_resolved (VObject [("tags", VTags t)]) d
  = loadTagCloud_resolved (VTags t) d
  /\ resume App.AfterTags (Resolved (VObject [("tags", VTags t)])) w
     = resume App.AfterTags (Resolved (VTags t)) w
  /\ markup_of "tagCloud"
       (resume App.AfterTags (Resolved (VObject [("tags", VTags t)])) w)
     = markup_of "tagCloud" (resume App.AfterTags (Resolved (VTags t)) w)
  /\ (forall el : Dom.element,
        Dom.lookup "tagCloud" (Dom.by_id (App.document w)) = Some el ->
        assigned_to "tagCloud"
          (resume App.AfterTags (Resolved (VTags t)) w)
        = Some (tag_cloud_markup t)
        /\ assigned_to "tagCloud"
             (resume App.AfterTags (Resolved (VObject [("tags", VTags t)]))
                     w)
           = Some (tag_cloud_markup t)).
Proof.
  assert (E : loadTagCloud_resolved (VObject [("tags", VTags t)])
              = loadTagCloud_resolved (VTags t)) by reflexivity.
  unfold resume. rewrite E.
  split; [reflexivity|]. split; [reflexivity|]. split; [reflexivity|].
  intros el H. split; exact (loadTagCloud_resolved_array t w el H).
Qed.

(** The theorem [tag_response_shapes_agree] on a page whose tag cloud is
    filled already: the wrapped response of two tags replaces it by the
    entries of these two tags. *)
Lemma tag_response_shapes_agree_witness :
  assigned_to "tagCloud"
    (resume (host := MoreExamples.plain_host) App.AfterTags
       (Resolved (VObject [("tags", VTags [mkTag 1 "a&b" "theme";
                                           mkTag 2 "dreams" "theme"])]))
       (resume (host := MoreExamples.plain_host) App.AfterTags
          (Resolved (VTags [mkTag 3 "night" "theme"])) Examples.fresh))
  = Some (tag_cloud_markup [mkTag 1 "a&b" "theme"; mkTag 2 "dreams" "theme"]).
Proof.
  destruct (tag_response_shapes_agree (host := MoreExamples.plain_host)
              [mkTag 1 "a&b" "theme"; mkTag 2 "dreams" "theme"]
              Examples.page
              (resume (host := MoreExamples.plain_host) App.AfterTags
                 (Resolved (VTags [mkTag 3 "night" "theme"]))
                 Examples.fresh))
    as (_ & _ & _ & R).
  destruct (R (Dom.set_innerHTML (Examples.element 8 [])
                 (tag_cloud_markup [mkTag 3 "night" "theme"])))
    as [_ W]; [reflexivity | exact W].
Defined.

(* ================================================================== *)
(** * Quick search *)
(* ================================================================== *)

Section QuickSearchFacts.

Import JsString App.

Lemma has_class_classList_add (e : Dom.element) (cls : string) :
  Dom.has_class (Dom.classList_add e cls) cls = true.
Proof.
  destruct e as [u tag cs ls ch]. unfold Dom.classList_add, Dom.has_class.
  destruct (existsb (String.eqb cls) cs) eqn:E; cbn [Dom.classes].
  - exact E.
  - rewrite existsb_app. cbn. rewrite String.eqb_refl.
    now rewrite orb_true_r.
Qed.

(** Hiding the panel hides it, and touches neither the calls nor the
    timers. *)
Lemma hideSearchResults_hides (w : world) :
  results_hidden (exec hideSearchResults w) = true
  /\ calls (exec hideSearchResults w) = calls w
  /\ timers (exec hideSearchResults w) = timers w.
Proof.
  unfold results_hidden, exec, on_document, hideSearchResults.
  unfold Dom.bind, Dom.getElementById.
  destruct (Dom.lookup "searchResults" (Dom.by_id (document w))) as [el|]
    eqn:H; destruct w; cbn in *.
  - rewrite (lookup_replace _ _ el) by exact H.
    now rewrite has_class_classList_add.
  - now rewrite H.
Qed.

Lemma existsb_insert_timer (f : timer -> bool) (t : timer)
    (ts : list timer) :
  existsb f (insert_timer t ts) = f t || existsb f ts.
Proof.
  induction ts as [|t' ts IH]; cbn [insert_timer existsb].
  - reflexivity.
  - destruct (due t <? due t')%Z; cbn [existsb]; [reflexivity|].
    rewrite IH. now destruct (f t), (f t').
Qed.

(** A timer that was cleared is no longer pending. *)
Lemma existsb_cleared (h : nat) (ts : list timer) :
  existsb (fun t => (handle t =? h)%nat)
          (filter (fun t => negb (handle t =? h)%nat) ts) = false.
Proof.
  induction ts as [|t ts IH]; [reflexivity|]. cbn [filter].
  destruct (handle t =? h)%nat eqn:E; cbn [negb existsb]; [exact IH|].
  now rewrite E, IH.
Qed.

End QuickSearchFacts.

(** C8, as stated, fails: a keystroke that leaves one character in the
    field does not clear the results at once. While the panel shows a
    result, the user deletes a character: the panel and its content stay
    as they were through the keystroke and for the next 299 ms; the panel
    is hidden, its content still in place, when the debounce timer fires
    300 ms after the keystroke. No call is made. *)
Lemma short_query_hides_only_when_timer_fires :
  results_hidden Examples.showing_results = false
  /\ results_hidden (on_input "l" Examples.showing_results) = false
  /\ App.document (on_input "l" Examples.showing_results)
     = App.document Examples.showing_results
  /\ results_hidden (elapse 299 (on_input "l" Examples.showing_results))
     = false
  /\ results_hidden (elapse 300 (on_input "l" Examples.showing_results))
     = true
  /\ markup_of "searchResults"
       (elapse 300 (on_input "l" Examples.showing_results))
     = markup_of "searchResults" Examples.showing_results
  /\ App.calls (elapse 300 (on_input "l" Examples.showing_results)) = [].
Proof. repeat split; vm_compute; reflexivity. Qed.

(** C8 (amended): on each quick-search keystroke the pending debounce
    timer is cancelled and a fresh timer of 300 ms is started for the
    trimmed query; the keystroke itself makes no call and leaves the
    document as it is. When that timer fires, a search call is made
    exactly when the trimmed query has at least 2 code units; with fewer
    the results panel is hidden at that moment (300 ms after the keystroke,
    not at once) and no call is made. *)
Theorem quick_search_keystroke (w : App.world) (value query : string) :
  let w1 := on_input value w in
  let fired := run_callback (App.DebouncedSearch query) w in
  App.searchTimeout (App.this w1) = Some (App.next_handle w)
  /\ App.timers w1
     = App.insert_timer
         (App.mkTimer (App.next_handle w) (App.now w + 300)
                      (App.DebouncedSearch (JsString.trim value)))
         (match App.searchTimeout (App.this w) with
          | Some h =>
              if (h =? 0)%nat then App.timers w
              else filter (fun t => negb (App.handle t =? h)%nat)
                          (App.timers w)
          | None => App.timers w
          end)
  /\ (forall h, App.searchTimeout (App.this w) = Some h ->
                 h <> 0 -> h <> App.next_handle w ->
                 App.is_pending_timer h w1 = false)
  /\ App.is_pending_timer (App.next_handle w) w1 = true
  /\ App.calls w1 = App.calls w
  /\ App.document w1 = App.document w
  /\ App.calls fired
     = (if (2 <=? String.length query)%nat
        then App.calls w
             ++ [App.mkCall "/search"
                   [("q", VString query); ("limit", VNumber 10);
                    ("include_explicit", VBool (gate w))]
                   App.AfterQuickSearch]
        else App.calls w)%list
  /\ results_hidden fired
     = (if (2 <=? String.length query)%nat then results_hidden w else true).
Proof.
  cbv zeta.
  assert (T : App.timers (on_input value w)
              = App.insert_timer
                  (App.mkTimer (App.next_handle w) (App.now w + 300)
                               (App.DebouncedSearch (JsString.trim value)))
                  (match App.searchTimeout (App.this w) with
                   | Some h =>
                       if (h =? 0)%nat then App.timers w
                       else filter (fun t => negb (App.handle t =? h)%nat)
                                   (App.timers w)
                   | None => App.timers w
                   end)).
  { unfold on_input. destruct w as [a d nl v t nh ts cs ps].
    cbn. destruct (App.searchTimeout a) as [h|]; [destruct (h =? 0)%nat|];
      reflexivity. }
  split; [|split; [exact T|split; [|split]]]; [| | |repeat split].
  - unfold on_input. destruct w as [a d nl v t nh ts cs ps].
    cbn. destruct (App.searchTimeout a) as [h|]; [destruct (h =? 0)%nat|];
      reflexivity.
  - intros h Hh Hz Hn. unfold App.is_pending_timer. rewrite T, Hh.
    apply Nat.eqb_neq in Hz. rewrite Hz.
    rewrite existsb_insert_timer. cbn [App.handle].
    apply Nat.eqb_neq in Hn. rewrite Nat.eqb_sym, Hn.
    apply existsb_cleared.
  - unfold App.is_pending_timer. rewrite T, existsb_insert_timer.
    cbn [App.handle]. now rewrite Nat.eqb_refl.
  - unfold on_input. destruct w as [a d nl v t nh ts cs ps].
    cbn. destruct (App.searchTimeout a) as [h|]; [destruct (h =? 0)%nat|];
      reflexivity.
  - unfold on_input. destruct w as [a d nl v t nh ts cs ps].
    cbn. destruct (App.searchTimeout a) as [h|]; [destruct (h =? 0)%nat|];
      reflexivity.
  - unfold run_callback. destruct (2 <=? String.length query)%nat.
    + reflexivity.
    + apply hideSearchResults_hides.
  - unfold run_callback. destruct (2 <=? String.length query)%nat.
    + reflexivity.
    + apply hideSearchResults_hides.
Qed.

Section DebounceFacts.

Import JsString App.

(** The keystroke clears every timer of a world in which only the
    debounce timer is pending. *)
Lemma cleared_when_only_debounce (w : world) :
  only_debounce_pending w = true ->
  match searchTimeout (this w) with
  | Some h =>
      if (h =? 0)%nat then timers w
      else filter (fun t => negb (handle t =? h)%nat) (timers w)
  | None => timers w
  end = [].
Proof.
  unfold only_debounce_pending.
  destruct (searchTimeout (this w)) as [h|].
  - destruct (h =? 0)%nat; cbn [negb].
    + destruct (timers w) as [|t ts]; [reflexivity|].
      cbn [forallb]. rewrite andb_false_r. discriminate.
    + induction (timers w) as [|t ts IH]; [reflexivity|].
      cbn [forallb filter]. intros H. apply andb_prop in H as [H1 H2].
      rewrite andb_true_r in H1. rewrite H1. cbn [negb]. now apply IH.
  - destruct (timers w); [reflexivity|discriminate].
Qed.

Lemma on_input_only_debounce (v : string) (w : world) :
  only_debounce_pending w = true ->
  on_input v w
  = mkWorld (set_searchTimeout (Some (next_handle w)) (this w))
            (document w) (nav_links w) v (now w) (S (next_handle w))
            [mkTimer (next_handle w) (now w + 300)
                     (DebouncedSearch (trim v))]
            (calls w) (pending w).
Proof.
  intros H. apply cleared_when_only_debounce in H.
  destruct w as [a doc nl v0 t nh ts cs ps].
  cbn [this timers document nav_links now next_handle calls pending] in *.
  unfold on_input, with_value.
  cbn [this timers document nav_links now next_handle calls pending
       searchInput_value].
  destruct (searchTimeout a) as [h|]; [destruct (h =? 0)%nat|];
    unfold clearTimeout, setTimeout, with_timers, with_this;
    cbn [this timers document nav_links now next_handle calls pending
         searchInput_value];
    rewrite H; reflexivity.
Qed.

Lemma document_exec (m : Dom.dom unit) (w : world) :
  document (exec m w) = snd (m (document w)).
Proof.
  unfold exec, on_document. destruct (m (document w)) as [u d'].
  now destruct w.
Qed.

End DebounceFacts.

(** X20: two keystrokes less than 300 ms apart, typed while no timer is
    pending other than the debounce timer of an earlier keystroke
    (handles are positive, as a browser's are): the timer of the first
    keystroke never fires. Until 300 ms after the second keystroke no
    call is made and the document stays as it was, whatever the first
    query; then the callback of the second runs alone: the search for
    the second query is the only call made if it has at least 2 code
    units, otherwise the panel is hidden; no timer is left. *)
Theorem debounce_last_keystroke_wins (w : App.world) (v1 v2 : string)
    (d : Z) :
  only_debounce_pending w = true ->
  App.next_handle w <> 0 ->
  (0 <= d < 300)%Z ->
  let typed := on_input v2 (elapse d (on_input v1 w)) in
  let query := JsString.trim v2 in
  (forall d' : Z, (0 <= d' < 300)%Z ->
     App.calls (elapse d' typed) = App.calls w
     /\ App.document (elapse d' typed) = App.document w)
  /\ App.calls (elapse 300 typed)
     = (App.calls w
        ++ if (2 <=? String.length query)%nat
           then [App.mkCall "/search"
                   [("q", VString query); ("limit", VNumber 10);
                    ("include_explicit", VBool (gate w))]
                   App.AfterQuickSearch]
           else [])%list
  /\ App.document (elapse 300 typed)
     = (if (2 <=? String.length query)%nat then App.document w
        else App.document (App.exec hideSearchResults w))
  /\ App.timers (elapse 300 typed) = [].
Proof.
  intros Hw Hnh Hd. cbv zeta.
  rewrite (on_input_only_debounce v1 w Hw).
  destruct w as [a doc nl v t nh ts cs ps].
  cbn [App.this App.document App.nav_links App.now App.next_handle
       App.calls App.pending] in *.
  set (app1 := App.set_searchTimeout (Some nh) a).
  set (t1 := App.mkTimer nh (t + 300)
                         (App.DebouncedSearch (JsString.trim v1))).
  assert (E2 : elapse d (App.mkWorld app1 doc nl v1 t (S nh) [t1] cs ps)
               = App.mkWorld app1 doc nl v1 (t + d) (S nh) [t1] cs ps).
  { unfold elapse. cbn [App.now App.timers fire_due t1 App.due].
    replace (t + 300 <=? t + d)%Z with false
      by (symmetry; apply Z.leb_gt; lia).
    reflexivity. }
  rewrite E2.
  rewrite on_input_only_debounce.
  2:{ unfold only_debounce_pending.
      cbn [App.this App.timers app1 App.set_searchTimeout App.searchTimeout
           forallb t1 App.handle].
      rewrite Nat.eqb_refl. apply Nat.eqb_neq in Hnh. now rewrite Hnh. }
  cbn [App.this App.document App.nav_links App.now App.next_handle
       App.calls App.pending].
  set (app2 := App.set_searchTimeout (Some (S nh)) app1).
  set (t2 := App.mkTimer (S nh) (t + d + 300)
                         (App.DebouncedSearch (JsString.trim v2))).
  split.
  { intros d' Hd'. unfold elapse.
    cbn [App.now App.timers fire_due t2 App.due].
    replace (t + d + 300 <=? t + d + d')%Z with false
      by (symmetry; apply Z.leb_gt; lia).
    cbn [andb]. split; reflexivity. }
  set (fired := App.mkWorld app2 doc nl v2 (t + d + 300) (S (S nh)) []
                           cs ps).
  assert (E4 : elapse 300 (App.mkWorld app2 doc nl v2 (t + d) (S (S nh))
                                       [t2] cs ps)
               = App.with_now (t + d + 300)
                   (run_callback (App.DebouncedSearch (JsString.trim v2))
                                 fired)).
  { unfold elapse. cbn [App.now App.timers fire_due t2 App.due App.handle
                        App.action].
    rewrite Z.leb_refl. unfold App.is_pending_timer.
    cbn [App.timers existsb App.handle]. rewrite Nat.eqb_refl.
    cbn [orb andb].
    unfold App.clearTimeout, App.with_timers, App.with_now.
    cbn [App.this App.document App.nav_links App.now App.next_handle
         App.calls App.pending App.timers App.searchInput_value filter
         App.handle].
    rewrite Nat.eqb_refl. reflexivity. }
  rewrite E4. unfold run_callback.
  destruct (2 <=? String.length (JsString.trim v2))%nat.
  - repeat split; reflexivity.
  - destruct (hideSearchResults_hides fired) as (_ & C & T).
    unfold App.with_now. cbn [App.calls App.document App.timers].
    rewrite C, T, !document_exec. cbn [fired App.calls App.timers
                                       App.document].
    rewrite app_nil_r. repeat split; reflexivity.
Qed.

(* ================================================================== *)
(** * Opening an item *)
(* ================================================================== *)

Section OpenContentFacts.

Context {host : Host}.

Import JsString App.

(** The content warning touches neither the content viewer nor the
    fields of the application. *)
Lemma showContentWarning_keeps_viewer (item : ContentItem) (w : world) :
  markup_of "contentDisplay" (exec (showContentWarning item) w)
  = markup_of "contentDisplay" w
  /\ this (exec (showContentWarning item) w) = this w.
Proof.
  unfold markup_of, exec, on_document, showContentWarning.
  unfold Dom.bind, Dom.getElementById, Dom.store, Dom.ret.
  destruct w as [a d nl v t nh ts cs ps]; cbn [document].
  destruct (Dom.lookup "warningContentType" (Dom.by_id d)) as [ct|];
    cbn [Dom.by_id Dom.next_uid].
  - rewrite (lookup_replace_other "warningContentType" "contentWarning")
      by discriminate.
    destruct (Dom.lookup "contentWarning" (Dom.by_id d)) as [m|];
      cbn [snd with_document document this Dom.by_id];
      rewrite ?(lookup_replace_other "contentWarning" "contentDisplay")
        by discriminate;
      rewrite ?(lookup_replace_other "warningContentType" "contentDisplay")
        by discriminate;
      split; reflexivity.
  - destruct (Dom.lookup "contentWarning" (Dom.by_id d)) as [m|];
      cbn [snd with_document document this Dom.by_id];
      rewrite ?(lookup_replace_other "contentWarning" "contentDisplay")
        by discriminate;
      split; reflexivity.
Qed.

(** Opening an explicit item with the gate off shows the warning and
    remembers the item; the content viewer is left as it was. *)
Lemma openContent_explicit_asks_first (item : ContentItem) (w : world) :
  explicit_content item = true ->
  gate w = false ->
  markup_of "contentDisplay" (openContent item w)
  = markup_of "contentDisplay" w
  /\ currentContent (this (openContent item w)) = Some item.
Proof.
  intros He Hg. unfold openContent. rewrite He, Hg. cbn [andb negb].
  destruct (showContentWarning_keeps_viewer item
              (with_this (set_currentContent (Some item) (this w)) w))
    as [M T].
  rewrite M, T. split; [|now destruct w].
  now destruct w.
Qed.

(** Confirming the warning displays the remembered item, gate unchanged. *)
Lemma click_confirmAge_displays_current (item : ContentItem) (w : world) :
  currentContent (this w) = Some item ->
  click_confirmAge w = displayContent item (exec hideContentWarning w)
  /\ gate (exec hideContentWarning w) = gate w.
Proof.
  intros H. unfold click_confirmAge.
  assert (T : this (exec hideContentWarning w) = this w).
  { unfold exec, on_document, hideContentWarning, Dom.bind,
      Dom.getElementById, Dom.store, Dom.ret.
    destruct w as [a d nl v t nh ts cs ps]; cbn [document].
    now destruct (Dom.lookup "contentWarning" (Dom.by_id d)). }
  unfold gate. rewrite T, H. split; reflexivity.
Qed.

End OpenContentFacts.

(* ================================================================== *)
(** * Lines *)
(* ================================================================== *)

Lemma contains_newline_cons (c : ascii) (l : string) :
  c <> JsString.LF ->
  JsString.contains JsString.newline (String c l)
  = JsString.contains JsString.newline l.
Proof.
  intros ne. cbn [JsString.contains JsString.newline String.prefix].
  destruct (ascii_dec JsString.LF c); [congruence | reflexivity].
Qed.

(** No line holds a newline. *)
Lemma lines_hold_no_newline (s : string) :
  Forall (fun line => JsString.contains JsString.newline line = false)
         (Spec.lines s).
Proof.
  induction s as [|c s IH]; cbn [Spec.lines].
  - constructor; [reflexivity | constructor].
  - destruct (Ascii.eqb_spec c JsString.LF) as [->|ne].
    + constructor; [reflexivity | exact IH].
    + destruct (Spec.lines s) as [|l ls].
      * constructor; [|constructor].
        now rewrite contains_newline_cons.
      * inversion IH as [|? ? Hl Hls]; subst. constructor; [|exact Hls].
        now rewrite contains_newline_cons.
Qed.

(* ================================================================== *)
(** * The retry loop for any budget *)
(* ================================================================== *)

Section RetryFacts.

Import Api ApiCalls.

Variable this : APIClient.
Variable w : env.

Lemma fails_rejected (n : nat) :
  fails this w n = true ->
  exists e, Spec.attempt_outcome this (network w n) = Rejected e.
Proof.
  unfold fails. destruct (Spec.attempt_outcome this (network w n)) as [v|e];
    [discriminate | now exists e].
Qed.

(** [k] failing attempts that are not the last one lead to attempt
    [attempt + k], with the fetches and waits of [failed_attempts]
    behind. *)
Lemma attempts_after_failures (url : string) (opts : options)
    (k remaining attempt : nat) (s : state) :
  all_fail this w (fetched s) k = true ->
  attempt + k <= retryAttempts this ->
  attempts this url opts (k + remaining) attempt w s
  = attempts this url opts remaining (attempt + k) w
      (mkState (fetched s + k)
         (trace s ++ failed_attempts this (method opts) url attempt k)%list).
Proof.
  revert attempt s; induction k as [|k IH]; intros attempt s F B.
  - cbn [Nat.add failed_attempts]. rewrite !Nat.add_0_r, app_nil_r.
    now destruct s.
  - cbn [all_fail] in F. apply andb_true_iff in F as [F0 F].
    destruct (fails_rejected _ F0) as [e He].
    cbn [Nat.add]. rewrite (attempts_retry this w _ _ _ _ _ e He) by lia.
    rewrite IH by (cbn [fetched]; first [exact F | lia]).
    cbn [fetched trace failed_attempts]. rewrite <- app_assoc.
    replace (S attempt + k) with (attempt + S k) by lia.
    replace (S (fetched s) + k) with (fetched s + S k) by lia.
    reflexivity.
Qed.

(** The same, ending with an attempt that succeeds. *)
Lemma attempts_first_success (url : string) (opts : options)
    (k remaining : nat) (s : state) (v : value) :
  all_fail this w (fetched s) k = true ->
  1 + k <= retryAttempts this ->
  Spec.attempt_outcome this (network w (fetched s + k)) = Resolved v ->
  attempts this url opts (k + S remaining) 1 w s
  = (Resolved v,
     mkState (fetched s + S k)
       (trace s ++ failed_attempts this (method opts) url 1 k
        ++ [EFetch (S k) (method opts) url])%list).
Proof.
  intros F B H. rewrite attempts_after_failures by assumption.
  rewrite (attempts_success this w _ _ _ _ _ v) by exact H.
  cbn [fetched trace]. rewrite <- app_assoc.
  replace (S (fetched s + k)) with (fetched s + S k) by lia.
  reflexivity.
Qed.

(** The same, ending with the last attempt, which fails. *)
Lemma attempts_all_fail (url : string) (opts : options)
    (m : nat) (s : state) (e : error) :
  retryAttempts this = S m ->
  all_fail this w (fetched s) m = true ->
  Spec.attempt_outcome this (network w (fetched s + m)) = Rejected e ->
  attempts this url opts (S m) 1 w s
  = (Rejected e,
     mkState (fetched s + S m)
       (trace s ++ failed_attempts this (method opts) url 1 m
        ++ [EFetch (S m) (method opts) url])%list).
Proof.
  intros N F H. replace (S m) with (m + 1) at 1 by lia.
  rewrite attempts_after_failures by (try assumption; lia).
  rewrite (attempts_last_failure this w _ _ _ _ _ e)
    by (cbn [fetched]; first [exact H | lia]).
  cbn [fetched trace]. rewrite <- app_assoc.
  replace (S (fetched s + m)) with (fetched s + S m) by lia.
  reflexivity.
Qed.

Lemma attempts_fetch_bound (url : string) (opts : options)
    (remaining attempt : nat) (s : state) :
  fetched s <= fetched (snd (attempts this url opts remaining attempt w s))
  <= fetched s + remaining.
Proof.
  revert attempt s; induction remaining as [|r IH]; intros attempt s.
  - cbn. lia.
  - cbn [attempts]. unfold try_catch. rewrite attempt_body_outcome.
    destruct (Spec.attempt_outcome this (network w (fetched s))) as [v|e].
    + cbn. lia.
    + destruct (attempt =? retryAttempts this)%nat.
      * cbn. lia.
      * unfold bind, delay, log. cbn [fetched trace].
        match goal with
        | |- _ <= fetched (snd (attempts _ _ _ _ _ _ ?s1)) <= _ =>
            specialize (IH (S attempt) s1); cbn [fetched] in IH
        end.
        lia.
Qed.

Lemma attempt_outcome_resolved (o : fetch_outcome) (v : value) :
  Spec.attempt_outcome this o = Resolved v ->
  exists r, result o = Responds r /\ ok r = true /\ body r = Some v
            /\ (latency o < timeout this)%Z.
Proof.
  unfold Spec.attempt_outcome.
  destruct (Z.leb_spec (timeout this) (latency o)); [discriminate|].
  destruct (result o) as [e|r]; [discriminate|].
  destruct (ok r) eqn:K; [|discriminate].
  destruct (body r) as [b|] eqn:Bd; [|discriminate].
  intros [= ->]. now exists r.
Qed.

(** Within the budget, a resolved value is the body of an ok response that
    came in time. *)
Lemma attempts_resolved_from_response (url : string) (opts : options)
    (remaining attempt : nat) (s : state) (v : value) :
  attempt + remaining = S (retryAttempts this) ->
  1 <= remaining ->
  fst (attempts this url opts remaining attempt w s) = Resolved v ->
  exists i r, i < remaining
              /\ result (network w (fetched s + i)) = Responds r
              /\ ok r = true /\ body r = Some v
              /\ (latency (network w (fetched s + i)) < timeout this)%Z.
Proof.
  revert attempt s; induction remaining as [|rem IH]; intros attempt s A B;
    [lia|].
  cbn [attempts]. unfold try_catch. rewrite attempt_body_outcome.
  destruct (Spec.attempt_outcome this (network w (fetched s))) as [v0|e]
    eqn:O.
  - cbn [fst]. intros [= ->].
    destruct (attempt_outcome_resolved _ _ O) as [r H].
    exists 0, r. rewrite Nat.add_0_r. split; [lia | exact H].
  - destruct (Nat.eqb_spec attempt (retryAttempts this)) as [E|NE].
    + cbn. discriminate.
    + unfold bind, delay, log. cbn [fetched trace]. intros H.
      apply IH in H; [|lia|lia].
      destruct H as [i [r [Hi H]]]. cbn [fetched] in H.
      exists (S i), r. split; [lia|].
      now replace (fetched s + S i) with (S (fetched s) + i) by lia.
Qed.

Lemma total_delay_app (a b : list event) :
  total_delay (a ++ b) = (total_delay a + total_delay b)%Z.
Proof.
  induction a as [|[n m u|ms] a IH]; cbn [app total_delay]; lia.
Qed.

Lemma total_delay_failed_attempts (method url : string) (attempt k : nat) :
  (2 * total_delay (failed_attempts this method url attempt k)
   = retryDelay this
     * (Z.of_nat k * (2 * Z.of_nat attempt + Z.of_nat k - 1)))%Z.
Proof.
  revert attempt; induction k as [|k IH]; intros attempt.
  - cbn. lia.
  - cbn [failed_attempts total_delay].
    specialize (IH (S attempt)). nia.
Qed.

Lemma getConnectionStatus_run (s : state) :
  getConnectionStatus this w s
  = (Resolved (mkStatus "online" None (now_iso w)),
     mkState (S (fetched s)) (trace s ++ [EFetch 1 "GET" "/health"])%list).
Proof.
  unfold getConnectionStatus, healthCheck, try_catch, bind, fetch, ret,
    toISOString.
  cbn. destruct (result (network w (fetched s))); reflexivity.
Qed.

End RetryFacts.

(** X1: for any budget, a call whose first [k] attempts fail and whose
    attempt [k + 1] is within the budget and succeeds resolves with the
    value of that attempt, after exactly [k + 1] fetches: each failed
    attempt is followed by its wait, the successful one by nothing. With
    [k = 0] the call is one fetch and no wait. *)
Theorem makeRequest_resolves_at_first_success
    (this : Api.APIClient) (w : Api.env) (endpoint : string)
    (opts : Api.options) (s : Api.state) (k : nat) (v : value) :
  k < Api.retryAttempts this ->
  ApiCalls.all_fail this w (Api.fetched s) k = true ->
  Spec.attempt_outcome this (Api.network w (Api.fetched s + k))
    = Resolved v ->
  Api.makeRequest this endpoint opts w s
  = (Resolved v,
     Api.mkState (Api.fetched s + S k)
       (Api.trace s
        ++ ApiCalls.failed_attempts this (Api.method opts)
             (Api.baseURL this ++ endpoint) 1 k
        ++ [Api.EFetch (S k) (Api.method opts)
                       (Api.baseURL this ++ endpoint)])%list).
Proof.
  intros B F H. unfold Api.makeRequest.
  replace (Api.retryAttempts this)
    with (k + S (Api.retryAttempts this - S k)) at 1 by lia.
  apply attempts_first_success; [exact F | lia | exact H].
Qed.

(** The theorem above at a server that refuses once and then answers. *)
Lemma makeRequest_resolves_at_first_success_witness :
  Api.makeRequest Api.new_APIClient "/stats" Api.default_options
                  MoreExamples.second_time Api.initial
  = (Resolved (VString "ok"),
     Api.mkState 2
       [Api.EFetch 1 "GET" "/api/stats"; Api.EDelay 1000;
        Api.EFetch 2 "GET" "/api/stats"]).
Proof.
  apply (makeRequest_resolves_at_first_success
           Api.new_APIClient MoreExamples.second_time "/stats"
           Api.default_options Api.initial 1 (VString "ok"));
    [cbn; lia | reflexivity | reflexivity].
Defined.

(** X2: for any budget of at least one attempt, a call all of whose
    attempts fail rejects with the error of the last attempt, after exactly
    as many fetches as the budget allows; every attempt but the last is
    followed by its wait. *)
Theorem makeRequest_rejects_with_last_error
    (this : Api.APIClient) (w : Api.env) (endpoint : string)
    (opts : Api.options) (s : Api.state) (m : nat) (e : error) :
  Api.retryAttempts this = S m ->
  ApiCalls.all_fail this w (Api.fetched s) m = true ->
  Spec.attempt_outcome this (Api.network w (Api.fetched s + m))
    = Rejected e ->
  Api.makeRequest this endpoint opts w s
  = (Rejected e,
     Api.mkState (Api.fetched s + S m)
       (Api.trace s
        ++ ApiCalls.failed_attempts this (Api.method opts)
             (Api.baseURL this ++ endpoint) 1 m
        ++ [Api.EFetch (S m) (Api.method opts)
                       (Api.baseURL this ++ endpoint)])%list).
Proof.
  intros N F H. unfold Api.makeRequest. rewrite N.
  now apply attempts_all_fail.
Qed.

(** The theorem above at a server that answers 503 to everything. *)
Lemma makeRequest_rejects_with_last_error_witness :
  Api.makeRequest Api.new_APIClient "/tags" (Api.mkOptions "POST" None)
                  (Api.mkEnv (fun _ => Examples.unavailable) "") Api.initial
  = (Rejected (APIError "HTTP 503: Service Unavailable" 503 (VObject [])),
     Api.mkState 3
       [Api.EFetch 1 "POST" "/api/tags"; Api.EDelay 1000;
        Api.EFetch 2 "POST" "/api/tags"; Api.EDelay 2000;
        Api.EFetch 3 "POST" "/api/tags"]).
Proof.
  apply (makeRequest_rejects_with_last_error
           Api.new_APIClient (Api.mkEnv (fun _ => Examples.unavailable) "")
           "/tags" (Api.mkOptions "POST" None) Api.initial 2);
    reflexivity.
Defined.

(** X3: whatever the server does, a call makes at most as many fetches as
    the budget [retryAttempts] allows. *)
Theorem makeRequest_fetch_budget
    (this : Api.APIClient) (w : Api.env) (endpoint : string)
    (opts : Api.options) (s : Api.state) :
  Api.fetched s
  <= Api.fetched (snd (Api.makeRequest this endpoint opts w s))
  <= Api.fetched s + Api.retryAttempts this.
Proof. unfold Api.makeRequest. apply attempts_fetch_bound. Qed.

(** X4: a call all of whose [n] attempts fail has waited
    [retryDelay * n * (n - 1) / 2] milliseconds between attempts in all
    (3000 ms for the default budget of 3 and delay of 1000). *)
Theorem makeRequest_total_backoff
    (this : Api.APIClient) (w : Api.env) (endpoint : string)
    (opts : Api.options) (s : Api.state) (m : nat) (e : error) :
  Api.retryAttempts this = S m ->
  ApiCalls.all_fail this w (Api.fetched s) m = true ->
  Spec.attempt_outcome this (Api.network w (Api.fetched s + m))
    = Rejected e ->
  (2 * (ApiCalls.total_delay
          (Api.trace (snd (Api.makeRequest this endpoint opts w s)))
        - ApiCalls.total_delay (Api.trace s))
   = Api.retryDelay this * (Z.of_nat (S m) * Z.of_nat m))%Z.
Proof.
  intros N F H. unfold Api.makeRequest. rewrite N.
  rewrite (attempts_all_fail this w _ _ _ _ e N F H). cbn [snd Api.trace].
  rewrite !total_delay_app. cbn [ApiCalls.total_delay].
  pose proof (total_delay_failed_attempts this (Api.method opts)
                (Api.baseURL this ++ endpoint) 1 m) as T.
  nia.
Qed.

(** The theorem above at a server that never answers: 3000 ms. *)
Lemma makeRequest_total_backoff_witness :
  (2 * (ApiCalls.total_delay (Api.trace (snd Examples.down_run))
        - ApiCalls.total_delay (Api.trace Api.initial))
   = 1000 * (3 * 2))%Z.
Proof.
  apply (makeRequest_total_backoff
           Api.new_APIClient Examples.down "/stats" Api.default_options
           Api.initial 2 (TypeError "Failed to fetch"));
    reflexivity.
Defined.

(** X5: a call never resolves with anything but the parsed body of a
    response that had an ok status and came within the time limit: when a
    call with a budget of at least one attempt resolves with [v], one of
    its fetches was answered in time with a status in 200-299 and the
    body [v]. *)
Theorem makeRequest_resolves_only_ok_bodies
    (this : Api.APIClient) (w : Api.env) (endpoint : string)
    (opts : Api.options) (s : Api.state) (v : value) :
  1 <= Api.retryAttempts this ->
  fst (Api.makeRequest this endpoint opts w s) = Resolved v ->
  exists i r,
    i < Api.retryAttempts this
    /\ Api.result (Api.network w (Api.fetched s + i)) = Api.Responds r
    /\ Api.ok r = true
    /\ Api.body r = Some v
    /\ (Api.latency (Api.network w (Api.fetched s + i))
        < Api.timeout this)%Z.
Proof.
  intros B H. unfold Api.makeRequest in H.
  apply attempts_resolved_from_response in H; [exact H | lia | exact B].
Qed.

(** The theorem above at a server that fails twice and then answers. *)
Lemma makeRequest_resolves_only_ok_bodies_witness :
  exists i r,
    i < 3
    /\ Api.result (Api.network Examples.third_time_lucky (0 + i))
       = Api.Responds r
    /\ Api.ok r = true
    /\ Api.body r = Some (VObject [("total_writings", VNumber 247)])
    /\ (Api.latency (Api.network Examples.third_time_lucky (0 + i))
        < 10000)%Z.
Proof.
  apply (makeRequest_resolves_only_ok_bodies
           Api.new_APIClient Examples.third_time_lucky "/stats"
           Api.default_options Api.initial
           (VObject [("total_writings", VNumber 247)]));
    [cbn; lia | reflexivity].
Defined.

Section TimeoutFacts.

Import Api ApiCalls.

Lemma late_attempts_fail (this : APIClient) (w : env) :
  (forall n, (timeout this <= latency (network w n))%Z) ->
  forall from k, all_fail this w from k = true.
Proof.
  intros L from k; revert from; induction k as [|k IH]; intros from;
    [reflexivity|].
  cbn [all_fail]. rewrite IH, andb_true_r.
  unfold fails, Spec.attempt_outcome.
  destruct (Z.leb_spec (timeout this) (latency (network w from)));
    [reflexivity|].
  specialize (L from). lia.
Qed.

End TimeoutFacts.

(** X6: against a server none of whose answers comes within the time
    limit, a call rejects with an [AbortError] after exactly as many
    fetches as the budget allows, whatever the late answers hold. *)
Theorem makeRequest_times_out
    (this : Api.APIClient) (w : Api.env) (endpoint : string)
    (opts : Api.options) (s : Api.state) (m : nat) :
  Api.retryAttempts this = S m ->
  (forall n, (Api.timeout this <= Api.latency (Api.network w n))%Z) ->
  fst (Api.makeRequest this endpoint opts w s)
  = Rejected (AbortError "The operation was aborted.")
  /\ Api.fetched (snd (Api.makeRequest this endpoint opts w s))
     = Api.fetched s + S m.
Proof.
  intros N L. unfold Api.makeRequest. rewrite N.
  rewrite (attempts_all_fail this w _ _ _ _
             (AbortError "The operation was aborted.") N).
  - split; reflexivity.
  - now apply late_attempts_fail.
  - unfold Spec.attempt_outcome.
    destruct (Z.leb_spec (Api.timeout this)
                (Api.latency (Api.network w (Api.fetched s + m))));
      [reflexivity|].
    specialize (L (Api.fetched s + m)). lia.
Qed.

(** The theorem above at a server that answers 200 after 10 seconds. *)
Lemma makeRequest_times_out_witness :
  fst (Api.makeRequest Api.new_APIClient "/stats" Api.default_options
                       MoreExamples.slow Api.initial)
  = Rejected (AbortError "The operation was aborted.")
  /\ Api.fetched (snd (Api.makeRequest Api.new_APIClient "/stats"
                         Api.default_options MoreExamples.slow Api.initial))
     = 0 + 3.
Proof.
  apply (makeRequest_times_out
           Api.new_APIClient MoreExamples.slow "/stats" Api.default_options
           Api.initial 2);
    [reflexivity | intros n; cbn; lia].
Defined.

(* ================================================================== *)
(** * Request URLs *)
(* ================================================================== *)

Section UrlFacts.

Import Url.

Lemma count_unit_app (c : ascii) (a b : string) :
  count_unit c (a ++ b) = count_unit c a + count_unit c b.
Proof.
  induction a as [|x a IH]; cbn [append count_unit]; [reflexivity|].
  rewrite IH. lia.
Qed.

(** The form encoding of a code unit holds none of [&], [=], [?], [#]. *)
Lemma form_encode_unit_separators (x : ascii) :
  count_unit "&" (form_encode_unit x) = 0
  /\ count_unit "=" (form_encode_unit x) = 0
  /\ count_unit "?" (form_encode_unit x) = 0
  /\ count_unit "#" (form_encode_unit x) = 0.
Proof.
  destruct x as [b0 b1 b2 b3 b4 b5 b6 b7].
  destruct b0, b1, b2, b3, b4, b5, b6, b7; vm_compute; auto.
Qed.

Lemma form_encode_separators (s : string) :
  count_unit "&" (form_encode s) = 0
  /\ count_unit "=" (form_encode s) = 0
  /\ count_unit "?" (form_encode s) = 0
  /\ count_unit "#" (form_encode s) = 0.
Proof.
  induction s as [|x s [I1 [I2 [I3 I4]]]]; [now cbn|].
  cbn [form_encode]. rewrite !count_unit_app, I1, I2, I3, I4.
  destruct (form_encode_unit_separators x) as [H1 [H2 [H3 H4]]].
  now rewrite H1, H2, H3, H4.
Qed.

(** The component encoding of a code unit holds none of [/], [?], [#],
    [&]. *)
Lemma component_encode_unit_separators (x : ascii) :
  count_unit "/" (component_encode_unit x) = 0
  /\ count_unit "?" (component_encode_unit x) = 0
  /\ count_unit "#" (component_encode_unit x) = 0
  /\ count_unit "&" (component_encode_unit x) = 0.
Proof.
  destruct x as [b0 b1 b2 b3 b4 b5 b6 b7].
  destruct b0, b1, b2, b3, b4, b5, b6, b7; vm_compute; auto.
Qed.

Lemma encodeURIComponent_separators (s : string) :
  count_unit "/" (encodeURIComponent s) = 0
  /\ count_unit "?" (encodeURIComponent s) = 0
  /\ count_unit "#" (encodeURIComponent s) = 0
  /\ count_unit "&" (encodeURIComponent s) = 0.
Proof.
  induction s as [|x s [I1 [I2 [I3 I4]]]]; [now cbn|].
  cbn [encodeURIComponent]. rewrite !count_unit_app, I1, I2, I3, I4.
  destruct (component_encode_unit_separators x) as [H1 [H2 [H3 H4]]].
  now rewrite H1, H2, H3, H4.
Qed.

Lemma pair_string_counts (kv : string * value) :
  count_unit "&" (pair_string kv) = 0
  /\ count_unit "=" (pair_string kv) = 1
  /\ count_unit "?" (pair_string kv) = 0
  /\ count_unit "#" (pair_string kv) = 0.
Proof.
  unfold pair_string. rewrite !count_unit_app.
  destruct (form_encode_separators (fst kv)) as [H1 [H2 [H3 H4]]].
  destruct (form_encode_separators (to_string (snd kv)))
    as [G1 [G2 [G3 G4]]].
  rewrite H1, H2, H3, H4, G1, G2, G3, G4. now cbn.
Qed.

Lemma query_string_counts (params : list (string * value)) :
  count_unit "&" (URLSearchParams_toString params) = List.length params - 1
  /\ count_unit "=" (URLSearchParams_toString params) = List.length params
  /\ count_unit "?" (URLSearchParams_toString params) = 0
  /\ count_unit "#" (URLSearchParams_toString params) = 0.
Proof.
  unfold URLSearchParams_toString, JsString.join.
  induction params as [|kv params [I1 [I2 [I3 I4]]]]; [now cbn|].
  destruct (pair_string_counts kv) as [H1 [H2 [H3 H4]]].
  destruct params as [|kv' params].
  - cbn [map String.concat List.length]. now rewrite H1, H2, H3, H4.
  - cbn [map String.concat] in *. rewrite !count_unit_app.
    rewrite H1, H2, H3, H4, I1, I2, I3, I4. cbn [List.length count_unit].
    cbn. repeat split; lia.
Qed.

Lemma query_string_nonempty (kv : string * value)
    (params : list (string * value)) :
  JsString.truthy (URLSearchParams_toString (kv :: params)) = true.
Proof.
  unfold URLSearchParams_toString, JsString.join, JsString.truthy.
  cbn [map String.concat]. unfold pair_string.
  destruct (form_encode (fst kv)) as [|c k];
    destruct (map _ params); reflexivity.
Qed.

End UrlFacts.

(** X7: [get] requests the bare endpoint when no parameter is given and
    the endpoint followed by [?] and the query string otherwise; in the
    query string the keys and values are encoded so that they contribute
    no [&], [=], [?] or [#]: it holds one [=] per parameter and one [&]
    between two parameters, whatever the keys and values are. *)
Theorem get_query_string (this : Api.APIClient) (endpoint : string)
    (params : list (string * value)) :
  ApiCalls.get this endpoint params
  = Api.makeRequest this
      (match params with
       | [] => endpoint
       | _ => endpoint ++ "?" ++ Url.URLSearchParams_toString params
       end)
      Api.default_options
  /\ Url.count_unit "&" (Url.URLSearchParams_toString params)
     = List.length params - 1
  /\ Url.count_unit "=" (Url.URLSearchParams_toString params)
     = List.length params
  /\ Url.count_unit "?" (Url.URLSearchParams_toString params) = 0
  /\ Url.count_unit "#" (Url.URLSearchParams_toString params) = 0.
Proof.
  split; [|apply query_string_counts].
  unfold ApiCalls.get. destruct params as [|kv params]; [reflexivity|].
  now rewrite query_string_nonempty.
Qed.

(** X8: the accessors by tag put the tag name into the path as one
    segment: whatever the name, the path of [getWritingsByTag] has its
    three slashes and that of [getTagWritings] its three, and neither
    holds a [?] or a [#]. *)
Theorem tag_name_is_one_path_segment (this : Api.APIClient)
    (tagName : string) (params : list (string * value)) :
  let by_tag := "/writings/tag/" ++ Url.encodeURIComponent tagName in
  let tag_writings :=
    "/tags/" ++ Url.encodeURIComponent tagName ++ "/writings" in
  ApiCalls.getWritingsByTag this tagName params
  = ApiCalls.get this by_tag params
  /\ ApiCalls.getTagWritings this tagName params
     = ApiCalls.get this tag_writings params
  /\ Url.count_unit "/" by_tag = 3
  /\ Url.count_unit "/" tag_writings = 3
  /\ Url.count_unit "?" by_tag = 0 /\ Url.count_unit "#" by_tag = 0
  /\ Url.count_unit "?" tag_writings = 0
  /\ Url.count_unit "#" tag_writings = 0.
Proof.
  cbv zeta.
  destruct (encodeURIComponent_separators tagName) as [H1 [H2 [H3 H4]]].
  rewrite !count_unit_app, H1, H2, H3.
  repeat split.
Qed.

Section MonitorFacts.

Import Api ApiCalls.

Lemma monitor_tick_online (API : APIClient) (w : env) (s : state)
    (indicator text : Dom.element) :
  monitor_tick API w s (mkView (Some indicator) (Some text))
  = (mkState (S (fetched s)) (trace s ++ [EFetch 1 "GET" "/health"])%list,
     mkView (Some (set_class_names indicator ["status-indicator"]))
            (Some (Dom.set_textContent text "ONLINE"))).
Proof.
  unfold monitor_tick. rewrite getConnectionStatus_run. reflexivity.
Qed.

Lemma monitor_ticks_step (API : APIClient) (w : env) (n : nat) (s : state)
    (view : indicator_view) :
  monitor_ticks API w (S n) s view
  = monitor_ticks API w n (fst (monitor_tick API w s view))
                  (snd (monitor_tick API w s view)).
Proof.
  cbn [monitor_ticks]. now destruct (monitor_tick API w s view).
Qed.

End MonitorFacts.

(** X9: the connection monitor can only ever show ONLINE. Whatever the
    server does, after one or more firings of the monitor on a page that
    has the indicator and the status text, the indicator has the single
    class [status-indicator] (never [offline]) and the text reads
    ONLINE. *)
Theorem monitor_always_shows_online
    (API : Api.APIClient) (w : Api.env) (n : nat) (s : Api.state)
    (indicator text : Dom.element) :
  let view := ApiCalls.mkView (Some indicator) (Some text) in
  let view' := snd (ApiCalls.monitor_ticks API w (S n) s view) in
  exists indicator' text',
    ApiCalls.statusIndicator view' = Some indicator'
    /\ Dom.classes indicator' = ["status-indicator"]
    /\ Dom.has_class indicator' "offline" = false
    /\ ApiCalls.statusText view' = Some text'
    /\ Dom.innerHTML text' = "ONLINE".
Proof.
  cbv zeta. revert s indicator text. induction n as [|n IH];
    intros s indicator text.
  - rewrite monitor_ticks_step, monitor_tick_online.
    cbn [ApiCalls.monitor_ticks fst snd ApiCalls.statusIndicator
         ApiCalls.statusText].
    eexists _, _. repeat split.
    + now destruct indicator.
    + now destruct indicator.
    + apply innerHTML_set_textContent.
  - rewrite monitor_ticks_step, monitor_tick_online. cbn [fst snd].
    apply IH.
Qed.

(* ================================================================== *)
(** * More about the views *)
(* ================================================================== *)

Section MoreViewFacts.

Context {host : Host}.

Import JsString App.

Lemma card_items_card_nodes (uid : nat) (items : list ContentItem) :
  card_items (card_nodes uid items) = items.
Proof.
  revert uid; induction items as [|item items IH]; intros uid;
    [reflexivity|].
  cbn [card_nodes card_items flat_map card_node Dom.listeners map app].
  f_equal. apply IH.
Qed.

Lemma has_class_classList_remove (e : Dom.element) (cls : string) :
  Dom.has_class (Dom.classList_remove e cls) cls = false.
Proof.
  destruct e as [u tag cs ls ch].
  unfold Dom.classList_remove, Dom.has_class; cbn [Dom.classes].
  induction cs as [|c cs IH]; [reflexivity|]. cbn [filter].
  destruct (String.eqb cls c) eqn:E; cbn [negb existsb]; [exact IH|].
  now rewrite E, IH.
Qed.

Lemma has_class_classList_remove_other (e : Dom.element) (cls other : string) :
  cls <> other ->
  Dom.has_class (Dom.classList_remove e cls) other = Dom.has_class e other.
Proof.
  intros ne. destruct e as [u tag cs ls ch].
  unfold Dom.classList_remove, Dom.has_class; cbn [Dom.classes].
  induction cs as [|c cs IH]; [reflexivity|]. cbn [filter existsb].
  destruct (String.eqb_spec cls c) as [->|ne']; cbn [negb existsb].
  - rewrite IH. apply String.eqb_neq in ne.
    rewrite String.eqb_sym in ne. now rewrite ne.
  - now rewrite IH.
Qed.

Lemma has_class_classList_add_other (e : Dom.element) (cls other : string) :
  cls <> other ->
  Dom.has_class (Dom.classList_add e cls) other = Dom.has_class e other.
Proof.
  intros ne. destruct e as [u tag cs ls ch].
  unfold Dom.classList_add, Dom.has_class.
  destruct (existsb (String.eqb cls) cs); cbn [Dom.classes]; [reflexivity|].
  rewrite existsb_app. cbn [existsb].
  apply String.eqb_neq in ne. rewrite String.eqb_sym in ne.
  now rewrite ne, !orb_false_r.
Qed.

Lemma innerHTML_classList_add (e : Dom.element) (cls : string) :
  Dom.innerHTML (Dom.classList_add e cls) = Dom.innerHTML e.
Proof.
  destruct e as [u tag cs ls ch]. unfold Dom.classList_add.
  now destruct (existsb (String.eqb cls) cs).
Qed.

Lemma innerHTML_classList_remove (e : Dom.element) (cls : string) :
  Dom.innerHTML (Dom.classList_remove e cls) = Dom.innerHTML e.
Proof. now destruct e. Qed.

Lemma skipn_new (A : Type) (old new : list A) :
  skipn (List.length old) (old ++ new) = new.
Proof. induction old; [reflexivity | assumption]. Qed.

Lemma search_result_item_run (item : ContentItem) (d : Dom.document) :
  exists row, search_result_item item d = (row, Dom.advance 1 d).
Proof.
  unfold search_result_item.
  rewrite (bind_run _ _ _ _ _ (escapeHtml_run _ _)).
  unfold Dom.ret. now eexists.
Qed.

Lemma mapM_keeps_by_id {A B} (f : A -> Dom.dom B) :
  (forall x d, Dom.by_id (snd (f x d)) = Dom.by_id d) ->
  forall l d, Dom.by_id (snd (Dom.mapM f l d)) = Dom.by_id d.
Proof.
  intros H l; induction l as [|x l IH]; intros d; [reflexivity|].
  cbn [Dom.mapM]. unfold Dom.bind at 1.
  destruct (f x d) as [y d1] eqn:E1.
  unfold Dom.bind at 1.
  destruct (Dom.mapM f l d1) as [ys d2] eqn:E2.
  unfold Dom.ret. cbn [snd].
  specialize (IH d1). rewrite E2 in IH. cbn [snd] in IH.
  specialize (H x d). rewrite E1 in H. cbn [snd] in H. congruence.
Qed.

Lemma search_result_item_keeps_by_id (item : ContentItem)
    (d : Dom.document) :
  Dom.by_id (snd (search_result_item item d)) = Dom.by_id d.
Proof.
  destruct (search_result_item_run item d) as [row H]. now rewrite H.
Qed.

End MoreViewFacts.

(** X10: the dashboard shows exactly the items the gate lets through.
    After [displayRecentContent], on a page that has the container, the
    cards in it open, in order, the items that are not explicit, and the
    explicit ones too when the gate is on; whatever the container held
    before is gone. *)
Theorem dashboard_shows_what_the_gate_lets_through {host : Host}
    (this : App.MusingsApp) (items : list ContentItem) (w : App.world)
    (el : Dom.element) :
  Dom.lookup "recentContent" (Dom.by_id (App.document w)) = Some el ->
  card_items (children_of "recentContent"
                (App.exec (displayRecentContent this items) w))
  = filter (fun item => App.explicitContentEnabled this
                        || negb (explicit_content item)) items
  /\ markup_of "recentContent" (App.exec (displayRecentContent this items) w)
     = JsString.join
         (map card_markup
              (filter (fun item => App.explicitContentEnabled this
                                   || negb (explicit_content item)) items))
         "".
Proof.
  intros H. split.
  - rewrite (displayRecentContent_children this items w el H).
    apply card_items_card_nodes.
  - rewrite displayRecentContent_markup, H. reflexivity.
Qed.

(** The theorem above with the gate off and an explicit item among two. *)
Lemma dashboard_shows_what_the_gate_lets_through_witness :
  card_items (children_of "recentContent"
                (App.exec (displayRecentContent (host := MoreExamples.plain_host)
                             App.new_MusingsApp
                             [Examples.midnight; Examples.poem])
                          Examples.fresh))
  = [Examples.poem]
  /\ markup_of "recentContent"
       (App.exec (displayRecentContent (host := MoreExamples.plain_host)
                    App.new_MusingsApp [Examples.midnight; Examples.poem])
                 Examples.fresh)
     = JsString.join
         (map (card_markup (host := MoreExamples.plain_host))
              [Examples.poem]) "".
Proof.
  apply (dashboard_shows_what_the_gate_lets_through
           (host := MoreExamples.plain_host) App.new_MusingsApp
           [Examples.midnight; Examples.poem] Examples.fresh
           (Examples.element 4 [])).
  reflexivity.
Defined.

(** X11: the full search page shows a notice when nothing was found and
    otherwise a summary with the number of items, the word [result] for
    exactly one item and [results] for more, followed by the card of every
    item in order. *)
Theorem advanced_search_results_markup {host : Host}
    (this : App.MusingsApp) (items : list ContentItem) (w : App.world)
    (el : Dom.element) :
  Dom.lookup "searchResultsContainer" (Dom.by_id (App.document w))
    = Some el ->
  markup_of "searchResultsContainer"
    (App.exec (displayAdvancedSearchResults this items) w)
  = advanced_results_markup items.
Proof.
  intros H. unfold markup_of, App.exec, App.on_document,
    displayAdvancedSearchResults.
  unfold Dom.bind at 1, Dom.getElementById. rewrite H.
  destruct items as [|item items].
  - unfold Dom.store; cbn [Dom.by_id Dom.next_uid].
    destruct w; cbn [App.with_document App.document snd Dom.by_id] in *.
    rewrite (lookup_replace _ _ el) by exact H.
    apply innerHTML_set_innerHTML.
  - erewrite bind_run.
    2:{ apply (mapM_run _ card_markup card_cost). intros x d.
        unfold Dom.bind. rewrite createContentCard_run. reflexivity. }
    unfold Dom.store, Dom.advance; cbn [Dom.by_id Dom.next_uid].
    destruct w; cbn [App.with_document App.document snd Dom.by_id] in *.
    rewrite (lookup_replace _ _ el) by exact H.
    apply innerHTML_set_innerHTML.
Qed.

(** The theorem above for one item found. *)
Lemma advanced_search_results_markup_witness :
  markup_of "searchResultsContainer"
    (App.exec (displayAdvancedSearchResults (host := MoreExamples.plain_host)
                 App.new_MusingsApp [Examples.poem]) Examples.fresh)
  = advanced_results_markup (host := MoreExamples.plain_host)
      [Examples.poem].
Proof.
  apply (advanced_search_results_markup (host := MoreExamples.plain_host)
           App.new_MusingsApp [Examples.poem] Examples.fresh
           (Examples.element 6 [])).
  reflexivity.
Defined.

Section QuickResultsFacts.

Context {host : Host}.

Import JsString App.

Lemma displaySearchResults_document (results : list ContentItem)
    (w : world) (el : Dom.element) :
  Dom.lookup "searchResults" (Dom.by_id (document w)) = Some el ->
  exists html,
    Dom.lookup "searchResults"
      (Dom.by_id (document (exec (displaySearchResults results) w)))
    = Some (Dom.classList_remove (Dom.set_innerHTML el html) "hidden")
    /\ (results = [] ->
        html = "<div" ++ Dom.attr "class" "search-result-item"
               ++ ">No results found</div>").
Proof.
  intros H. unfold exec, on_document, displaySearchResults.
  unfold Dom.bind at 1, Dom.getElementById. rewrite H.
  destruct results as [|item results].
  - eexists. split; [|reflexivity].
    unfold showSearchResults, Dom.bind, Dom.store, Dom.getElementById.
    cbn [Dom.by_id Dom.next_uid].
    rewrite (lookup_replace _ _ el) by exact H.
    destruct w; cbn [with_document document snd Dom.by_id] in *.
    rewrite replace_replace.
    now apply (lookup_replace _ _ el).
  - unfold Dom.bind at 1. unfold Dom.bind at 1.
    pose proof (mapM_keeps_by_id search_result_item
                  search_result_item_keeps_by_id (item :: results)
                  (document w)) as K.
    destruct (Dom.mapM search_result_item (item :: results) (document w))
      as [rows d1]. cbn [snd] in K.
    exists (join rows ""). split; [|discriminate].
    unfold showSearchResults, Dom.bind, Dom.store, Dom.getElementById.
    cbn [Dom.by_id Dom.next_uid]. rewrite K.
    rewrite (lookup_replace _ _ el) by exact H.
    destruct w; cbn [with_document document snd Dom.by_id] in *.
    rewrite replace_replace.
    now apply (lookup_replace _ _ el).
Qed.

End QuickResultsFacts.

(** X12: after [displaySearchResults] the quick-search panel is shown,
    whether anything was found or not; when nothing was found it says
    so. *)
Theorem quick_results_are_shown {host : Host}
    (results : list ContentItem) (w : App.world) (el : Dom.element) :
  Dom.lookup "searchResults" (Dom.by_id (App.document w)) = Some el ->
  results_hidden (App.exec (displaySearchResults results) w) = false
  /\ markup_of "searchResults" (App.exec (displaySearchResults []) w)
     = "<div" ++ Dom.attr "class" "search-result-item"
       ++ ">No results found</div>".
Proof.
  intros H. split.
  - destruct (displaySearchResults_document results w el H) as [html [L _]].
    unfold results_hidden. rewrite L. apply has_class_classList_remove.
  - destruct (displaySearchResults_document [] w el H) as [html [L E]].
    unfold markup_of. rewrite L, innerHTML_classList_remove,
      innerHTML_set_innerHTML.
    now apply E.
Qed.

(** The theorem above on a page whose panel was hidden. *)
Lemma quick_results_are_shown_witness :
  results_hidden
    (App.exec (displaySearchResults (host := MoreExamples.plain_host)
                 [Examples.poem]) Examples.fresh) = false
  /\ markup_of "searchResults"
       (App.exec (displaySearchResults (host := MoreExamples.plain_host) [])
                 Examples.fresh)
     = "<div" ++ Dom.attr "class" "search-result-item"
       ++ ">No results found</div>".
Proof.
  apply (quick_results_are_shown (host := MoreExamples.plain_host)
           [Examples.poem] Examples.fresh (Examples.element 9 [])).
  reflexivity.
Defined.

(* ================================================================== *)
(** * Navigation and the gate *)
(* ================================================================== *)

Section NavigationFacts.

Context {host : Host}.

Import JsString App.

Lemma lookup_deactivate_pages (key : string) (d : Dom.document) :
  Dom.lookup key (Dom.by_id (deactivate_pages d))
  = match Dom.lookup key (Dom.by_id d) with
    | Some el => Some (if Dom.has_class el "page"
                       then Dom.classList_remove el "active" else el)
    | None => None
    end.
Proof.
  unfold deactivate_pages; cbn [Dom.by_id].
  induction (Dom.by_id d) as [|[k el] l IH]; [reflexivity|].
  cbn [map Dom.lookup].
  destruct (Dom.has_class el "page") eqn:P; cbn [Dom.lookup];
    destruct (k =? key)%string; rewrite ?P; auto.
Qed.

(** The document a navigation leaves: the pages are deactivated and the
    target, if the page has it, activated; the loaders touch only the
    calls. *)
Lemma navigateToPage_by_id (page : string) (w : world) :
  existsb (String.eqb page) (nav_links w) = true ->
  Dom.by_id (document (navigateToPage page w))
  = match Dom.lookup page (Dom.by_id (deactivate_pages (document w))) with
    | Some target =>
        Dom.replace page (Dom.classList_add target "active")
                    (Dom.by_id (deactivate_pages (document w)))
    | None => Dom.by_id (deactivate_pages (document w))
    end.
Proof.
  intros L. unfold navigateToPage. rewrite L.
  destruct w as [a d nl v t nh ts cs ps].
  cbn [with_document document].
  destruct (Dom.lookup page (Dom.by_id (deactivate_pages d))) as [target|];
    [|reflexivity].
  destruct (page =? "dashboard")%string; [reflexivity|].
  destruct (page =? "browse")%string; reflexivity.
Qed.

Lemma navigateToPage_without_link (page : string) (w : world) :
  existsb (String.eqb page) (nav_links w) = false ->
  navigateToPage page w = w.
Proof. intros L. unfold navigateToPage. now rewrite L. Qed.

(** A navigation changes classes only: the content of every element
    stays. *)
Lemma navigateToPage_keeps_markup (page key : string) (w : world) :
  markup_of key (navigateToPage page w) = markup_of key w.
Proof.
  destruct (existsb (String.eqb page) (nav_links w)) eqn:L;
    [|now rewrite navigateToPage_without_link].
  unfold markup_of. rewrite (navigateToPage_by_id page w L).
  pose proof (lookup_deactivate_pages page (document w)) as T.
  pose proof (lookup_deactivate_pages key (document w)) as K.
  destruct (Dom.lookup page (Dom.by_id (deactivate_pages (document w))))
    as [target|] eqn:E.
  - destruct (String.eqb_spec key page) as [->|ne].
    + rewrite (lookup_replace _ _ target) by exact E.
      rewrite innerHTML_classList_add. rewrite ?E in T.
      destruct (Dom.lookup page (Dom.by_id (document w))) as [el|];
        [|discriminate].
      injection T as ->.
      destruct (Dom.has_class el "page");
        now rewrite ?innerHTML_classList_remove.
    + rewrite lookup_replace_other by exact ne. rewrite K.
      destruct (Dom.lookup key (Dom.by_id (document w))) as [el|];
        [|reflexivity].
      destruct (Dom.has_class el "page");
        now rewrite ?innerHTML_classList_remove.
  - rewrite K.
    destruct (Dom.lookup key (Dom.by_id (document w))) as [el|];
      [|reflexivity].
    destruct (Dom.has_class el "page");
      now rewrite ?innerHTML_classList_remove.
Qed.

(** A navigation keeps every element of the page. *)
Lemma navigateToPage_keeps_elements (page key : string) (w : world)
    (el : Dom.element) :
  Dom.lookup key (Dom.by_id (document w)) = Some el ->
  exists el', Dom.lookup key (Dom.by_id (document (navigateToPage page w)))
              = Some el'.
Proof.
  intros H.
  destruct (existsb (String.eqb page) (nav_links w)) eqn:L;
    [|rewrite navigateToPage_without_link by exact L; eauto].
  rewrite (navigateToPage_by_id page w L).
  pose proof (lookup_deactivate_pages key (document w)) as K.
  rewrite H in K.
  destruct (Dom.lookup page (Dom.by_id (deactivate_pages (document w))))
    as [target|] eqn:E; [|eauto].
  destruct (String.eqb_spec key page) as [->|ne].
  - rewrite (lookup_replace _ _ target) by exact E. eauto.
  - rewrite lookup_replace_other by exact ne. eauto.
Qed.

(** A navigation leaves the fields of the application other than the
    current page, and the timers, as they are. *)
Lemma navigateToPage_keeps_fields (page : string) (w : world) :
  explicitContentEnabled (this (navigateToPage page w))
  = explicitContentEnabled (this w)
  /\ currentContent (this (navigateToPage page w)) = currentContent (this w)
  /\ timers (navigateToPage page w) = timers w.
Proof.
  unfold navigateToPage.
  destruct (existsb (String.eqb page) (nav_links w)); [|auto].
  destruct w as [a d nl v t nh ts cs ps]. cbn [with_document document].
  destruct (Dom.lookup page (Dom.by_id (deactivate_pages d))); [|auto].
  destruct (page =? "dashboard")%string; [auto|].
  destruct (page =? "browse")%string; auto.
Qed.

Lemma no_other_active_after_deactivation (page : string)
    (l : list (string * Dom.element)) :
  filter (fun kv : string * Dom.element =>
            negb (fst kv =? page)%string
            && Dom.has_class (snd kv) "page"
            && Dom.has_class (snd kv) "active")
         (map (fun kv : string * Dom.element =>
                 let (k, el) := kv in
                 if Dom.has_class el "page"
                 then (k, Dom.classList_remove el "active")
                 else (k, el)) l)
  = [].
Proof.
  induction l as [|[k el] l IH]; [reflexivity|]. cbn [map filter].
  destruct (Dom.has_class el "page") eqn:P; cbn [fst snd].
  - rewrite has_class_classList_remove, andb_false_r. exact IH.
  - rewrite P, andb_false_r. exact IH.
Qed.

Lemma no_other_active_after_replace (page : string) (v : Dom.element)
    (l : list (string * Dom.element)) :
  filter (fun kv : string * Dom.element =>
            negb (fst kv =? page)%string
            && Dom.has_class (snd kv) "page"
            && Dom.has_class (snd kv) "active") l = [] ->
  filter (fun kv : string * Dom.element =>
            negb (fst kv =? page)%string
            && Dom.has_class (snd kv) "page"
            && Dom.has_class (snd kv) "active")
         (Dom.replace page v l) = [].
Proof.
  induction l as [|[k el] l IH]; [reflexivity|].
  cbn [filter fst snd Dom.replace].
  destruct (k =? page)%string eqn:E; cbn [negb andb filter fst snd].
  - rewrite E. cbn [negb andb]. auto.
  - rewrite E. cbn [negb andb].
    destruct (Dom.has_class el "page" && Dom.has_class el "active");
      [discriminate | exact IH].
Qed.

End NavigationFacts.

(** X13: pages are shown one at a time. After a navigation to a page that
    has its navigation link, no page other than the target is active,
    whatever was active before. *)
Theorem navigation_leaves_no_other_page_active
    (page : string) (w : App.world) :
  existsb (String.eqb page) (App.nav_links w) = true ->
  other_active_pages page (navigateToPage page w) = [].
Proof.
  intros L. unfold other_active_pages.
  rewrite (navigateToPage_by_id page w L).
  destruct (Dom.lookup page (Dom.by_id (deactivate_pages (App.document w)))).
  - rewrite no_other_active_after_replace; [reflexivity|].
    apply no_other_active_after_deactivation.
  - unfold deactivate_pages; cbn [Dom.by_id].
    now rewrite no_other_active_after_deactivation.
Qed.

(** The theorem above from the dashboard to the browse page. *)
Lemma navigation_leaves_no_other_page_active_witness :
  other_active_pages "browse" (navigateToPage "browse" Examples.fresh) = [].
Proof.
  apply (navigation_leaves_no_other_page_active "browse" Examples.fresh).
  reflexivity.
Defined.

(** X14: a navigation to a page that has its link and its element makes
    it the current page, activates it, and starts the load of that page
    and no other: the statistics for the dashboard, the list of writings
    (limit 1000, [explicit] set to the gate) for the browse page, nothing
    for any other page. *)
Theorem navigation_loads_the_page (page : string) (w : App.world)
    (target : Dom.element) :
  existsb (String.eqb page) (App.nav_links w) = true ->
  Dom.lookup page (Dom.by_id (App.document w)) = Some target ->
  App.currentPage (App.this (navigateToPage page w)) = page
  /\ (exists target',
        Dom.lookup page (Dom.by_id (App.document (navigateToPage page w)))
        = Some target'
        /\ Dom.has_class target' "active" = true)
  /\ new_calls w (navigateToPage page w)
     = (if (page =? "dashboard")%string
        then [App.mkCall "/stats" [] App.AfterStatistics]
        else if (page =? "browse")%string
        then [App.mkCall "/writings"
                [("limit", VNumber 1000); ("explicit", VBool (gate w))]
                App.AfterBrowseContent]
        else []).
Proof.
  intros L H.
  pose proof (navigateToPage_by_id page w L) as D.
  pose proof (lookup_deactivate_pages page (App.document w)) as T.
  rewrite H in T. rewrite T in D.
  split; [|split].
  - unfold navigateToPage. rewrite L.
    destruct w as [a d nl v t nh ts cs ps].
    cbn [App.with_document App.document] in *. rewrite T.
    destruct (page =? "dashboard")%string; [reflexivity|].
    destruct (page =? "browse")%string; reflexivity.
  - eexists. rewrite D. split.
    + apply (lookup_replace _ _ _ _ T).
    + apply has_class_classList_add.
  - unfold navigateToPage, new_calls. rewrite L.
    destruct w as [a d nl v t nh ts cs ps].
    cbn [App.with_document App.document] in *. rewrite T.
    destruct (page =? "dashboard")%string;
      [cbn; apply skipn_new|].
    destruct (page =? "browse")%string; [cbn; apply skipn_new|].
    cbn. apply skipn_all.
Qed.

(** The theorem above from the dashboard to the browse page. *)
Lemma navigation_loads_the_page_witness :
  App.currentPage (App.this (navigateToPage "browse" Examples.fresh))
  = "browse"
  /\ (exists target',
        Dom.lookup "browse"
          (Dom.by_id (App.document (navigateToPage "browse" Examples.fresh)))
        = Some target'
        /\ Dom.has_class target' "active" = true)
  /\ new_calls Examples.fresh (navigateToPage "browse" Examples.fresh)
     = [App.mkCall "/writings"
          [("limit", VNumber 1000); ("explicit", VBool false)]
          App.AfterBrowseContent].
Proof.
  apply (navigation_loads_the_page "browse" Examples.fresh
           (Examples.element 1 ["page"])); reflexivity.
Defined.

Section ToggleFacts.

Import JsString App.

(** A reload touches only the calls. *)
Lemma refreshCurrentContent_run (w : world) :
  this (refreshCurrentContent w) = this w
  /\ document (refreshCurrentContent w) = document w
  /\ calls (refreshCurrentContent w)
     = (calls w
        ++ if (currentPage (this w) =? "dashboard")%string
           then [mkCall "/stats" [] AfterStatistics]
           else if (currentPage (this w) =? "browse")%string
           then [mkCall "/writings"
                   [("limit", VNumber 1000); ("explicit", VBool (gate w))]
                   AfterBrowseContent]
           else [])%list.
Proof.
  unfold refreshCurrentContent.
  destruct (currentPage (this w) =? "dashboard")%string;
    [now destruct w|].
  destruct (currentPage (this w) =? "browse")%string; [now destruct w|].
  rewrite app_nil_r. auto.
Qed.

(** The click, step by step. *)
Lemma click_explicitToggle_run (w : world) (toggle : Dom.element) :
  Dom.lookup "explicitToggle" (Dom.by_id (document w)) = Some toggle ->
  click_explicitToggle w
  = refreshCurrentContent
      (with_document
         (Dom.mkDocument (Dom.next_uid (document w))
            (Dom.replace "explicitToggle"
               (if negb (gate w) then Dom.classList_add toggle "enabled"
                else Dom.classList_remove toggle "enabled")
               (Dom.by_id (document w))))
         (with_this (set_explicitContentEnabled (negb (gate w)) (this w)) w)).
Proof.
  intros H. unfold click_explicitToggle. rewrite H.
  now destruct w as [[cp g cc st il] d nl v t nh ts cs ps].
Qed.

End ToggleFacts.

(** X15: a click on the explicit-content toggle flips the gate, marks the
    toggle [enabled] exactly when the gate is now on, and reloads the
    current view with the new gate: the statistics on the dashboard, the
    writings with [explicit] set to the new gate on the browse page, and
    nothing on any other page. A second click restores the gate. *)
Theorem toggle_flips_the_gate_and_reloads (w : App.world)
    (toggle : Dom.element) :
  Dom.lookup "explicitToggle" (Dom.by_id (App.document w)) = Some toggle ->
  gate (click_explicitToggle w) = negb (gate w)
  /\ (exists toggle',
        Dom.lookup "explicitToggle"
          (Dom.by_id (App.document (click_explicitToggle w)))
        = Some toggle'
        /\ Dom.has_class toggle' "enabled" = negb (gate w))
  /\ new_calls w (click_explicitToggle w)
     = (if (App.currentPage (App.this w) =? "dashboard")%string
        then [App.mkCall "/stats" [] App.AfterStatistics]
        else if (App.currentPage (App.this w) =? "browse")%string
        then [App.mkCall "/writings"
                [("limit", VNumber 1000);
                 ("explicit", VBool (negb (gate w)))]
                App.AfterBrowseContent]
        else [])
  /\ gate (click_explicitToggle (click_explicitToggle w)) = gate w.
Proof.
  intros H.
  pose proof (click_explicitToggle_run w toggle H) as R.
  set (w1 := App.with_document _ _) in R.
  destruct (refreshCurrentContent_run w1) as [T [D C]].
  assert (G : gate (click_explicitToggle w) = negb (gate w)).
  { unfold gate at 1. rewrite R, T. now destruct w as [[] ?]. }
  assert (L : Dom.lookup "explicitToggle"
                (Dom.by_id (App.document (click_explicitToggle w)))
              = Some (if negb (gate w)
                      then Dom.classList_add toggle "enabled"
                      else Dom.classList_remove toggle "enabled")).
  { rewrite R, D. subst w1. destruct w as [a d nl v t nh ts cs ps].
    cbn [App.with_document App.with_this App.document Dom.by_id] in *.
    apply (lookup_replace _ _ _ _ H). }
  split; [exact G|]. split; [|split].
  - eexists. split; [exact L|].
    destruct (negb (gate w));
      [apply has_class_classList_add | apply has_class_classList_remove].
  - unfold new_calls. rewrite R, C.
    replace (App.calls w1) with (App.calls w) by (now destruct w).
    replace (App.currentPage (App.this w1))
      with (App.currentPage (App.this w)) by (now destruct w as [[] ?]).
    replace (gate w1) with (negb (gate w)) by (now destruct w as [[] ?]).
    apply skipn_new.
  - pose proof (click_explicitToggle_run (click_explicitToggle w) _ L) as R2.
    set (w2 := App.with_document _ _) in R2.
    destruct (refreshCurrentContent_run w2) as [T2 _].
    unfold gate at 1. rewrite R2, T2. subst w2.
    rewrite G.
    destruct (click_explicitToggle w) as [[] ?]. cbn.
    apply negb_involutive.
Qed.

(** The theorem above on the browsing page with the gate on. *)
Lemma toggle_flips_the_gate_and_reloads_witness :
  gate (click_explicitToggle Examples.browsing_open) = negb true
  /\ (exists toggle',
        Dom.lookup "explicitToggle"
          (Dom.by_id (App.document
                        (click_explicitToggle Examples.browsing_open)))
        = Some toggle'
        /\ Dom.has_class toggle' "enabled" = negb true)
  /\ new_calls Examples.browsing_open
               (click_explicitToggle Examples.browsing_open)
     = [App.mkCall "/writings"
          [("limit", VNumber 1000); ("explicit", VBool (negb true))]
          App.AfterBrowseContent]
  /\ gate (click_explicitToggle
             (click_explicitToggle Examples.browsing_open)) = true.
Proof.
  apply (toggle_flips_the_gate_and_reloads Examples.browsing_open
           (Examples.element 11 [])).
  reflexivity.
Defined.

(* ================================================================== *)
(** * The content warning *)
(* ================================================================== *)

Section WarningFacts.

Context {host : Host}.

Import JsString App.

(** A computation on the document touches nothing else. *)
Lemma exec_frame (m : Dom.dom unit) (w : world) :
  this (exec m w) = this w
  /\ calls (exec m w) = calls w
  /\ timers (exec m w) = timers w
  /\ document (exec m w) = snd (m (document w)).
Proof.
  unfold exec, on_document. destruct (m (document w)) as [u d].
  now destruct w.
Qed.

Lemma showContentWarning_shows (item : ContentItem) (w : world)
    (modal : Dom.element) :
  Dom.lookup "contentWarning" (Dom.by_id (document w)) = Some modal ->
  warning_hidden (exec (showContentWarning item) w) = false.
Proof.
  intros H. unfold warning_hidden.
  destruct (exec_frame (showContentWarning item) w) as [_ [_ [_ D]]].
  rewrite D. unfold showContentWarning, Dom.bind, Dom.getElementById,
    Dom.store, Dom.ret.
  destruct (Dom.lookup "warningContentType" (Dom.by_id (document w)))
    as [ct|]; cbn [Dom.by_id Dom.next_uid snd].
  - rewrite (lookup_replace_other "warningContentType" "contentWarning")
      by discriminate.
    rewrite H. cbn [snd Dom.by_id].
    rewrite (lookup_replace _ _ modal)
      by (rewrite lookup_replace_other by discriminate; exact H).
    apply has_class_classList_remove.
  - rewrite H. cbn [snd Dom.by_id].
    rewrite (lookup_replace _ _ modal) by exact H.
    apply has_class_classList_remove.
Qed.

Lemma hideContentWarning_by_id (w : world) :
  Dom.by_id (document (exec hideContentWarning w))
  = match Dom.lookup "contentWarning" (Dom.by_id (document w)) with
    | Some modal =>
        Dom.replace "contentWarning" (Dom.classList_add modal "hidden")
                    (Dom.by_id (document w))
    | None => Dom.by_id (document w)
    end.
Proof.
  destruct (exec_frame hideContentWarning w) as [_ [_ [_ D]]]. rewrite D.
  unfold hideContentWarning, Dom.bind, Dom.getElementById, Dom.store,
    Dom.ret.
  now destruct (Dom.lookup "contentWarning" (Dom.by_id (document w))).
Qed.

Lemma hideContentWarning_hides (w : world) :
  warning_hidden (exec hideContentWarning w) = true.
Proof.
  unfold warning_hidden. rewrite hideContentWarning_by_id.
  destruct (Dom.lookup "contentWarning" (Dom.by_id (document w)))
    as [modal|] eqn:H.
  - rewrite (lookup_replace _ _ modal) by exact H.
    apply has_class_classList_add.
  - now rewrite H.
Qed.

Lemma hideContentWarning_keeps_viewer (w : world) :
  Dom.lookup "contentDisplay"
    (Dom.by_id (document (exec hideContentWarning w)))
  = Dom.lookup "contentDisplay" (Dom.by_id (document w)).
Proof.
  rewrite hideContentWarning_by_id.
  destruct (Dom.lookup "contentWarning" (Dom.by_id (document w)));
    [|reflexivity].
  now rewrite lookup_replace_other by discriminate.
Qed.

(** A navigation keeps the classes other than [active]. *)
Lemma navigateToPage_keeps_hidden (page : string) (w : world) :
  warning_hidden (navigateToPage page w) = warning_hidden w.
Proof.
  destruct (existsb (String.eqb page) (nav_links w)) eqn:L;
    [|now rewrite navigateToPage_without_link].
  unfold warning_hidden. rewrite (navigateToPage_by_id page w L).
  pose proof (lookup_deactivate_pages page (document w)) as T.
  pose proof (lookup_deactivate_pages "contentWarning" (document w)) as K.
  assert (R : match Dom.lookup "contentWarning"
                      (Dom.by_id (deactivate_pages (document w))) with
              | Some el => Dom.has_class el "hidden"
              | None => true
              end
              = match Dom.lookup "contentWarning" (Dom.by_id (document w))
                with
                | Some el => Dom.has_class el "hidden"
                | None => true
                end).
  { rewrite K.
    destruct (Dom.lookup "contentWarning" (Dom.by_id (document w)))
      as [el|]; [|reflexivity].
    destruct (Dom.has_class el "page"); [|reflexivity].
    apply has_class_classList_remove_other. discriminate. }
  destruct (Dom.lookup page (Dom.by_id (deactivate_pages (document w))))
    as [target|] eqn:E; [|exact R].
  destruct (String.eqb_spec "contentWarning" page) as [<-|ne].
  - rewrite (lookup_replace _ _ target) by exact E.
    rewrite has_class_classList_add_other by discriminate.
    rewrite <- R, E. reflexivity.
  - rewrite lookup_replace_other by exact ne. exact R.
Qed.

(** Rendering the full view touches the content viewer only. *)
Lemma render_full_view_keeps_others (sep key : string) (item : ContentItem)
    (w : world) :
  key <> "contentDisplay" ->
  Dom.lookup key
    (Dom.by_id (document (exec (render_full_view sep item) w)))
  = Dom.lookup key (Dom.by_id (document w)).
Proof.
  intros ne.
  destruct (exec_frame (render_full_view sep item) w) as [_ [_ [_ D]]].
  rewrite D. unfold render_full_view.
  unfold Dom.bind at 1, Dom.getElementById.
  destruct (Dom.lookup "contentDisplay" (Dom.by_id (document w)));
    [|reflexivity].
  destruct (formatContentForDisplay_run (content item) (content_type item)
              (document w)) as [k Hk].
  erewrite bind_run by exact Hk.
  erewrite bind_run by apply escapeHtml_run.
  unfold Dom.store, Dom.advance; cbn [snd Dom.by_id Dom.next_uid].
  now apply lookup_replace_other.
Qed.

(** What [displayContent] leaves in the content viewer, and what it
    leaves alone. *)
Lemma displayContent_effects (item : ContentItem) (w : world)
    (el : Dom.element) :
  Dom.lookup "contentDisplay" (Dom.by_id (document w)) = Some el ->
  markup_of "contentDisplay" (displayContent item w)
  = viewer_template MOJIBAKE_BULLET item (Dom.escape_text (title item))
      (Spec.full_view_body (content_type item) (content item))
  /\ gate (displayContent item w) = gate w
  /\ currentContent (this (displayContent item w)) = currentContent (this w)
  /\ warning_hidden (displayContent item w) = warning_hidden w.
Proof.
  intros H. unfold displayContent.
  destruct (navigateToPage_keeps_elements "content-viewer" _ w el H)
    as [el' H'].
  destruct (navigateToPage_keeps_fields "content-viewer" w) as [G [C _]].
  destruct (exec_frame (render_full_view MOJIBAKE_BULLET item)
              (navigateToPage "content-viewer" w)) as [T _].
  split; [apply (full_view_markup _ _ _ el' H')|].
  unfold gate. rewrite T. split; [exact G|]. split; [exact C|].
  unfold warning_hidden.
  rewrite render_full_view_keeps_others by discriminate.
  apply navigateToPage_keeps_hidden.
Qed.

End WarningFacts.

(** X16: opening an explicit item while the gate is off displays nothing:
    the content viewer keeps what it held, the item is remembered, the
    content warning is shown, and neither the current page nor the gate
    changes and no call is made. *)
Theorem openContent_explicit_shows_warning_only {host : Host}
    (item : ContentItem) (w : App.world) (modal : Dom.element) :
  explicit_content item = true ->
  gate w = false ->
  Dom.lookup "contentWarning" (Dom.by_id (App.document w)) = Some modal ->
  markup_of "contentDisplay" (openContent item w)
  = markup_of "contentDisplay" w
  /\ App.currentContent (App.this (openContent item w)) = Some item
  /\ warning_hidden (openContent item w) = false
  /\ App.currentPage (App.this (openContent item w))
     = App.currentPage (App.this w)
  /\ gate (openContent item w) = false
  /\ App.calls (openContent item w) = App.calls w.
Proof.
  intros He Hg Hm.
  destruct (openContent_explicit_asks_first item w He Hg) as [M C].
  split; [exact M|]. split; [exact C|].
  unfold openContent. rewrite He, Hg. cbn [andb negb].
  set (w1 := App.with_this _ w).
  destruct (exec_frame (showContentWarning item) w1) as [T [K _]].
  split; [|split; [|split]].
  - apply (showContentWarning_shows item w1 modal). now destruct w.
  - rewrite T. now destruct w as [[] ?].
  - unfold gate in *. rewrite T. now destruct w as [[] ?].
  - rewrite K. now destruct w.
Qed.

(** The theorem above for the explicit sample item on a fresh page. *)
Lemma openContent_explicit_shows_warning_only_witness :
  markup_of "contentDisplay"
    (openContent (host := MoreExamples.plain_host) Examples.midnight
                 Examples.fresh)
  = markup_of "contentDisplay" Examples.fresh
  /\ App.currentContent
       (App.this (openContent (host := MoreExamples.plain_host)
                    Examples.midnight Examples.fresh))
     = Some Examples.midnight
  /\ warning_hidden (openContent (host := MoreExamples.plain_host)
                       Examples.midnight Examples.fresh) = false
  /\ App.currentPage
       (App.this (openContent (host := MoreExamples.plain_host)
                    Examples.midnight Examples.fresh))
     = App.currentPage (App.this Examples.fresh)
  /\ gate (openContent (host := MoreExamples.plain_host) Examples.midnight
             Examples.fresh) = false
  /\ App.calls (openContent (host := MoreExamples.plain_host)
                  Examples.midnight Examples.fresh)
     = App.calls Examples.fresh.
Proof.
  apply (openContent_explicit_shows_warning_only
           (host := MoreExamples.plain_host) Examples.midnight
           Examples.fresh (Examples.element 10 ["hidden"]));
    reflexivity.
Defined.

(** X17: confirming the warning displays the item that raised it, for
    this one access: after an explicit item is opened with the gate off
    and the warning confirmed, the content viewer holds the full view of
    that item, the warning is hidden again, and the gate is still off. *)
Theorem confirm_displays_the_item_once {host : Host}
    (item : ContentItem) (w : App.world) (el : Dom.element) :
  explicit_content item = true ->
  gate w = false ->
  Dom.lookup "contentDisplay" (Dom.by_id (App.document w)) = Some el ->
  markup_of "contentDisplay" (click_confirmAge (openContent item w))
  = viewer_template MOJIBAKE_BULLET item (Dom.escape_text (title item))
      (Spec.full_view_body (content_type item) (content item))
  /\ warning_hidden (click_confirmAge (openContent item w)) = true
  /\ gate (click_confirmAge (openContent item w)) = false.
Proof.
  intros He Hg H.
  destruct (openContent_explicit_asks_first item w He Hg) as [_ C].
  destruct (click_confirmAge_displays_current item (openContent item w) C)
    as [R G].
  assert (G0 : gate (openContent item w) = false).
  { unfold openContent. rewrite He, Hg. cbn [andb negb].
    destruct (exec_frame (showContentWarning item)
                (App.with_this
                   (App.set_currentContent (Some item) (App.this w)) w))
      as [T _].
    unfold gate in *. rewrite T. now destruct w as [[] ?]. }
  assert (V : exists el1,
            Dom.lookup "contentDisplay"
              (Dom.by_id (App.document
                            (App.exec hideContentWarning
                                      (openContent item w))))
            = Some el1).
  { rewrite hideContentWarning_keeps_viewer.
    unfold openContent. rewrite He, Hg. cbn [andb negb].
    destruct (exec_frame (showContentWarning item)
                (App.with_this
                   (App.set_currentContent (Some item) (App.this w)) w))
      as [_ [_ [_ D]]].
    rewrite D. unfold showContentWarning, Dom.bind, Dom.getElementById,
      Dom.store, Dom.ret.
    replace (App.document
               (App.with_this
                  (App.set_currentContent (Some item) (App.this w)) w))
      with (App.document w) by (now destruct w).
    destruct (Dom.lookup "warningContentType"
                (Dom.by_id (App.document w))) as [ct|];
      cbn [Dom.by_id Dom.next_uid snd];
      rewrite ?(lookup_replace_other "warningContentType" "contentWarning")
        by discriminate;
      destruct (Dom.lookup "contentWarning" (Dom.by_id (App.document w)));
      cbn [snd Dom.by_id];
      rewrite ?(lookup_replace_other "contentWarning" "contentDisplay")
        by discriminate;
      rewrite ?(lookup_replace_other "warningContentType" "contentDisplay")
        by discriminate;
      eauto. }
  destruct V as [el1 V].
  destruct (displayContent_effects item _ el1 V) as [M [G1 [_ Wh]]].
  rewrite R. split; [exact M|]. split.
  - rewrite Wh. apply hideContentWarning_hides.
  - rewrite G1, G. exact G0.
Qed.

(** The theorem above for the explicit sample item on a fresh page. *)
Lemma confirm_displays_the_item_once_witness :
  markup_of "contentDisplay"
    (click_confirmAge (host := MoreExamples.plain_host)
       (openContent (host := MoreExamples.plain_host) Examples.midnight
                    Examples.fresh))
  = viewer_template (host := MoreExamples.plain_host) MOJIBAKE_BULLET
      Examples.midnight (Dom.escape_text (title Examples.midnight))
      (Spec.full_view_body (content_type Examples.midnight)
                           (content Examples.midnight))
  /\ warning_hidden
       (click_confirmAge (host := MoreExamples.plain_host)
          (openContent (host := MoreExamples.plain_host) Examples.midnight
                       Examples.fresh)) = true
  /\ gate (click_confirmAge (host := MoreExamples.plain_host)
             (openContent (host := MoreExamples.plain_host)
                Examples.midnight Examples.fresh)) = false.
Proof.
  apply (confirm_displays_the_item_once (host := MoreExamples.plain_host)
           Examples.midnight Examples.fresh (Examples.element 7 []));
    reflexivity.
Defined.

(** X18: an item that is not explicit, or any item while the gate is on,
    is displayed at once: the content viewer holds its full view, no
    warning appears or disappears, and the remembered item and the gate
    stay as they were. *)
Theorem openContent_displays_directly {host : Host}
    (item : ContentItem) (w : App.world) (el : Dom.element) :
  explicit_content item && negb (gate w) = false ->
  Dom.lookup "contentDisplay" (Dom.by_id (App.document w)) = Some el ->
  markup_of "contentDisplay" (openContent item w)
  = viewer_template MOJIBAKE_BULLET item (Dom.escape_text (title item))
      (Spec.full_view_body (content_type item) (content item))
  /\ warning_hidden (openContent item w) = warning_hidden w
  /\ App.currentContent (App.this (openContent item w))
     = App.currentContent (App.this w)
  /\ gate (openContent item w) = gate w.
Proof.
  intros C H. unfold openContent. rewrite C.
  destruct (displayContent_effects item w el H) as [M [G [K Wh]]].
  auto.
Qed.

(** The theorem above for the sample poem on a fresh page. *)
Lemma openContent_displays_directly_witness :
  markup_of "contentDisplay"
    (openContent (host := MoreExamples.plain_host) Examples.poem
                 Examples.fresh)
  = viewer_template (host := MoreExamples.plain_host) MOJIBAKE_BULLET
      Examples.poem (Dom.escape_text (title Examples.poem))
      (Spec.full_view_body (content_type Examples.poem)
                           (content Examples.poem))
  /\ warning_hidden (openContent (host := MoreExamples.plain_host)
                       Examples.poem Examples.fresh)
     = warning_hidden Examples.fresh
  /\ App.currentContent
       (App.this (openContent (host := MoreExamples.plain_host)
                    Examples.poem Examples.fresh))
     = App.currentContent (App.this Examples.fresh)
  /\ gate (openContent (host := MoreExamples.plain_host) Examples.poem
             Examples.fresh) = gate Examples.fresh.
Proof.
  apply (openContent_displays_directly (host := MoreExamples.plain_host)
           Examples.poem Examples.fresh (Examples.element 7 []));
    reflexivity.
Defined.

(** X19: cancelling the warning never displays anything: the content
    viewer keeps what it held, the warning is hidden, and the gate and
    the remembered item are left as they are. *)
Theorem cancel_displays_nothing (w : App.world) :
  markup_of "contentDisplay" (click_cancelWarning w)
  = markup_of "contentDisplay" w
  /\ warning_hidden (click_cancelWarning w) = true
  /\ gate (click_cancelWarning w) = gate w
  /\ App.currentContent (App.this (click_cancelWarning w))
     = App.currentContent (App.this w).
Proof.
  unfold click_cancelWarning.
  destruct (navigateToPage_keeps_fields "browse"
              (App.exec hideContentWarning w)) as [G [C _]].
  destruct (exec_frame hideContentWarning w) as [T _].
  split; [|split; [|split]].
  - rewrite navigateToPage_keeps_markup. unfold markup_of.
    now rewrite hideContentWarning_keeps_viewer.
  - rewrite navigateToPage_keeps_hidden. apply hideContentWarning_hides.
  - unfold gate. now rewrite G, T.
  - now rewrite C, T.
Qed.

(** The theorem [debounce_last_keystroke_wins] in a session that has
    searched before: the panel shows a result and [searchTimeout] holds
    the handle of the timer that fired. A character is deleted, leaving
    [l], and two are typed 100 ms later: the only new call is the search
    for [lov], and the panel is still shown, though the first query was
    too short to search for. *)
Lemma debounce_last_keystroke_wins_witness :
  only_debounce_pending MoreExamples.searched = true
  /\ App.searchTimeout (App.this MoreExamples.searched) = Some 1
  /\ App.calls (elapse 300 (on_input "lov"
                   (elapse 100 (on_input "l" MoreExamples.searched))))
     = (App.calls MoreExamples.searched
        ++ [App.mkCall "/search"
              [("q", VString "lov"); ("limit", VNumber 10);
               ("include_explicit", VBool false)]
              App.AfterQuickSearch])%list
  /\ App.document (elapse 300 (on_input "lov"
                      (elapse 100 (on_input "l" MoreExamples.searched))))
     = App.document MoreExamples.searched
  /\ results_hidden MoreExamples.searched = false.
Proof.
  split; [reflexivity|]. split; [reflexivity|].
  destruct (debounce_last_keystroke_wins MoreExamples.searched
              "l" "lov" 100) as (_ & C & D & _);
    [reflexivity | discriminate | lia |].
  split; [exact C|]. split; [exact D|reflexivity].
Defined.

Section EnterAndBlurFacts.

Import JsString App.


End EnterAndBlurFacts.


(** X22: when the field loses focus the quick-search panel stays as it
    is for 200 ms and is hidden then, if no other timer is pending. *)
Theorem blur_hides_after_grace_delay (w : App.world) :
  App.timers w = [] ->
  results_hidden (elapse 200 (on_blur w)) = true
  /\ forall d, (0 <= d < 200)%Z ->
               results_hidden (elapse d (on_blur w)) = results_hidden w.
Proof.
  destruct w as [a doc nl v t nh ts cs ps]. cbn [App.timers]. intros ->.
  set (t1 := App.mkTimer nh (t + 200) App.HideAfterBlur).
  assert (E : on_blur (App.mkWorld a doc nl v t nh [] cs ps)
              = App.mkWorld a doc nl v t (S nh) [t1] cs ps) by reflexivity.
  rewrite E. split.
  - unfold elapse. cbn [App.now App.timers fire_due t1 App.due App.handle
                        App.action].
    rewrite Z.leb_refl. unfold App.is_pending_timer at 1.
    cbn [App.timers existsb App.handle]. rewrite Nat.eqb_refl.
    cbn [orb andb run_callback].
    unfold results_hidden. cbn [App.with_now App.document].
    match goal with
    | |- context [App.exec hideSearchResults ?w0] =>
        pose proof (proj1 (hideSearchResults_hides w0)) as Hh
    end.
    unfold results_hidden in Hh. exact Hh.
  - intros d Hd. unfold elapse.
    cbn [App.now App.timers fire_due t1 App.due].
    replace (t + 200 <=? t + d)%Z with false
      by (symmetry; apply Z.leb_gt; lia).
    reflexivity.
Qed.

(** The theorem above on the page that shows a result. *)
Lemma blur_hides_after_grace_delay_witness :
  results_hidden (elapse 200 (on_blur Examples.showing_results)) = true
  /\ forall d, (0 <= d < 200)%Z ->
               results_hidden (elapse d (on_blur Examples.showing_results))
               = results_hidden Examples.showing_results.
Proof.
  apply (blur_hides_after_grace_delay Examples.showing_results).
  reflexivity.
Defined.

(* ================================================================== *)
(** * Cards, escaping and the formatted body *)
(* ================================================================== *)

Section CardFacts.

Context {host : Host}.

Import JsString.

Lemma ContentCard_create_run (item : ContentItem) (d : Dom.document) :
  exists k,
    ContentCard_create item d
    = (Dom.mkElement (Dom.next_uid d) "div" ["content-card"] []
         [Dom.Raw (card_template item
                     (Dom.escape_text (title item))
                     (Dom.escape_text (excerpt (content item)))
                     (match tags item with
                      | Some ((_ :: _) as tags) => card_tags_markup tags
                      | _ => ""
                      end))],
       Dom.advance k d).
Proof.
  unfold ContentCard_create, Dom.bind at 1, Dom.createElement.
  rewrite (bind_run _ _ _ _ _ (escapeHtml_run _ _)).
  rewrite (bind_run _ _ _ _ _ (escapeHtml_run _ _)).
  destruct (tags item) as [[|t l]|].
  - unfold Dom.bind, Dom.ret. rewrite !advance_advance. now eexists.
  - rewrite (bind_run _ _ _ _ _ (card_tags_run _ _)).
    unfold Dom.ret. rewrite !advance_advance. now eexists.
  - unfold Dom.bind, Dom.ret. rewrite !advance_advance. now eexists.
Qed.

Lemma count_escape_unit_brackets (x : ascii) :
  Url.count_unit "<" (Dom.escape_unit x) = 0
  /\ Url.count_unit ">" (Dom.escape_unit x) = 0.
Proof.
  destruct x as [b0 b1 b2 b3 b4 b5 b6 b7].
  destruct b0, b1, b2, b3, b4, b5, b6, b7; vm_compute; auto.
Qed.

Lemma count_escape_text_brackets (s : string) :
  Url.count_unit "<" (Dom.escape_text s) = 0
  /\ Url.count_unit ">" (Dom.escape_text s) = 0.
Proof.
  induction s as [|x s [I1 I2]]; [now cbn|].
  cbn [Dom.escape_text]. rewrite !count_unit_app, I1, I2.
  destruct (count_escape_unit_brackets x) as [H1 H2]. now rewrite H1, H2.
Qed.

Lemma count_wrap (s : string) :
  Url.count_unit "<" (Spec.wrap s) = 2 /\ Url.count_unit ">" (Spec.wrap s) = 2.
Proof.
  unfold Spec.wrap. rewrite !count_unit_app.
  destruct (count_escape_text_brackets s) as [H1 H2]. rewrite H1, H2.
  now cbn.
Qed.

Lemma count_concat_map {A} (c : ascii) (f : A -> string) (n : nat)
    (l : list A) :
  (forall x, Url.count_unit c (f x) = n) ->
  Url.count_unit c (String.concat "" (map f l)) = n * List.length l.
Proof.
  intros H. induction l as [|x l IH]; [cbn; lia|].
  cbn [map]. destruct (map f l) as [|y ys] eqn:E.
  - destruct l; [|discriminate]. cbn. rewrite H. lia.
  - cbn [String.concat]. rewrite !count_unit_app.
    cbn [String.concat] in IH. rewrite H, IH. cbn [List.length Url.count_unit].
    lia.
Qed.

End CardFacts.

(** X23: the card of the component [ContentCard] has the markup of the
    card of the application whenever the item has no tag list or a
    non-empty one, but it carries no click listener, whereas the card of
    the application opens its item. *)
Theorem component_card_matches_app_card {host : Host}
    (item : ContentItem) (d : Dom.document) :
  tags item <> Some [] ->
  Dom.innerHTML (fst (ContentCard_create item d))
  = Dom.innerHTML (fst (createContentCard item d))
  /\ Dom.listeners (fst (ContentCard_create item d)) = []
  /\ Dom.listeners (fst (createContentCard item d))
     = [Dom.OpenContent item].
Proof.
  intros T. destruct (ContentCard_create_run item d) as [k H].
  rewrite H, createContentCard_run. cbn [fst].
  split; [|split; reflexivity].
  unfold card_node, card_inner, Dom.innerHTML. cbn [Dom.childNodes].
  destruct (tags item) as [[|t l]|]; [congruence | reflexivity..].
Qed.

(** The theorem above for the sample poem. *)
Lemma component_card_matches_app_card_witness :
  Dom.innerHTML (fst (ContentCard_create (host := MoreExamples.plain_host)
                        Examples.poem Examples.page))
  = Dom.innerHTML (fst (createContentCard (host := MoreExamples.plain_host)
                          Examples.poem Examples.page))
  /\ Dom.listeners (fst (ContentCard_create (host := MoreExamples.plain_host)
                           Examples.poem Examples.page)) = []
  /\ Dom.listeners (fst (createContentCard (host := MoreExamples.plain_host)
                           Examples.poem Examples.page))
     = [Dom.OpenContent Examples.poem].
Proof.
  apply (component_card_matches_app_card (host := MoreExamples.plain_host)
           Examples.poem Examples.page).
  discriminate.
Defined.

(** X24: [escapeHtml] returns a text without angle brackets, whatever it
    is given, and leaves every element of the page as it is. *)
Theorem escapeHtml_removes_angle_brackets (text : string)
    (d : Dom.document) :
  Url.count_unit "<" (fst (escapeHtml text d)) = 0
  /\ Url.count_unit ">" (fst (escapeHtml text d)) = 0
  /\ Dom.by_id (snd (escapeHtml text d)) = Dom.by_id d.
Proof.
  rewrite escapeHtml_run. cbn [fst snd].
  destruct (count_escape_text_brackets text) as [H1 H2]. auto.
Qed.

(** X26: a response that is neither an array nor an object holding an
    array under [tags] leaves the page as it is: [null], a string, a
    number, an object without tags do not empty the tag cloud. *)
Theorem tag_cloud_ignores_other_responses
    (response : value) (w : App.world) :
  Value.isArray response = false ->
  (forall fields, response = VObject fields ->
                  Value.isArray (Value.assoc "tags" fields) = false) ->
  App.exec (loadTagCloud_resolved response) w = w.
Proof.
  intros A O. unfold App.exec, App.on_document, loadTagCloud_resolved.
  assert (R : forall tags : value,
             Value.isArray tags = false ->
             snd (let (a, d) :=
                    Dom.bind (Dom.getElementById "tagCloud")
                      (fun tagCloud =>
                         match tagCloud with
                         | Some el =>
                             if Value.isArray tags
                             then Dom.bind
                                    (Dom.mapM tag_cloud_entry
                                       (firstn 12 (names_of tags)))
                                    (fun entries =>
                                       Dom.store "tagCloud"
                                         (Dom.set_innerHTML el
                                            (JsString.join entries "")))
                             else Dom.ret tt
                         | None => Dom.ret tt
                         end) (App.document w) in
                  (a, App.with_document d w)) = w).
  { intros tags At. unfold Dom.bind at 1, Dom.getElementById. rewrite At.
    destruct (Dom.lookup "tagCloud" (Dom.by_id (App.document w)));
      now destruct w. }
  destruct response as [| |b|z|s|l|l|fields]; cbn [Value.get];
    try discriminate; try (now destruct w); try (now apply R).
  specialize (O fields eq_refl).
  destruct (Value.truthy (Value.assoc "tags" fields)); now apply R.
Qed.

(** The theorem above for the response [null]. *)
Lemma tag_cloud_ignores_other_responses_witness :
  App.exec (loadTagCloud_resolved VNull) Examples.fresh = Examples.fresh.
Proof.
  apply (tag_cloud_ignores_other_responses VNull Examples.fresh);
    [reflexivity | intros fields E; discriminate E].
Defined.

(** X27: the formatted body of the full view holds no markup but its
    paragraph tags: it has exactly two opening and two closing angle
    brackets per piece of the body (per line for poetry, per
    blank-line-separated paragraph otherwise), whatever the body holds. *)
Theorem formatted_body_has_only_paragraph_tags
    (content type : string) (d : Dom.document) :
  let pieces :=
    JsString.split content
      (if (type =? "poetry")%string then JsString.newline
       else JsString.blank_line) in
  Url.count_unit "<" (fst (formatContentForDisplay content type d))
  = 2 * List.length pieces
  /\ Url.count_unit ">" (fst (formatContentForDisplay content type d))
     = 2 * List.length pieces.
Proof.
  cbv zeta.
  destruct (formatContentForDisplay_run content type d) as [k H].
  rewrite H. cbn [fst]. unfold Spec.full_view_body.
  destruct (type =? "poetry")%string.
  - rewrite split_newline_lines.
    split; apply count_concat_map; intros line;
      destruct (Spec.blank line); try apply count_wrap; reflexivity.
  - rewrite split_blank_line_paragraphs.
    destruct (type =? "dialogue")%string;
      split; apply count_concat_map; intros p; apply count_wrap.
Qed.

Section TagCloudCounts.

Import JsString.





End TagCloudCounts.


